(** * goodlark v1.1: range arithmetic and batched transfer, verified

    A shallow embedding of [src/goodlark_v1.1/goodlark.py] (class [goodlark])
    and the properties of its column index, grid normalisation, range
    computation, batch planning, retry loops and read assembly.

    Conventions of the embedding.
    - Python [int] is [Z]; [len] returns a [nat] that is injected with
      [Z.of_nat] wherever the source does arithmetic on it.
    - Python [str] is [string], restricted to ASCII text.
    - A [dict] is a [gmap]; a dict whose iteration order is observed (the
      labelled-column input of [to_2d_list]) is an association list.
    - An exception is a value of [pyexc]; the wrapper
      [raise Exception(f"Failed: <fn>. {e}")] that closes every method is
      [Failed fn e].
    - Network calls and [time.sleep] are events appended to a trace, over an
      arbitrary remote service ([Remote]). *)

From Stdlib Require Import ZArith String Ascii Decimal DecimalString DecimalPos DecimalZ.
From stdpp Require Import gmap strings list fin_maps.

Local Open Scope Z_scope.

(* ===================================================================== *)
(** * Part I. The program                                                *)
(* ===================================================================== *)

(** ** Python values and exceptions *)

(** A cell of a grid: [None], [float('nan')], a [str] or an [int].  Other
    floats do not occur in the properties below. *)
Inductive cell :=
| CNone
| CNaN
| CStr (s : string)
| CInt (z : Z).

#[global] Instance cell_eq_dec : EqDecision cell.
Proof. solve_decision. Defined.

Abbreviation grid := (list (list cell)).

(** [pd.isna] on a scalar. *)
Definition pd_isna (item : cell) : bool :=
  match item with
  | CNone | CNaN => true
  | _ => false
  end.

(** The texts of the [ValueError]s raised by the source. *)
Inductive value_error :=
| EmptyRow            (* "行数据不能为空。请使用''、None、Nan等表示空值。" *)
| UnequalLengths      (* "所有元素长度必须相同" *)
| DictValueLengths    (* "dict中所有值长度必须相同" *)
| BadInputType        (* "输入数据类型必须为dataframe、dict" *)
| RangeStepZero       (* "range() arg 3 must not be zero" *)
| InvalidLiteral      (* "invalid literal for int() with base 10" *)
| ColumnsMismatch (passed had : nat).
                      (* pandas: "<passed> columns passed, passed data had <had> columns" *)

Inductive key :=
| KStr (s : string)
| KInt (z : Z)
| KLabels (missing : list cell).

Inductive pyexc :=
| ValueError (m : value_error)
| KeyError (k : key)
| IndexError
| AttributeError          (* 'NoneType' object has no attribute 'group' *)
| ZeroDivisionError
| TransportError (detail : string)
      (* anything raised by requests, raise_for_status or the JSON access *)
| RequestFailed (code : Z) (msg : string)
      (* Exception(f"请求失败。{code}。{msg}") *)
| PayloadTooLarge (batch_size : option Z)
      (* Exception("请求失败。单次数据量过大 ...") on code 90227 *)
| Failed (fn : string) (cause : pyexc).
      (* Exception(f"Failed: {fn}. {cause}") *)

Inductive result (A : Type) :=
| Ok (a : A)
| Err (e : pyexc).
Arguments Ok {A} a.
Arguments Err {A} e.

#[global] Instance result_ret : MRet result := λ A a, Ok a.
#[global] Instance result_bind : MBind result := λ A B f m,
  match m with
  | Ok a => f a
  | Err e => Err e
  end.

(** [try: body except Exception as e: raise Exception(f"Failed: {fn}. {e}")] *)
Definition wrap {A} (fn : string) (body : result A) : result A :=
  match body with
  | Ok a => Ok a
  | Err e => Err (Failed fn e)
  end.

(** A subscript [d[k]] or [l[i]] that raises when the entry is missing. *)
Definition subscript {A} (o : option A) (e : pyexc) : result A :=
  match o with
  | Some a => Ok a
  | None => Err e
  end.

(** The exception a method reports, below its chain of [Failed] wrappers. *)
Fixpoint root_cause (e : pyexc) : pyexc :=
  match e with
  | Failed _ cause => root_cause cause
  | _ => e
  end.

Definition is_validation_error (e : pyexc) : Prop :=
  ∃ m, root_cause e = ValueError m.

(** ** Built-ins: [range], slices, [str], [int], [re.search] *)

(** [list(range(start, stop, step))]: CPython computes the length first and
    the items as [start + i * step]. *)
Definition range_len (start stop step : Z) : Z :=
  if 0 <? step then
    if start <? stop then (stop - start - 1) / step + 1 else 0
  else
    if stop <? start then (start - stop - 1) / (- step) + 1 else 0.

Definition py_range (start stop step : Z) : result (list Z) :=
  if step =? 0 then Err (ValueError RangeStepZero)
  else Ok ((λ i : nat, start + Z.of_nat i * step) <$> seq 0 (Z.to_nat (range_len start stop step))).

(** [l[a:b]] with Python's treatment of negative and oversized bounds. *)
Definition slice_index (len i : Z) : Z :=
  if i <? 0 then Z.max (i + len) 0 else Z.min i len.

Definition py_slice {A} (l : list A) (a b : Z) : list A :=
  let len := Z.of_nat (length l) in
  let a' := slice_index len a in
  let b' := slice_index len b in
  take (Z.to_nat (b' - a')) (drop (Z.to_nat a') l).

(** [str(n)], also the rendering of an int inside an f-string. *)
Definition py_str (n : Z) : string := NilZero.string_of_int (Z.to_int n).

(** [int(s)] on a run of decimal digits, the only use the source makes. *)
Definition py_int (s : string) : option Z :=
  Z.of_uint <$> NilZero.uint_of_string s.

Definition is_alpha (c : ascii) : bool :=
  let n := N_of_ascii c in
  ((65 <=? n) && (n <=? 90) || (97 <=? n) && (n <=? 122))%N.

Definition is_digit (c : ascii) : bool :=
  let n := N_of_ascii c in
  ((48 <=? n) && (n <=? 57))%N.

Definition upper_ascii (c : ascii) : ascii :=
  let n := N_of_ascii c in
  if ((97 <=? n) && (n <=? 122))%N then ascii_of_N (n - 32) else c.

(** [s.upper()] *)
Fixpoint upper (s : string) : string :=
  match s with
  | EmptyString => EmptyString
  | String c s' => String (upper_ascii c) (upper s')
  end.

(** The longest prefix of [s] made of characters satisfying [p], and the rest. *)
Fixpoint span (p : ascii → bool) (s : string) : string * string :=
  match s with
  | EmptyString => (EmptyString, EmptyString)
  | String c s' =>
      if p c then let '(run, rest) := span p s' in (String c run, rest)
      else (EmptyString, s)
  end.

(** The pattern [([A-Za-z]+)(\d+)] matched at the start of [s]: both groups
    are greedy, and giving back letters never helps, because the character
    after a shorter run of letters is a letter, not a digit. *)
Definition match_cell_at (s : string) : option (string * string) :=
  let '(letters, rest) := span is_alpha s in
  let '(digits, _) := span is_digit rest in
  match letters, digits with
  | String _ _, String _ _ => Some (letters, digits)
  | _, _ => None
  end.

(** [re.search(r'([A-Za-z]+)(\d+)', s)]: the leftmost match; [None] when
    there is none.  The pair is ([group(1)], [group(2)]). *)
Fixpoint re_search_cell (s : string) : option (string * string) :=
  match match_cell_at s with
  | Some m => Some m
  | None =>
      match s with
      | EmptyString => None
      | String _ s' => re_search_cell s'
      end
  end.

(** ** ColumnIndex: [generate_col_order_info] *)

(** [chr(ord('A') + i)] *)
Definition chr_A (i : nat) : ascii := ascii_of_nat (65 + i).

Definition A_Z_list : list string :=
  (λ i, String (chr_A i) EmptyString) <$> seq 0 26.

Definition AA_ZZ_list : list string :=
  flat_map (λ i, (λ j, String (chr_A i) (String (chr_A j) EmptyString)) <$> seq 0 26)
           (seq 0 26).

Definition A_ZZ_list : list string := A_Z_list ++ AA_ZZ_list.

(** [enumerate(l)] *)
Definition enumerate {A} (l : list A) : list (Z * A) :=
  imap (λ i x, (Z.of_nat i, x)) l.

(** A dict comprehension [{k: v for ...}]: entries are stored in order, a
    later one replacing an earlier one with the same key. *)
Definition dict_of `{Countable K} {V} (entries : list (K * V)) : gmap K V :=
  foldl (λ d kv, <[kv.1 := kv.2]> d) ∅ entries.

Record col_order_info_t := {
  col_to_order : gmap string Z;
  order_to_col : gmap Z string
}.

Definition generate_col_order_info : col_order_info_t :=
  {| col_to_order := dict_of ((λ ic, (ic.2, ic.1)) <$> enumerate A_ZZ_list);
     order_to_col := dict_of (enumerate A_ZZ_list) |}.

(** [self.col_order_info], set once in [__init__]. *)
Definition col_order_info : col_order_info_t := generate_col_order_info.
Arguments col_order_info : simpl never.

(** ** GridNormalizer: [to_2d_list] and the shape check *)

(** A [pd.DataFrame]: its column labels and its rows ([.values.tolist()]). *)
Record DataFrame := {
  df_columns : list cell;
  df_values : grid
}.

(** What the writers accept: a list of lists, a DataFrame, or a dict from
    labels to value sequences (in insertion order). *)
Inductive input :=
| InList (rows : grid)
| InDataFrame (df : DataFrame)
| InDict (d : list (cell * list cell)).

Definition to_2d_list (input_data : input) : result grid :=
  wrap "to_2d_list"
    match input_data with
    | InDataFrame df =>
        let col_list := df_columns df in
        let value_list := df_values df in
        Ok ([col_list] ++ value_list)
    | InDict d =>
        let key_list := d.*1 in
        let value_list := d.*2 in
        let value_lengths := length <$> value_list in
        if decide (size (list_to_set value_lengths : gset nat) ≠ 1%nat)
        then Err (ValueError DictValueLengths)
        else
          sample_num ← subscript (value_lengths !! 0%nat) IndexError;
          rows ← mapM (λ i : nat, mapM (λ val : list cell, subscript (val !! i) IndexError) value_list)
                      (seq 0 sample_num);
          Ok ([key_list] ++ rows)
    | InList _ => Err (ValueError BadInputType)
    end.

(** The loop that opens [complete_data_range], [write_multi_data] and
    [batch_write_multi_data] (same text in the three): every row must be
    non-empty; the lengths are collected in [elem_len]. *)
Fixpoint collect_elem_len (data : grid) (elem_len : list nat) : result (list nat) :=
  match data with
  | [] => Ok elem_len
  | elem :: data' =>
      match elem with
      | [] => Err (ValueError EmptyRow)
      | _ => collect_elem_len data' (elem_len ++ [length elem])
      end
  end.

(** ... followed by [if len(set(elem_len)) != 1: raise ValueError(...)]. *)
Definition check_2d_list (data : grid) : result unit :=
  elem_len ← collect_elem_len data [];
  if decide (size (list_to_set elem_len : gset nat) ≠ 1%nat)
  then Err (ValueError UnequalLengths)
  else Ok ().

(** [[["" if pd.isna(item) else item for item in sublist] for sublist in data]] *)
Definition sanitize (item : cell) : cell :=
  if pd_isna item then CStr "" else item.

Definition standardize (formatted_data : grid) : grid :=
  (λ sublist : list cell, sanitize <$> sublist) <$> formatted_data.

(** ** RangeCalculator: [complete_data_range] *)

Definition complete_data_range (start_loc : string) (input_data : grid) : result string :=
  wrap "complete_data_range"
    (search_match ← subscript (re_search_cell start_loc) AttributeError;
     let start_letter := upper search_match.1 in
     start_number ← subscript (py_int search_match.2) (ValueError InvalidLiteral);
     _ ← check_2d_list input_data;
     let row_num := Z.of_nat (length input_data) in
     first_row ← subscript (input_data !! 0%nat) IndexError;
     let col_num := Z.of_nat (length first_row) in
     start_order ← subscript (col_to_order col_order_info !! start_letter)
                             (KeyError (KStr start_letter));
     let end_letter_order := start_order + col_num - 1 in
     end_letter ← subscript (order_to_col col_order_info !! end_letter_order)
                            (KeyError (KInt end_letter_order));
     let end_number := start_number + row_num - 1 in
     Ok (start_letter +:+ py_str start_number +:+ ":" +:+ end_letter +:+ py_str end_number)).


(** ** The remote service and the effects of a call *)

(** The body of a write response, [response.json()]. *)
Record put_response := {
  code : Z;
  msg : string
}.

(** The collaborators behind [requests] and the [lark_oapi] client, as a state
    machine over an arbitrary [world].  Each operation returns what the
    source reads from the response, or the exception it raises.
    - [post_auth]: the tenant_access_token of [get_tenant_access_token];
    - [query_sheets tok]: the (title, sheet_id) pairs of the spreadsheet;
    - [requests_get url bearer]: [response.json()['data']['valueRange']['values']];
    - [requests_put url bearer range values]: [response.json()]. *)
Record Remote := {
  world : Type;
  post_auth : world → result string * world;
  query_sheets : string → world → result (list (string * string)) * world;
  requests_get : string → string → world → result grid * world;
  requests_put : string → string → string → grid → world → result put_response * world
}.

(** What an observer of the process sees. *)
Inductive event :=
| EvAuth
| EvQuerySheets (spreadsheet_token : string)
| EvGet (url bearer : string)
| EvPut (url bearer range : string) (values : grid)
| EvSleep (seconds : Z).

Section Effects.
Context {R : Remote}.

(** A computation runs in a world and yields its outcome (a value or the
    exception raised), the world it leaves and the events it produced. *)
Definition M (A : Type) : Type := world R → result A * world R * list event.

#[global] Instance M_ret : MRet M := λ A a w, (Ok a, w, []).
#[global] Instance M_bind : MBind M := λ A B f m w,
  match m w with
  | (Ok a, w1, t1) => let '(r, w2, t2) := f a w1 in (r, w2, t1 ++ t2)
  | (Err e, w1, t1) => (Err e, w1, t1)
  end.

Definition lift {A} (r : result A) : M A := λ w, (r, w, []).

Definition raise {A} (e : pyexc) : M A := lift (Err e).

Definition emit (ev : event) : M unit := λ w, (Ok (), w, [ev]).

Definition call {A} (op : world R → result A * world R) : M A := λ w,
  let '(r, w') := op w in (r, w', []).

(** [try: body except Exception as e: handler(e)] *)
Definition try_except {A} (body : M A) (handler : pyexc → M A) : M A := λ w,
  match body w with
  | (Ok a, w1, t1) => (Ok a, w1, t1)
  | (Err e, w1, t1) => let '(r, w2, t2) := handler e w1 in (r, w2, t1 ++ t2)
  end.

Definition wrapM {A} (fn : string) (body : M A) : M A :=
  try_except body (λ e, raise (Failed fn e)).

(** [for x in l: body(x)] *)
Fixpoint for_each {A} (l : list A) (body : A → M unit) : M unit :=
  match l with
  | [] => mret ()
  | x :: l' => _ ← body x; for_each l' body
  end.

Definition time_sleep (seconds : Z) : M unit := emit (EvSleep seconds).

Definition http_get (url bearer : string) : M grid :=
  _ ← emit (EvGet url bearer); call (requests_get R url bearer).

Definition http_put (url bearer range : string) (values : grid) : M put_response :=
  _ ← emit (EvPut url bearer range values); call (requests_put R url bearer range values).

(** ** The collaborators' wrappers *)

Definition get_tenant_access_token : M string :=
  wrapM "get_tenant_access_token"
    (_ ← emit EvAuth; call (post_auth R)).

Definition get_name_id_dict (spreadsheet_token : string) : M (gmap string string) :=
  wrapM "get_name_id_dict"
    (_ ← emit (EvQuerySheets spreadsheet_token);
     sheet_infos ← call (query_sheets R spreadsheet_token);
     mret (foldl (λ name_id_dict sheet_info, <[sheet_info.1 := sheet_info.2]> name_id_dict)
                 ∅ sheet_infos)).

(** [self.get_name_id_dict(spreadsheet_token)[sheet_name]] *)
Definition get_sheet_id (spreadsheet_token sheet_name : string) : M string :=
  name_id_dict ← get_name_id_dict spreadsheet_token;
  lift (subscript (name_id_dict !! sheet_name) (KeyError (KStr sheet_name))).

(** ** Writing: [write_multi_data] and [batch_write_multi_data] *)

Definition values_url (spreadsheet_token : string) : string :=
  "https://open.feishu.cn/open-apis/sheets/v2/spreadsheets/" +:+ spreadsheet_token +:+ "/values".

(** [to_2d_list] for a DataFrame or a dict, the input itself otherwise. *)
Definition format_input (input_data : input) : result grid :=
  match input_data with
  | InList rows => Ok rows
  | _ => to_2d_list input_data
  end.

Definition write_multi_data (spreadsheet_token sheet_name start_loc : string)
    (input_data : input) : M unit :=
  wrapM "write_multi_data"
    (formatted_data ← lift (format_input input_data);
     _ ← lift (check_2d_list formatted_data);
     let standard_data := standardize formatted_data in
     let url := values_url spreadsheet_token in
     bearer_token ← get_tenant_access_token;
     sheet_id ← get_sheet_id spreadsheet_token sheet_name;
     data_range ← lift (complete_data_range start_loc standard_data);
     response_dict ← http_put url bearer_token (sheet_id +:+ "!" +:+ data_range) standard_data;
     if code response_dict =? 0 then mret ()
     else if code response_dict =? 90227 then raise (PayloadTooLarge None)
     else raise (RequestFailed (code response_dict) (msg response_dict))).

Definition max_attempts : Z := 5.

(** [range(n)] *)
Definition range1 (n : Z) : list Z := Z.of_nat <$> seq 0 (Z.to_nat n).

(** The loop [for attempt in range(max_attempts)] of one batch, from the
    attempts still to run. *)
Fixpoint put_attempts (url bearer range : string) (values : grid) (batch_size : Z)
    (attempts : list Z) : M unit :=
  match attempts with
  | [] => mret ()
  | attempt :: attempts' =>
      response_dict ← http_put url bearer range values;
      if code response_dict =? 0 then mret ()
      else if code response_dict =? 90227 then raise (PayloadTooLarge (Some batch_size))
      else if attempt <? max_attempts - 1
           then _ ← time_sleep (10 * (attempt + 1));
                put_attempts url bearer range values batch_size attempts'
           else raise (RequestFailed (code response_dict) (msg response_dict))
  end.

(** [(total_rows // batch_size) + (1 if total_rows % batch_size != 0 else 0)] *)
Definition batch_num (total_rows batch_size : Z) : result Z :=
  if batch_size =? 0 then Err ZeroDivisionError
  else Ok (total_rows / batch_size + (if total_rows mod batch_size =? 0 then 0 else 1)).

(** One unit of the write plan: the origin cell, the range and the rows. *)
Record chunk := {
  chunk_origin : string;
  chunk_range : string;
  chunk_data : grid
}.

(** The first half of the loop body of [batch_write_multi_data]: the slice
    starting at [current_start_idx] and its range. *)
Definition plan_chunk (start_letter : string) (start_number : Z) (standard_data : grid)
    (batch_size current_start_idx : Z) : result chunk :=
  let total_rows := Z.of_nat (length standard_data) in
  let current_end_idx := Z.min (current_start_idx + batch_size) total_rows in
  let current_data := py_slice standard_data current_start_idx current_end_idx in
  let origin := start_letter +:+ py_str (start_number + current_start_idx) in
  current_data_range ← complete_data_range origin current_data;
  Ok {| chunk_origin := origin; chunk_range := current_data_range; chunk_data := current_data |}.

(** The body of the loop "分批处理": plan the batch, then send it with
    up to [max_attempts] attempts. *)
Definition write_batch (url bearer_token sheet_id start_letter : string) (start_number : Z)
    (standard_data : grid) (batch_size current_start_idx : Z) : M unit :=
  c ← lift (plan_chunk start_letter start_number standard_data batch_size current_start_idx);
  put_attempts url bearer_token (sheet_id +:+ "!" +:+ chunk_range c) (chunk_data c)
               batch_size (range1 max_attempts).

Definition batch_write_multi_data (spreadsheet_token sheet_name start_loc : string)
    (input_data : input) (batch_size : Z) : M unit :=
  wrapM "batch_write_multi_data"
    (formatted_data ← lift (format_input input_data);
     _ ← lift (check_2d_list formatted_data);
     let standard_data := standardize formatted_data in
     let url := values_url spreadsheet_token in
     bearer_token ← get_tenant_access_token;
     sheet_id ← get_sheet_id spreadsheet_token sheet_name;
     search_match ← lift (subscript (re_search_cell start_loc) AttributeError);
     let start_letter := upper search_match.1 in
     start_number ← lift (subscript (py_int search_match.2) (ValueError InvalidLiteral));
     let total_rows := Z.of_nat (length standard_data) in
     _ ← lift (batch_num total_rows batch_size);
     starts ← lift (py_range 0 total_rows batch_size);
     for_each starts (write_batch url bearer_token sheet_id start_letter start_number
                                  standard_data batch_size)).
End Effects.

(** ** Reading: [load_sheet_data_to_df] *)

(** *** The pandas operations it uses

    Modelled from the documented behaviour of pandas, on frames whose cells
    keep the values they were built from.
    - [pd.DataFrame(data, columns=...)] pads short rows with missing values
      and refuses data whose widest row does not have one cell per label (an
      empty [data] gives an empty frame).
    - [df.dropna(axis=0, how='all')] removes the rows all of whose cells are
      missing.
    - [df.drop(columns=labels)] removes every column carrying one of the
      labels.
    - [df[labels]] takes, for each requested label in turn, the columns
      carrying it, and raises [KeyError] with the labels that have none.
    A row is the list of its cells, aligned with the column labels. *)

Definition pd_DataFrame (data : grid) (columns : list cell) : result DataFrame :=
  let had := max_list (length <$> data) in
  if decide (data ≠ [] ∧ had ≠ length columns)
  then Err (ValueError (ColumnsMismatch (length columns) had))
  else Ok {| df_columns := columns;
             df_values := (λ row : list cell,
                             row ++ replicate (length columns - length row) CNone) <$> data |}.

Definition dropna_all (df : DataFrame) : DataFrame :=
  {| df_columns := df_columns df;
     df_values := filter (λ row : list cell, forallb pd_isna row = false) (df_values df) |}.

(** The cells of [row] under the columns whose label satisfies [keep]. *)
Definition cells_where (keep : cell → bool) (columns row : list cell) : list cell :=
  (filter (λ cv : cell * cell, keep cv.1 = true) (zip columns row)).*2.

Definition df_drop_columns (df : DataFrame) (labels : list cell) : DataFrame :=
  let keep := λ col, bool_decide (col ∉ labels) in
  {| df_columns := filter (λ col, keep col = true) (df_columns df);
     df_values := cells_where keep (df_columns df) <$> df_values df |}.

Definition df_getitem (df : DataFrame) (labels : list cell) : result DataFrame :=
  let missing := filter (λ label, label ∉ df_columns df) labels in
  match missing with
  | [] =>
      Ok {| df_columns :=
              flat_map (λ label, filter (λ col, col = label) (df_columns df)) labels;
            df_values :=
              (λ row, flat_map (λ label, cells_where (λ col, bool_decide (col = label))
                                                      (df_columns df) row) labels)
                <$> df_values df |}
  | _ => Err (KeyError (KLabels missing))
  end.

(** [col is None or col == '' or pd.isna(col)] *)
Definition invalid_label (col : cell) : bool :=
  bool_decide (col = CNone) || bool_decide (col = CStr "") || pd_isna col.

(** The last block of [load_sheet_data_to_df] ("整合为dataframe处理"): from
    the rows gathered in [data_all] to the cleaned frame. *)
Definition assemble (data_all : grid) (target_column_names : list cell) : result DataFrame :=
  colname_list ← subscript (data_all !! 0%nat) IndexError;
  let data_values := drop 1 data_all in
  mydf ← pd_DataFrame data_values colname_list;
  let mydf_row_cleaned := dropna_all mydf in
  let to_drop := filter (λ col, invalid_label col = true) (df_columns mydf_row_cleaned) in
  let mydf_cleaned := df_drop_columns mydf_row_cleaned to_drop in
  match target_column_names with
  | [] => Ok mydf_cleaned
  | _ => df_getitem mydf_cleaned target_column_names
  end.

(** *** Planning the windows *)

Definition read_url (spreadsheet_token data_loc : string) : string :=
  "https://open.feishu.cn/open-apis/sheets/v2/spreadsheets/" +:+ spreadsheet_token
  +:+ "/values/" +:+ data_loc
  +:+ "?valueRenderOption=ToString&dateTimeRenderOption=FormattedString".

(** The rows [(current_start_id, current_end_id)] of each batch. *)
Definition read_windows (row_id_start row_id_end batch_size : Z) : result (list (Z * Z)) :=
  starts ← py_range row_id_start (row_id_end + 1) batch_size;
  Ok ((λ current_start_id, (current_start_id, Z.min (current_start_id + batch_size - 1) row_id_end))
        <$> (starts : list Z)).

Definition window_range (col_id_start col_id_end : string) (w : Z * Z) : string :=
  col_id_start +:+ py_str w.1 +:+ ":" +:+ col_id_end +:+ py_str w.2.

Definition window_url (spreadsheet_token sheet_id col_id_start col_id_end : string)
    (w : Z * Z) : string :=
  read_url spreadsheet_token (sheet_id +:+ "!" +:+ window_range col_id_start col_id_end w).

Definition head_section_url (spreadsheet_token sheet_id col_id_start col_id_end : string)
    : string :=
  read_url spreadsheet_token (sheet_id +:+ "!" +:+ col_id_start +:+ "1:" +:+ col_id_end +:+ "1").

Definition max_retries : Z := 5.

Section Reading.
Context {R : Remote}.

(** The loop [for attempt in range(max_retries)] of one url; the rows read
    are appended to [data_all]. *)
Fixpoint get_attempts (url bearer : string) (data_all : grid) (attempts : list Z)
    : M (R := R) grid :=
  match attempts with
  | [] => mret data_all
  | attempt :: attempts' =>
      try_except
        (data_collected ← http_get url bearer;
         mret (data_all ++ data_collected))
        (λ e,
           if attempt <? max_retries - 1
           then _ ← time_sleep (10 * (attempt + 1));
                get_attempts url bearer data_all attempts'
           else raise e)
  end.

(** [for url in url_list: ...] *)
Fixpoint get_windows (url_list : list string) (bearer : string) (data_all : grid)
    : M (R := R) grid :=
  match url_list with
  | [] => mret data_all
  | url :: url_list' =>
      data_all' ← get_attempts url bearer data_all (range1 max_retries);
      get_windows url_list' bearer data_all'
  end.

(** The block "读取并整合数据" up to the end of the loop: the header row,
    fetched once when the read does not start at row 1, then the windows. *)
Definition fetch_all (spreadsheet_token sheet_id col_id_start col_id_end bearer : string)
    (row_id_start : Z) (url_list : list string) : M (R := R) grid :=
  let data_all := [] in
  data_all ← (if 1 <? row_id_start
              then head_collected ← http_get (head_section_url spreadsheet_token sheet_id
                                                               col_id_start col_id_end) bearer;
                   mret (data_all ++ head_collected)
              else mret data_all);
  get_windows url_list bearer data_all.

Definition load_sheet_data_to_df (spreadsheet_token sheet_name : string)
    (row_id_start row_id_end : Z) (col_id_start col_id_end : string)
    (batch_size : Z) (target_column_names : list cell) : M (R := R) DataFrame :=
  bearer_token ← get_tenant_access_token;
  sheet_id ← get_sheet_id spreadsheet_token sheet_name;
  windows ← lift (read_windows row_id_start row_id_end batch_size);
  let url_list := window_url spreadsheet_token sheet_id col_id_start col_id_end <$> windows in
  wrapM "load_sheet_data_to_df"
    (data_all ← fetch_all spreadsheet_token sheet_id col_id_start col_id_end bearer_token
                          row_id_start url_list;
     lift (assemble data_all target_column_names)).
End Reading.

(** ** A scripted remote, for the scenarios

    The service answers from a script: token and sheet table are fixed, and
    each GET or PUT consumes the next scripted answer (a transport error
    once the script is exhausted). *)
Record script := {
  gets : list (result grid);
  puts : list (result put_response)
}.

Definition scripted (token : string) (sheets : list (string * string)) : Remote :=
  {| world := script;
     post_auth := λ w, (Ok token, w);
     query_sheets := λ _ w, (Ok sheets, w);
     requests_get := λ _ _ w,
       match gets w with
       | [] => (Err (TransportError "script exhausted"), w)
       | r :: rs => (r, {| gets := rs; puts := puts w |})
       end;
     requests_put := λ _ _ _ _ w,
       match puts w with
       | [] => (Err (TransportError "script exhausted"), w)
       | r :: rs => (r, {| gets := gets w; puts := rs |})
       end |}.



(** ** Vocabulary of the statements *)

(** The (url, bearer, range, values) of the PUT requests of a trace, in order. *)
Definition puts_of (trace : list event) : list (string * string * string * grid) :=
  omap (λ ev, match ev with
              | EvPut url bearer range values => Some (url, bearer, range, values)
              | _ => None
              end) trace.

(** The urls of the GET requests of a trace, in order. *)
Definition gets_of (trace : list event) : list string :=
  omap (λ ev, match ev with EvGet url _ => Some url | _ => None end) trace.

(** The sleeps of a trace, in order. *)
Definition sleeps_of (trace : list event) : list Z :=
  omap (λ ev, match ev with EvSleep seconds => Some seconds | _ => None end) trace.

(** The grid the writers send: the input formatted, checked and sanitised
    (the first half of [write_multi_data] and [batch_write_multi_data]). *)
Definition normalize (input_data : input) : result grid :=
  formatted_data ← format_input input_data;
  _ ← check_2d_list formatted_data;
  Ok (standardize formatted_data).

(** The second half of [write_multi_data] ("继续后续处理"), which sees the
    sanitised grid only. *)
Definition send_standard {R : Remote} (spreadsheet_token sheet_name start_loc : string)
    (standard_data : grid) : M (R := R) unit :=
  let url := values_url spreadsheet_token in
  bearer_token ← get_tenant_access_token;
  sheet_id ← get_sheet_id spreadsheet_token sheet_name;
  data_range ← lift (complete_data_range start_loc standard_data);
  response_dict ← http_put url bearer_token (sheet_id +:+ "!" +:+ data_range) standard_data;
  if code response_dict =? 0 then mret ()
  else if code response_dict =? 90227 then raise (PayloadTooLarge None)
  else raise (RequestFailed (code response_dict) (msg response_dict)).

(** The second half of [batch_write_multi_data], likewise. *)
Definition send_batches {R : Remote} (spreadsheet_token sheet_name start_loc : string)
    (batch_size : Z) (standard_data : grid) : M (R := R) unit :=
  let url := values_url spreadsheet_token in
  bearer_token ← get_tenant_access_token;
  sheet_id ← get_sheet_id spreadsheet_token sheet_name;
  search_match ← lift (subscript (re_search_cell start_loc) AttributeError);
  let start_letter := upper search_match.1 in
  start_number ← lift (subscript (py_int search_match.2) (ValueError InvalidLiteral));
  let total_rows := Z.of_nat (length standard_data) in
  _ ← lift (batch_num total_rows batch_size);
  starts ← lift (py_range 0 total_rows batch_size);
  for_each starts (write_batch url bearer_token sheet_id start_letter start_number
                               standard_data batch_size).

(** The chunks [batch_write_multi_data] works through when nothing fails:
    the loop body's plan at each start index of [range(0, total_rows, batch_size)]. *)
Definition write_plan (start_letter : string) (start_number : Z) (standard_data : grid)
    (batch_size : Z) : result (list chunk) :=
  starts ← py_range 0 (Z.of_nat (length standard_data)) batch_size;
  mapM (plan_chunk start_letter start_number standard_data batch_size) starts.


(** Every character of [s] satisfies [p]. *)
Fixpoint string_forall (p : ascii → bool) (s : string) : bool :=
  match s with
  | EmptyString => true
  | String c s' => p c && string_forall p s'
  end.

(** The first character of [s], if any, does not satisfy [p]. *)
Definition stops (p : ascii → bool) (s : string) : Prop :=
  match s with
  | EmptyString => True
  | String c _ => p c = false
  end.


(** A grid of at least one row, every row having [c] cells, [c] positive. *)
Definition rectangular (c : nat) (g : grid) : Prop :=
  g ≠ [] ∧ (0 < c)%nat ∧ Forall (λ row, length row = c) g.


(** A response that is neither a success nor "payload too large". *)
Definition transient (r : put_response) : Prop := code r ≠ 0 ∧ code r ≠ 90227.

(** Asked the same PUT again and again from the world [w], the remote
    answers with [responses], in order, and is left in [w']. *)
Fixpoint answers {R : Remote} (url bearer range : string) (values : grid)
    (responses : list put_response) (w w' : world R) : Prop :=
  match responses with
  | [] => w' = w
  | r :: responses' =>
      ∃ w1, requests_put R url bearer range values w = (Ok r, w1) ∧
            answers url bearer range values responses' w1 w'
  end.

(** How the retry loop ends on a response it does not retry. *)
Definition final_outcome (batch_size : Z) (r : put_response) : result unit :=
  if code r =? 0 then Ok ()
  else if code r =? 90227 then Err (PayloadTooLarge (Some batch_size))
  else Err (RequestFailed (code r) (msg r)).

(** The events of [k] failed attempts, numbered from [j], each followed by
    its back-off sleep, and of one more attempt. *)
Definition retry_trace (url bearer range : string) (values : grid) (j k : nat) : list event :=
  flat_map (λ attempt : nat, [EvPut url bearer range values;
                              EvSleep (10 * (Z.of_nat attempt + 1))]) (seq j k)
  ++ [EvPut url bearer range values].

(** [ceil(a / b)] for a positive [b]. *)
Definition ceil_div (a b : Z) : Z := (a + b - 1) / b.

(** The [i]-th chunk of a write of [sd] in batches of [b] rows from column
    [L], row [n], the last column being [end_letter]: rows [i*b .. i*b+b-1]
    of the grid, placed [i*b] rows below the origin. *)
Definition nth_chunk (L end_letter : string) (n : Z) (sd : grid) (b i : nat) : chunk :=
  let data := take b (drop (i * b) sd) in
  let row := n + Z.of_nat (i * b) in
  {| chunk_origin := L +:+ py_str row;
     chunk_range := L +:+ py_str row +:+ ":" +:+ end_letter
                    +:+ py_str (row + Z.of_nat (length data) - 1);
     chunk_data := data |}.

(** The labels of a labelled input (DataFrame or dict). *)
Definition labels_of (input_data : input) : option (list cell) :=
  match input_data with
  | InList _ => None
  | InDataFrame df => Some (df_columns df)
  | InDict d => Some d.*1
  end.

(** "The header row is not sliced as a batch; only the data rows are
    partitioned": the planned chunks of a labelled input, concatenated, are
    the rows of the normalised grid after row 0. *)
Definition header_not_sliced (input_data : input) (start_letter : string) (start_number : Z)
    (batch_size : Z) : Prop :=
  ∃ sd chunks,
    normalize input_data = Ok sd ∧
    write_plan start_letter start_number sd batch_size = Ok chunks ∧
    concat (chunk_data <$> chunks) = drop 1 sd.

(** 250 rows of three cells. *)
Definition rows_250 : grid := replicate 250 [CInt 7; CStr "x"; CNone].

(** A label that is neither absent ([None]), blank ([""]) nor missing
    ([pd.isna]). *)
Definition valid_label (col : cell) : Prop :=
  col ≠ CNone ∧ col ≠ CStr "" ∧ pd_isna col = false.

#[global] Instance valid_label_dec (col : cell) : Decision (valid_label col).
Proof. unfold valid_label. apply _. Defined.

(** A row whose cells are all missing values. *)
Definition all_missing (row : list cell) : Prop :=
  Forall (λ item, pd_isna item = true) row.

#[global] Instance all_missing_dec (row : list cell) : Decision (all_missing row).
Proof. unfold all_missing. apply _. Defined.

#[global] Typeclasses Opaque valid_label all_missing.

(** The frame after the clean-up of rows [rows] under the labels [header]:
    the rows that are not entirely missing, restricted to the columns with
    a valid label. *)
Definition cleaned_frame (header : list cell) (rows : grid) : DataFrame :=
  {| df_columns := filter valid_label header;
     df_values :=
       (λ row : list cell,
          (filter (λ cv : cell * cell, valid_label cv.1) (zip header row)).*2)
         <$> filter (λ row, ¬ all_missing row) rows |}.

(** The empty-marker of the specification: the empty string of the wire. *)
Definition empty_marker : cell := CStr "".

(** The clean-up of rows in the specification's words, "drop any row that is
    entirely empty-marker across all columns": the frame holds the other
    rows, in order, each under the valid labels. *)
Definition drops_empty_marker_rows (header : list cell) (rows : grid) : Prop :=
  ∃ df, assemble (header :: rows) [] = Ok df ∧
        df_values df =
          (λ row : list cell,
             (filter (λ cv : cell * cell, valid_label cv.1) (zip header row)).*2)
            <$> filter (λ row, ¬ Forall (λ item, item = empty_marker) row) rows.


(* ===================================================================== *)
(** * Part I, continued. The other methods                               *)
(* ===================================================================== *)

(** ** [load_data_from_sheet] *)

Section LoadRange.
Context {R : Remote}.

Definition load_data_from_sheet (spreadsheet_token sheet_name data_range : string)
    : M (R := R) grid :=
  sheet_id ← get_sheet_id spreadsheet_token sheet_name;
  let data_loc := sheet_id +:+ "!" +:+ data_range in
  let url := read_url spreadsheet_token data_loc in
  bearer_token ← get_tenant_access_token;
  wrapM "load_data_from_sheet" (http_get url bearer_token).
End LoadRange.

(** ** [write_single_data] *)

(** One cell of the body of a batch_update request:
    [{'text': {'text': s}, 'type': 'text'}] or
    [{'type': 'value', 'value': {'value': s}}]. *)
Inductive post_cell :=
| PostText (text : string)
| PostValue (value : string).

(** The request built for the lark client: the uri, and the single entry of
    ['value_ranges'] with its range and its three-dimensional values. *)
Record batch_update := {
  bu_uri : string;
  bu_range : string;
  bu_values : list (list (list post_cell))
}.

(** What the source reads from the client's response. *)
Record client_response := {
  success : bool;
  resp_code : Z;
  resp_msg : string
}.

(** The block "根据数据类型创建body的values" on a cell value: a missing
    value, a [str] or an [int].  Values of other types (which the source
    refuses with a ValueError) are outside [cell]. *)
Definition post_data_of (input_data : cell) : list (list (list post_cell)) :=
  if pd_isna input_data then [[[PostText ""]]]
  else match input_data with
       | CStr s => [[[PostText s]]]
       | CInt z => [[[PostValue (py_str z)]]]
       | _ => [[[PostText ""]]]
       end.

Definition single_uri (spreadsheet_token sheet_id : string) : string :=
  "/open-apis/sheets/v3/spreadsheets/" +:+ spreadsheet_token +:+ "/sheets/" +:+ sheet_id
  +:+ "/values/batch_update?user_id_type=open_id".

Section SingleWrite.
Context {R : Remote}.
(** [self.client.request(request)] of the lark client. *)
Variable client_request : batch_update → M (R := R) client_response.

Definition write_single_data (spreadsheet_token sheet_name start_loc : string)
    (input_data : cell) : M (R := R) unit :=
  wrapM "write_single_data"
    (sheet_id ← get_sheet_id spreadsheet_token sheet_name;
     let data_range := start_loc +:+ ":" +:+ start_loc in
     let post_data := post_data_of input_data in
     response ← client_request {| bu_uri := single_uri spreadsheet_token sheet_id;
                                  bu_range := sheet_id +:+ "!" +:+ data_range;
                                  bu_values := post_data |};
     if success response then mret ()
     else raise (RequestFailed (resp_code response) (resp_msg response))).
End SingleWrite.

(** ** [create_sheet] *)

(** The request built for the lark client: a POST of
    [{"index": 0, "title": sheet_name}] to the sheets of the spreadsheet. *)
Record sheet_creation := {
  sc_uri : string;
  sc_index : Z;
  sc_title : string
}.

Section CreateSheet.
Context {R : Remote}.
(** [self.client.request(request)] of the lark client. *)
Variable client_post : sheet_creation → M (R := R) client_response.

(** The result is the dict [{'sheet_name': ..., 'sheet_id': ...}], here
    the pair of its values. *)
Definition create_sheet (spreadsheet_token sheet_name : string)
    : M (R := R) (string * string) :=
  let request := {| sc_uri := "/open-apis/sheets/v3/spreadsheets/" +:+ spreadsheet_token
                              +:+ "/sheets";
                    sc_index := 0;
                    sc_title := sheet_name |} in
  wrapM "create_sheet"
    (response ← client_post request;
     if success response
     then sheet_id ← get_sheet_id spreadsheet_token sheet_name;
          mret (sheet_name, sheet_id)
     else raise (RequestFailed (resp_code response) (resp_msg response))).
End CreateSheet.

(** ** The interactive front ends *)

(** The questions put to the operator by [input(...)]. *)
Inductive prompt :=
| AskToken          (* "请输入电子表格的token：" *)
| AskSheetRead      (* "请输入表格中要读取sheet的名称：" *)
| AskRowStart       (* "请输入要读取的起始'行'：" *)
| AskRowEnd         (* "请输入读取到哪一'行'结束：" *)
| AskColStart       (* "请输入要读取的起始'列'：" *)
| AskColEnd         (* "请输入读取到哪一'列'结束：" *)
| AskBatchRead      (* "请输入每批读取多少行（建议50-200行）：" *)
| AskSheetWrite     (* "请输入要写入sheet的名称：" *)
| AskStartLoc       (* "请输入要写入的起始单元格（如A1）：" *)
| AskBatchWrite.    (* "请输入每批写入多少行（建议50-200行）：" *)

(** [not s] for an optional [str] argument: [None] and [""] are falsy. *)
Definition missing_str (arg : option string) : bool :=
  match arg with
  | None | Some EmptyString => true
  | Some _ => false
  end.

(** [not n] for an optional [int] argument: [None] and [0] are falsy. *)
Definition missing_int (arg : option Z) : bool :=
  match arg with
  | None => true
  | Some n => n =? 0
  end.

Section Prompts.
Context {R : Remote}.
(** [input(prompt)] and [int(text)] on arbitrary text. *)
Variable input_ : prompt → M (R := R) string.
Variable int_ : string → result Z.

(** [if not arg: arg = input(p)] *)
Definition str_or_input (arg : option string) (p : prompt) : M (R := R) string :=
  if missing_str arg then input_ p else mret (default EmptyString arg).

(** [if not arg: arg = input(p).upper()] *)
Definition str_or_input_upper (arg : option string) (p : prompt) : M (R := R) string :=
  if missing_str arg then (s ← input_ p; mret (upper s)) else mret (default EmptyString arg).

(** [if not arg: arg = int(input(p))] *)
Definition int_or_input (arg : option Z) (p : prompt) : M (R := R) Z :=
  if missing_int arg then (s ← input_ p; lift (int_ s)) else mret (default 0 arg).

Definition select_from_sheet_to_df (spreadsheet_token sheet_name : option string)
    (row_id_start row_id_end : option Z) (col_id_start col_id_end : option string)
    (batch_size : option Z) (target_column_names : list cell) : M (R := R) DataFrame :=
  spreadsheet_token ← str_or_input spreadsheet_token AskToken;
  sheet_name ← str_or_input sheet_name AskSheetRead;
  row_id_start ← int_or_input row_id_start AskRowStart;
  row_id_end ← int_or_input row_id_end AskRowEnd;
  col_id_start ← str_or_input_upper col_id_start AskColStart;
  col_id_end ← str_or_input_upper col_id_end AskColEnd;
  batch_size ← int_or_input batch_size AskBatchRead;
  load_sheet_data_to_df spreadsheet_token sheet_name row_id_start row_id_end
                        col_id_start col_id_end batch_size target_column_names.

(** The call that ends it passes no [batch_size]: the default, 100, applies. *)
Definition select_batch_write_multi_data (input_data : input)
    (spreadsheet_token sheet_name start_loc : option string) (batch_size : option Z)
    : M (R := R) unit :=
  spreadsheet_token ← str_or_input spreadsheet_token AskToken;
  sheet_name ← str_or_input sheet_name AskSheetWrite;
  start_loc ← str_or_input start_loc AskStartLoc;
  batch_size ← int_or_input batch_size AskBatchWrite;
  batch_write_multi_data spreadsheet_token sheet_name start_loc input_data 100.
End Prompts.

(** ** Vocabulary of the further properties *)

Definition is_upper (c : ascii) : bool :=
  let n := N_of_ascii c in ((65 <=? n) && (n <=? 90))%N.

(** The position of a column in spreadsheet order: A..Z are 0..25, then AA,
    AB, ... follow, 26 for each first letter. *)
Definition column_ordinal (letters : string) : option Z :=
  match letters with
  | String a EmptyString =>
      if is_upper a then Some (Z.of_N (N_of_ascii a) - 65) else None
  | String a (String b EmptyString) =>
      if is_upper a && is_upper b
      then Some (26 + 26 * (Z.of_N (N_of_ascii a) - 65) + (Z.of_N (N_of_ascii b) - 65))
      else None
  | _ => None
  end.

(** The sheet_id listed last under the title [sheet_name]. *)
Definition last_titled (sheet_name : string) (sheet_infos : list (string * string))
    : option string :=
  snd <$> last (filter (λ sheet_info, sheet_info.1 = sheet_name) sheet_infos).

(** The steps of [batch_write_multi_data] between the sheet lookup and the
    loop: the start location parsed, the batch count, the start indices. *)
Definition batch_prelude (start_loc : string) (standard_data : grid) (batch_size : Z)
    : result (string * Z * list Z) :=
  search_match ← subscript (re_search_cell start_loc) AttributeError;
  let start_letter := upper search_match.1 in
  start_number ← subscript (py_int search_match.2) (ValueError InvalidLiteral);
  let total_rows := Z.of_nat (length standard_data) in
  _ ← batch_num total_rows batch_size;
  starts ← py_range 0 total_rows batch_size;
  Ok (start_letter, start_number, starts).

(** The events of [k] failed GETs of one url, numbered from [j], each
    followed by its back-off sleep, and of one more GET. *)
Definition read_retry_trace (url bearer : string) (j k : nat) : list event :=
  flat_map (λ attempt : nat, [EvGet url bearer; EvSleep (10 * (Z.of_nat attempt + 1))])
           (seq j k)
  ++ [EvGet url bearer].


(* ===================================================================== *)
(** * Part II. Properties                                                *)
(* ===================================================================== *)

(** ** The exception monad *)

Lemma result_bind_ok {A B} (a : A) (f : A → result B) : (Ok a ≫= f) = f a.
Proof. reflexivity. Qed.

Lemma result_bind_err {A B} (e : pyexc) (f : A → result B) : (Err e ≫= f) = Err e.
Proof. reflexivity. Qed.

Lemma result_bind_ok_inv {A B} (m : result A) (f : A → result B) (b : B) :
  (m ≫= f) = Ok b → ∃ a, m = Ok a ∧ f a = Ok b.
Proof. destruct m as [a|e]; [eauto|done]. Qed.

Lemma wrap_ok_inv {A} (fn : string) (m : result A) (a : A) :
  wrap fn m = Ok a → m = Ok a.
Proof. by destruct m. Qed.

Lemma mapM_result_ok {A B} (f : A → result B) (g : A → B) (l : list A) :
  Forall (λ x, f x = Ok (g x)) l → mapM f l = Ok (g <$> l).
Proof.
  induction 1 as [|x l Hx _ IH]; [done|].
  cbn [mapM]. rewrite Hx, result_bind_ok, IH. done.
Qed.

Ltac result_simpl :=
  repeat first [rewrite result_bind_ok | rewrite result_bind_err | progress cbn [subscript wrap fst snd]].

(** ** Built-ins *)

Lemma append_cons c s t : String c s +:+ t = String c (s +:+ t).
Proof. reflexivity. Qed.

Lemma append_nil_l s : EmptyString +:+ s = s.
Proof. reflexivity. Qed.

Lemma append_nil_r s : s +:+ EmptyString = s.
Proof. induction s as [|c s IH]; [done|]. by rewrite append_cons, IH. Qed.

Lemma append_assoc (a b c : string) : (a +:+ b) +:+ c = a +:+ (b +:+ c).
Proof. induction a as [|x a IH]; [done|]. by rewrite !append_cons, IH. Qed.

Lemma append_inj_l (p x y : string) : p +:+ x = p +:+ y → x = y.
Proof.
  induction p as [|c p IH]; [by rewrite !append_nil_l|].
  rewrite !append_cons. intros [= H]. by apply IH.
Qed.

Lemma span_app p run rest :
  string_forall p run = true → stops p rest → span p (run +:+ rest) = (run, rest).
Proof.
  induction run as [|c run IH]; intros Hrun Hrest.
  - rewrite append_nil_l. destruct rest as [|d rest]; simpl in *; [done|]. by rewrite Hrest.
  - rewrite append_cons. simpl in *.
    apply andb_true_iff in Hrun as [-> Hrun]. by rewrite IH.
Qed.

Lemma span_all p run : string_forall p run = true → span p run = (run, EmptyString).
Proof.
  intros H. pose proof (span_app p run EmptyString H I) as E.
  by rewrite append_nil_r in E.
Qed.

Lemma digit_not_alpha c : is_digit c = true → is_alpha c = false.
Proof.
  unfold is_digit, is_alpha. generalize (N_of_ascii c). intros n H.
  apply andb_true_iff in H as [H1 H2].
  apply N.leb_le in H1, H2.
  apply orb_false_iff; split; apply andb_false_iff.
  - left. apply N.leb_gt. lia.
  - left. apply N.leb_gt. lia.
Qed.

Lemma re_search_cell_unfold s :
  re_search_cell s =
  match match_cell_at s with
  | Some m => Some m
  | None => match s with EmptyString => None | String _ s' => re_search_cell s' end
  end.
Proof. by destruct s. Qed.

(** On a cell reference written as letters followed by digits, the search
    returns exactly the two parts. *)
Lemma re_search_cell_canonical letters digits :
  letters ≠ EmptyString → string_forall is_alpha letters = true →
  digits ≠ EmptyString → string_forall is_digit digits = true →
  re_search_cell (letters +:+ digits) = Some (letters, digits).
Proof.
  intros Hl Hla Hd Hdd.
  assert (match_cell_at (letters +:+ digits) = Some (letters, digits)) as Hm.
  { unfold match_cell_at. rewrite span_app; [|done|].
    - rewrite span_all by done.
      destruct letters; [done|]. by destruct digits.
    - destruct digits as [|d ds]; [done|]. simpl in *.
      apply andb_true_iff in Hdd as [Hdd _]. by apply digit_not_alpha. }
  by rewrite re_search_cell_unfold, Hm.
Qed.

Lemma string_of_uint_digits d : string_forall is_digit (NilEmpty.string_of_uint d) = true.
Proof. induction d; simpl; auto. Qed.

Lemma to_int_nonneg n : 0 ≤ n → ∃ d, Z.to_int n = Pos d ∧ d ≠ Nil.
Proof.
  intros Hn. destruct n as [|p|p]; [| |lia].
  - exists (D0 Nil). done.
  - exists (Pos.to_uint p). split; [done|]. apply Unsigned.to_uint_nonnil.
Qed.

Lemma py_str_nonneg_digits n :
  0 ≤ n → py_str n ≠ EmptyString ∧ string_forall is_digit (py_str n) = true.
Proof.
  intros Hn. destruct (to_int_nonneg n Hn) as (d & Hd & Hnil).
  unfold py_str. rewrite Hd. simpl.
  destruct d; try done; (split; [done|]); apply (string_of_uint_digits (_ _)).
Qed.

(** [int(str(n)) == n] for a non-negative [n]. *)
Lemma py_int_str n : 0 ≤ n → py_int (py_str n) = Some n.
Proof.
  intros Hn. destruct (to_int_nonneg n Hn) as (d & Hd & Hnil).
  unfold py_int, py_str. rewrite Hd. simpl.
  rewrite NilZero.usu by done. simpl. f_equal.
  change (Z.of_uint d) with (Z.of_int (Pos d)). rewrite <- Hd. apply DecimalZ.of_to.
Qed.

Lemma span_forall p s run rest : span p s = (run, rest) → string_forall p run = true.
Proof.
  revert run rest. induction s as [|c s IH]; intros run rest; simpl.
  - by intros [= <- <-].
  - destruct (p c) eqn:Hc; [|by intros [= <- <-]].
    destruct (span p s) as [run' rest']. intros [= <- <-]. simpl.
    rewrite Hc. by rewrite (IH run' rest').
Qed.

Lemma match_cell_at_digits s letters digits :
  match_cell_at s = Some (letters, digits) →
  digits ≠ EmptyString ∧ string_forall is_digit digits = true.
Proof.
  unfold match_cell_at.
  destruct (span is_alpha s) as [l rest].
  destruct (span is_digit rest) as [d rest'] eqn:Hd.
  destruct l; [done|]. destruct d; [done|]. intros [= <- <-].
  split; [done|]. by apply (span_forall _ _ _ _ Hd).
Qed.

Lemma re_search_cell_match s m : re_search_cell s = Some m → ∃ s', match_cell_at s' = Some m.
Proof.
  induction s as [|c s IH]; rewrite re_search_cell_unfold.
  - destruct (match_cell_at EmptyString) eqn:E; [|done]. intros [= <-]. eauto.
  - destruct (match_cell_at (String c s)) eqn:E; [|done]. intros [= <-]. eauto.
Qed.

Lemma uint_of_char_digit c u : is_digit c = true → ∃ u', uint_of_char c (Some u) = Some u'.
Proof.
  destruct c as [[] [] [] [] [] [] [] []]; try discriminate; intros _; eexists; reflexivity.
Qed.

Lemma uint_of_digits digits :
  string_forall is_digit digits = true → ∃ u, NilEmpty.uint_of_string digits = Some u.
Proof.
  induction digits as [|c digits IH]; simpl; [eauto|].
  intros [Hc Hrest]%andb_true_iff. destruct (IH Hrest) as [u ->].
  by apply uint_of_char_digit.
Qed.

(** [int] accepts the second group of a match. *)
Lemma re_search_cell_digits s letters digits :
  re_search_cell s = Some (letters, digits) → ∃ n, py_int digits = Some n.
Proof.
  intros [s' Hm]%re_search_cell_match.
  apply match_cell_at_digits in Hm as [Hne Hdig].
  destruct (uint_of_digits digits Hdig) as [u Hu].
  exists (Z.of_uint u). unfold py_int. destruct digits; [done|].
  unfold NilZero.uint_of_string. by rewrite Hu.
Qed.

(** ** ColumnIndex *)

Lemma foldl_insert_lookup `{Countable K} {V} (entries : list (K * V)) (d : gmap K V) k v :
  NoDup entries.*1 →
  foldl (λ d kv, insert kv.1 kv.2 d) d entries !! k = Some v ↔
  (k, v) ∈ entries ∨ ((k ∉ entries.*1) ∧ d !! k = Some v).
Proof.
  revert d. induction entries as [|[k0 v0] entries IH]; intros d Hnd.
  - simpl. split; [intros ?; right; split; [apply not_elem_of_nil|done]|].
    intros [Hin|[_ ?]]; [by apply elem_of_nil in Hin|done].
  - rewrite fmap_cons in Hnd. apply NoDup_cons in Hnd as [Hk0 Hnd].
    simpl. rewrite (IH _ Hnd). rewrite elem_of_cons, not_elem_of_cons. simpl.
    destruct (decide (k = k0)) as [->|Hne].
    + rewrite lookup_insert_eq. split.
      * intros [Hin|[_ Hv]]; [|left; left; congruence].
        exfalso. apply Hk0. apply list_elem_of_fmap. by exists (k0, v).
      * intros [[Hv|Hin]|[[? _] _]]; [| |done].
        -- right. split; [done|]. congruence.
        -- exfalso. apply Hk0. apply list_elem_of_fmap. by exists (k0, v).
    + rewrite lookup_insert_ne by done. split.
      * intros [Hin|[? ?]]; [by left; right|by right].
      * intros [[Hv|Hin]|[[_ ?] ?]]; [congruence|by left|by right].
Qed.

Lemma dict_of_lookup `{Countable K} {V} (entries : list (K * V)) k v :
  NoDup entries.*1 → dict_of entries !! k = Some v ↔ (k, v) ∈ entries.
Proof.
  intros Hnd. unfold dict_of. rewrite foldl_insert_lookup by done.
  rewrite lookup_empty. split; [intros [?|[_ ?]]; done|by left].
Qed.

Lemma enumerate_elem {A} (l : list A) o x :
  (o, x) ∈ enumerate l ↔ 0 ≤ o ∧ l !! Z.to_nat o = Some x.
Proof.
  unfold enumerate. rewrite elem_of_lookup_imap. split.
  - intros (i & y & [= -> ->] & Hi). split; [lia|]. by rewrite Nat2Z.id.
  - intros [Ho Hx]. exists (Z.to_nat o), x. split; [|done]. f_equal. lia.
Qed.

Lemma enumerate_keys {A} (l : list A) : (enumerate l).*1 = Z.of_nat <$> seq 0 (length l).
Proof.
  unfold enumerate. rewrite fmap_imap. apply list_eq. intros i.
  rewrite list_lookup_imap, list_lookup_fmap.
  destruct (decide (i < length l)%nat) as [Hi|Hi].
  - rewrite lookup_seq_lt by done. destruct (lookup_lt_is_Some_2 l i Hi) as [x ->]. done.
  - rewrite lookup_seq_ge by lia. rewrite lookup_ge_None_2 by lia. done.
Qed.

Lemma enumerate_keys_NoDup {A} (l : list A) : NoDup (enumerate l).*1.
Proof.
  rewrite enumerate_keys. apply NoDup_fmap_2; [apply _|apply NoDup_seq].
Qed.

Lemma A_ZZ_list_length : length A_ZZ_list = 702%nat.
Proof. reflexivity. Qed.

Lemma A_ZZ_list_NoDup : NoDup A_ZZ_list.
Proof. apply (bool_decide_unpack _). by vm_compute. Qed.

Lemma order_to_col_spec o L :
  order_to_col col_order_info !! o = Some L ↔ 0 ≤ o ∧ A_ZZ_list !! Z.to_nat o = Some L.
Proof.
  unfold col_order_info, generate_col_order_info. cbn [order_to_col].
  rewrite dict_of_lookup by apply enumerate_keys_NoDup. apply enumerate_elem.
Qed.

Lemma col_to_order_spec L o :
  col_to_order col_order_info !! L = Some o ↔ 0 ≤ o ∧ A_ZZ_list !! Z.to_nat o = Some L.
Proof.
  unfold col_order_info, generate_col_order_info. cbn [col_to_order].
  rewrite dict_of_lookup.
  - rewrite list_elem_of_fmap. split.
    + intros ([o' L'] & [= -> ->] & Hin). by apply enumerate_elem.
    + intros Hin. exists (o, L). split; [done|]. by apply enumerate_elem.
  - assert (((λ ic : Z * string, (ic.2, ic.1)) <$> enumerate A_ZZ_list).*1 = A_ZZ_list) as ->.
    2: apply A_ZZ_list_NoDup.
    rewrite <- list_fmap_compose. unfold enumerate. rewrite fmap_imap.
    apply list_eq. intros i. rewrite list_lookup_imap. by destruct (A_ZZ_list !! i).
Qed.

(** From here on the table is used through the two lemmas above. *)
#[global] Opaque col_order_info.

Lemma order_to_col_total (e : Z) :
  0 ≤ e ≤ 701 →
  ∃ L', order_to_col col_order_info !! e = Some L' ∧ col_to_order col_order_info !! L' = Some e.
Proof.
  intros He.
  destruct (lookup_lt_is_Some_2 A_ZZ_list (Z.to_nat e)) as [L' HL'].
  { rewrite A_ZZ_list_length. lia. }
  exists L'. split; [apply order_to_col_spec|apply col_to_order_spec]; split; (lia || done).
Qed.

Lemma order_to_col_out_of_range (e : Z) :
  701 < e → order_to_col col_order_info !! e = None.
Proof.
  intros He. apply eq_None_not_Some. intros [L E].
  apply order_to_col_spec in E as [_ HL].
  pose proof (lookup_lt_Some _ _ _ HL) as Hlt. rewrite A_ZZ_list_length in Hlt. lia.
Qed.

(** C3. The two dictionaries built by [generate_col_order_info] over the
    702-entry enumeration A..Z, AA..ZZ are inverse bijections: every ordinal
    [o] in [0, 701] has letters whose ordinal is [o], every letter string of
    the enumeration has an ordinal in [0, 701] whose letters are that string,
    and an entry of one dictionary is the mirrored entry of the other. *)
Theorem col_order_roundtrip (o : Z) (L : string) :
  length A_ZZ_list = 702%nat ∧
  (0 ≤ o ≤ 701 →
     ∃ L', order_to_col col_order_info !! o = Some L' ∧
           col_to_order col_order_info !! L' = Some o) ∧
  (L ∈ A_ZZ_list →
     ∃ o', 0 ≤ o' ≤ 701 ∧ col_to_order col_order_info !! L = Some o' ∧
           order_to_col col_order_info !! o' = Some L) ∧
  (col_to_order col_order_info !! L = Some o ↔ order_to_col col_order_info !! o = Some L) ∧
  (order_to_col col_order_info !! o = Some L → 0 ≤ o ≤ 701 ∧ L ∈ A_ZZ_list).
Proof.
  split; [apply A_ZZ_list_length|]. split; [|split; [|split]].
  - apply order_to_col_total.
  - intros [i Hi]%list_elem_of_lookup.
    pose proof (lookup_lt_Some _ _ _ Hi) as Hlt. rewrite A_ZZ_list_length in Hlt.
    exists (Z.of_nat i). split; [lia|].
    split; [apply col_to_order_spec|apply order_to_col_spec];
      (split; [lia|by rewrite Nat2Z.id]).
  - by rewrite col_to_order_spec, order_to_col_spec.
  - intros [Ho HL]%order_to_col_spec.
    pose proof (lookup_lt_Some _ _ _ HL) as Hlt. rewrite A_ZZ_list_length in Hlt.
    split; [lia|]. apply list_elem_of_lookup. eauto.
Qed.

Lemma col_order_roundtrip_witness :
  (∃ L', order_to_col col_order_info !! 27 = Some L' ∧
         col_to_order col_order_info !! L' = Some 27) ∧
  (∃ o', 0 ≤ o' ≤ 701 ∧ col_to_order col_order_info !! "AB" = Some o' ∧
         order_to_col col_order_info !! o' = Some "AB").
Proof.
  destruct (col_order_roundtrip 27 "AB") as (_ & Hord & Hlet & _).
  split.
  - apply Hord. lia.
  - apply Hlet. apply list_elem_of_lookup. exists 27%nat. reflexivity.
Defined.

(** ** The shape check *)

Lemma collect_elem_len_ok (data : grid) (elem_len : list nat) :
  Forall (λ row, row ≠ []) data →
  collect_elem_len data elem_len = Ok (elem_len ++ (length <$> data)).
Proof.
  revert elem_len. induction data as [|row data IH]; intros elem_len Hne; simpl.
  - by rewrite app_nil_r.
  - apply Forall_cons in Hne as [Hrow Hne]. destruct row as [|x row]; [done|].
    rewrite IH by done. by rewrite <- app_assoc.
Qed.

Lemma collect_elem_len_empty_row (data : grid) (elem_len : list nat) :
  [] ∈ data → collect_elem_len data elem_len = Err (ValueError EmptyRow).
Proof.
  revert elem_len. induction data as [|row data IH]; intros elem_len Hin.
  - by apply elem_of_nil in Hin.
  - simpl. destruct row as [|x row]; [done|].
    apply elem_of_cons in Hin as [?|Hin]; [done|]. by apply IH.
Qed.

Lemma size_list_to_set_1 (l : list nat) :
  size (list_to_set l : gset nat) = 1%nat ↔ ∃ n, l ≠ [] ∧ Forall (λ x, x = n) l.
Proof.
  split.
  - intros [n Hn]%size_1_elem_of. exists n. split.
    + intros ->. specialize (Hn n). rewrite list_to_set_nil in Hn.
      eapply (not_elem_of_empty (C := gset nat)), Hn. by apply elem_of_singleton.
    + apply Forall_forall. intros x Hx.
      apply (elem_of_singleton (C := gset nat)), Hn. by apply elem_of_list_to_set.
  - intros (n & Hne & Hall).
    assert (list_to_set l = ({[ n ]} : gset nat)) as ->; [|apply size_singleton].
    apply set_eq. intros x. rewrite elem_of_list_to_set, elem_of_singleton.
    rewrite Forall_forall in Hall. split; [by apply Hall|].
    intros ->. destruct l as [|y l]; [done|].
    rewrite (Hall y) by left. left.
Qed.

Lemma check_2d_list_ok (data : grid) :
  check_2d_list data = Ok () ↔ ∃ c, rectangular c data.
Proof.
  unfold check_2d_list, rectangular. split.
  - destruct (decide ([] ∈ data)) as [Hin|Hin].
    { by rewrite collect_elem_len_empty_row. }
    rewrite collect_elem_len_ok.
    2: { apply Forall_forall. intros row Hrow ->. done. }
    simpl. case_decide as Hsz; [done|]. intros _.
    apply size_list_to_set_1 in Hsz as (n & Hne & Hall).
    exists n. split; [by intros ->|].
    rewrite Forall_fmap in Hall. split; [|done].
    destruct data as [|row data]; [done|].
    apply Forall_cons in Hall as [Hrow _]. simpl in Hrow. subst n.
    destruct row; [exfalso; apply Hin; left|simpl; lia].
  - intros (c & Hne & Hc & Hall).
    rewrite collect_elem_len_ok.
    2: { eapply Forall_impl; [done|]. intros row Hrow ->. simpl in Hrow. lia. }
    simpl. case_decide as Hsz; [|done].
    exfalso. apply Hsz. apply size_list_to_set_1. exists c.
    split; [by destruct data|]. by rewrite Forall_fmap.
Qed.

Lemma check_2d_list_cases (data : grid) :
  check_2d_list data = Ok () ∨
  check_2d_list data = Err (ValueError EmptyRow) ∨
  check_2d_list data = Err (ValueError UnequalLengths).
Proof.
  unfold check_2d_list.
  destruct (decide ([] ∈ data)) as [Hin|Hin].
  { rewrite collect_elem_len_empty_row by done. auto. }
  rewrite collect_elem_len_ok.
  2: { apply Forall_forall. intros row Hrow ->. done. }
  simpl. case_decide; auto.
Qed.

Lemma check_2d_list_nil : check_2d_list [] = Err (ValueError UnequalLengths).
Proof. reflexivity. Qed.

Lemma check_2d_list_empty_row (data : grid) :
  [] ∈ data → check_2d_list data = Err (ValueError EmptyRow).
Proof.
  intros Hin. unfold check_2d_list. by rewrite collect_elem_len_empty_row.
Qed.

Lemma check_2d_list_unequal (data : grid) (row1 row2 : list cell) :
  row1 ∈ data → row2 ∈ data → length row1 ≠ length row2 →
  ∃ m, check_2d_list data = Err (ValueError m).
Proof.
  intros H1 H2 Hne.
  destruct (check_2d_list_cases data) as [Hok|[?|?]]; [|eauto..].
  apply check_2d_list_ok in Hok as (c & _ & _ & Hall).
  rewrite Forall_forall in Hall. rewrite (Hall _ H1), (Hall _ H2) in Hne. done.
Qed.

(** ** RangeCalculator *)

Lemma rectangular_first (c : nat) (g : grid) :
  rectangular c g → ∃ row, g !! 0%nat = Some row ∧ length row = c.
Proof.
  intros (Hne & _ & Hall). destruct g as [|row g]; [done|].
  apply Forall_cons in Hall as [Hrow _]. by exists row.
Qed.

(** The range computed from a start location on which the pattern matches. *)
Lemma complete_data_range_parsed (start_loc letters digits : string) (n o : Z)
    (c : nat) (g : grid) :
  re_search_cell start_loc = Some (letters, digits) →
  py_int digits = Some n →
  rectangular c g →
  col_to_order col_order_info !! upper letters = Some o →
  complete_data_range start_loc g =
    match order_to_col col_order_info !! (o + Z.of_nat c - 1) with
    | Some end_letter =>
        Ok (upper letters +:+ py_str n +:+ ":" +:+ end_letter
            +:+ py_str (n + Z.of_nat (length g) - 1))
    | None => Err (Failed "complete_data_range" (KeyError (KInt (o + Z.of_nat c - 1))))
    end.
Proof.
  intros Hre Hint Hrect Hcol.
  destruct (rectangular_first c g Hrect) as (row & Hrow & Hlen).
  assert (check_2d_list g = Ok ()) as Hchk by (apply check_2d_list_ok; eauto).
  unfold complete_data_range. rewrite Hre. result_simpl.
  rewrite Hint. result_simpl. rewrite Hchk. result_simpl. rewrite Hrow. result_simpl.
  rewrite Hcol. result_simpl. rewrite Hlen.
  generalize (order_to_col col_order_info !! (o + Z.of_nat c - 1)).
  intros [end_letter|]; reflexivity.
Qed.

Lemma A_ZZ_list_letters (L : string) :
  L ∈ A_ZZ_list → L ≠ EmptyString ∧ string_forall is_alpha L = true ∧ upper L = L.
Proof.
  revert L. apply Forall_forall. apply (bool_decide_unpack _). by vm_compute.
Qed.

Lemma col_to_order_valid (L : string) (o : Z) :
  col_to_order col_order_info !! L = Some o →
  0 ≤ o ≤ 701 ∧ L ≠ EmptyString ∧ string_forall is_alpha L = true ∧ upper L = L.
Proof.
  intros [Ho HL]%col_to_order_spec.
  pose proof (lookup_lt_Some _ _ _ HL) as Hlt. rewrite A_ZZ_list_length in Hlt.
  split; [lia|]. apply A_ZZ_list_letters. apply list_elem_of_lookup. eauto.
Qed.

(** The range computed from a cell reference in canonical text. *)
Lemma complete_data_range_cell (L : string) (o n : Z) (c : nat) (g : grid) :
  col_to_order col_order_info !! L = Some o →
  0 ≤ n →
  rectangular c g →
  complete_data_range (L +:+ py_str n) g =
    match order_to_col col_order_info !! (o + Z.of_nat c - 1) with
    | Some end_letter =>
        Ok (L +:+ py_str n +:+ ":" +:+ end_letter +:+ py_str (n + Z.of_nat (length g) - 1))
    | None => Err (Failed "complete_data_range" (KeyError (KInt (o + Z.of_nat c - 1))))
    end.
Proof.
  intros Hcol Hn Hrect.
  destruct (col_to_order_valid L o Hcol) as (_ & Hne & Halpha & Hup).
  destruct (py_str_nonneg_digits n Hn) as [Hdne Hdig].
  pose proof (complete_data_range_parsed (L +:+ py_str n) L (py_str n) n o c g) as E.
  rewrite Hup in E. apply E.
  - by apply re_search_cell_canonical.
  - by apply py_int_str.
  - exact Hrect.
  - exact Hcol.
Qed.


(** C4. For a rectangular non-empty grid [g] of [c] columns and an origin cell
    at column [L] (ordinal [o]) and row [n]: when the end ordinal
    [o + c - 1] stays within the enumeration, [complete_data_range] returns
    the range from the origin to the cell whose column has ordinal
    [o + c - 1] and whose row is [n + rowCount - 1]; when it exceeds 701 the
    call fails on the lookup of that ordinal.  From "A1", any grid of 3 rows
    and 2 columns gives "A1:B3". *)
Theorem complete_data_range_spec (L : string) (o n : Z) (c : nat) (g g32 : grid) :
  col_to_order col_order_info !! L = Some o →
  0 ≤ n →
  rectangular c g →
  (o + Z.of_nat c - 1 ≤ 701 →
     ∃ end_letter,
       col_to_order col_order_info !! end_letter = Some (o + Z.of_nat c - 1) ∧
       complete_data_range (L +:+ py_str n) g =
         Ok (L +:+ py_str n +:+ ":" +:+ end_letter +:+ py_str (n + Z.of_nat (length g) - 1))) ∧
  (701 < o + Z.of_nat c - 1 →
     complete_data_range (L +:+ py_str n) g =
       Err (Failed "complete_data_range" (KeyError (KInt (o + Z.of_nat c - 1))))) ∧
  (rectangular 2 g32 → length g32 = 3%nat → complete_data_range "A1" g32 = Ok "A1:B3").
Proof.
  intros Hcol Hn Hrect.
  pose proof (col_to_order_valid L o Hcol) as [Ho _].
  pose proof (complete_data_range_cell L o n c g Hcol Hn Hrect) as Hrange.
  destruct Hrect as (Hne & Hc & Hall).
  split; [|split].
  - intros He.
    destruct (order_to_col_total (o + Z.of_nat c - 1)) as (end_letter & Hend & Hback); [lia|].
    exists end_letter. split; [exact Hback|].
    rewrite Hrange, Hend. reflexivity.
  - intros He. rewrite Hrange, order_to_col_out_of_range by exact He. reflexivity.
  - intros Hrect32 Hlen.
    assert (col_to_order col_order_info !! "A" = Some 0) as HA.
    { apply col_to_order_spec. split; [lia|reflexivity]. }
    assert (order_to_col col_order_info !! 1 = Some "B") as HB.
    { apply order_to_col_spec. split; [lia|reflexivity]. }
    pose proof (complete_data_range_cell "A" 0 1 2 g32 HA ltac:(lia) Hrect32) as E.
    rewrite Hlen in E. change (0 + Z.of_nat 2 - 1) with 1 in E. rewrite HB in E. exact E.
Qed.

Lemma complete_data_range_spec_witness :
  (∃ end_letter,
     col_to_order col_order_info !! end_letter = Some 1 ∧
     complete_data_range "A1" [[CInt 1; CStr "x"]; [CInt 2; CNone]; [CInt 3; CStr "z"]] =
       Ok ("A1:" +:+ end_letter +:+ "3")) ∧
  complete_data_range "A1" [[CInt 1; CStr "x"]; [CInt 2; CNone]; [CInt 3; CStr "z"]] = Ok "A1:B3".
Proof.
  set (g := [[CInt 1; CStr "x"]; [CInt 2; CNone]; [CInt 3; CStr "z"]]).
  assert (rectangular 2 g) as Hrect.
  { split; [done|]. split; [lia|]. repeat constructor. }
  destruct (complete_data_range_spec "A" 0 1 2 g g) as (Hin & _ & Hex).
  - apply col_to_order_spec. split; [lia|reflexivity].
  - lia.
  - exact Hrect.
  - split.
    + apply Hin. lia.
    + apply Hex; [exact Hrect|reflexivity].
Defined.

(** ** [range] and slices *)

Lemma ceil_div_spec (a b q : Z) : 0 < b → ceil_div a b = q ↔ (q - 1) * b < a ≤ q * b.
Proof.
  intros Hb. unfold ceil_div. split.
  - intros <-. pose proof (Z.div_mod (a + b - 1) b ltac:(lia)) as Hdm.
    pose proof (Z.mod_pos_bound (a + b - 1) b Hb). nia.
  - intros Hq. symmetry. apply (Z.div_unique_pos _ _ _ (a + b - 1 - b * q)); lia.
Qed.

Lemma ceil_div_nonneg (a b : Z) : 0 < b → 0 ≤ a → 0 ≤ ceil_div a b.
Proof. intros Hb Ha. unfold ceil_div. apply Z.div_pos; lia. Qed.

Lemma range_len_ceil (start stop step : Z) :
  1 ≤ step → start ≤ stop → range_len start stop step = ceil_div (stop - start) step.
Proof.
  intros Hstep Hle. unfold range_len, ceil_div.
  destruct (Z.ltb_spec 0 step); [|lia].
  destruct (Z.ltb_spec start stop).
  - replace (stop - start + step - 1) with (stop - start - 1 + 1 * step) by lia.
    rewrite Z.div_add by lia. done.
  - replace (stop - start) with 0 by lia. symmetry. apply Z.div_small. lia.
Qed.

Lemma py_range_ascending (start stop step : Z) :
  1 ≤ step → start ≤ stop →
  py_range start stop step =
    Ok ((λ i : nat, start + Z.of_nat i * step)
          <$> seq 0 (Z.to_nat (ceil_div (stop - start) step))).
Proof.
  intros Hstep Hle. unfold py_range.
  destruct (Z.eqb_spec step 0); [lia|]. by rewrite range_len_ceil.
Qed.

(** An index below the number of batches starts inside the data. *)
Lemma batch_start_lt (total bs : Z) (i : nat) :
  1 ≤ bs → 0 ≤ total → (i < Z.to_nat (ceil_div total bs))%nat → Z.of_nat i * bs < total.
Proof.
  intros Hbs Htot Hi.
  pose proof (ceil_div_nonneg total bs ltac:(lia) Htot) as Hq.
  destruct (proj1 (ceil_div_spec total bs (ceil_div total bs) ltac:(lia)) eq_refl) as [Hlo _].
  nia.
Qed.

Lemma py_slice_batch {A} (l : list A) (b i : nat) :
  (0 < b)%nat → (i * b ≤ length l)%nat →
  py_slice l (Z.of_nat (i * b))
           (Z.min (Z.of_nat (i * b) + Z.of_nat b) (Z.of_nat (length l)))
  = take b (drop (i * b) l).
Proof.
  intros Hb Hi. unfold py_slice, slice_index.
  destruct (Z.ltb_spec (Z.of_nat (i * b)) 0); [lia|].
  destruct (Z.ltb_spec (Z.min (Z.of_nat (i * b) + Z.of_nat b) (Z.of_nat (length l))) 0); [lia|].
  rewrite (Z.min_l (Z.of_nat (i * b))) by lia.
  rewrite Nat2Z.id.
  destruct (decide (i * b + b ≤ length l)%nat) as [Hfit|Hfit].
  - f_equal. lia.
  - rewrite (take_ge (drop (i * b) l) b) by (rewrite length_drop; lia).
    apply take_ge. rewrite length_drop. lia.
Qed.

Lemma concat_batches {A} (l : list A) (b k : nat) :
  concat ((λ i, take b (drop (i * b) l)) <$> seq 0 k) = take (k * b) l.
Proof.
  induction k as [|k IH]; [done|].
  rewrite seq_S, fmap_app, concat_app, IH.
  cbn [fmap list_fmap concat Nat.add]. rewrite app_nil_r.
  replace (S k * b)%nat with (k * b + b)%nat by lia.
  apply take_take_drop.
Qed.

(** ** Sanitisation *)

Lemma sanitize_not_na (item : cell) : pd_isna (sanitize item) = false.
Proof. by destruct item. Qed.

Lemma sanitize_id (item : cell) : pd_isna item = false → sanitize item = item.
Proof. by destruct item. Qed.

Lemma sanitize_na (item : cell) : pd_isna item = true → sanitize item = CStr "".
Proof. by destruct item. Qed.

Lemma standardize_length (g : grid) : length (standardize g) = length g.
Proof. unfold standardize. by rewrite length_fmap. Qed.

Lemma standardize_rectangular (c : nat) (g : grid) :
  rectangular c g → rectangular c (standardize g).
Proof.
  intros (Hne & Hc & Hall). split; [by destruct g|]. split; [done|].
  unfold standardize. apply Forall_fmap. eapply Forall_impl; [done|].
  intros row Hrow. simpl. by rewrite length_fmap.
Qed.

Lemma standardize_clean (g : grid) :
  Forall (Forall (λ item, pd_isna item = false)) (standardize g).
Proof.
  unfold standardize. apply Forall_fmap, Forall_true. intros row. simpl.
  apply Forall_fmap, Forall_true. intros item. apply sanitize_not_na.
Qed.

Lemma standardize_id (g : grid) :
  Forall (Forall (λ item, pd_isna item = false)) g → standardize g = g.
Proof.
  intros Hall. unfold standardize. rewrite <- (list_fmap_id g) at 2.
  apply Forall_fmap_ext_1. eapply Forall_impl; [done|].
  intros row Hrow. simpl. rewrite <- (list_fmap_id row) at 2.
  apply Forall_fmap_ext_1. eapply Forall_impl; [done|].
  intros item Hitem. by apply sanitize_id.
Qed.

(** ** The write plan *)

Lemma batch_rectangular (c : nat) (sd : grid) (b i : nat) :
  rectangular c sd → (0 < b)%nat → (i * b < length sd)%nat →
  rectangular c (take b (drop (i * b) sd)).
Proof.
  intros (Hne & Hc & Hall) Hb Hi. split; [|split; [done|]].
  - intros Hnil. apply (f_equal length) in Hnil.
    rewrite length_take, length_drop in Hnil. simpl in Hnil. lia.
  - by apply Forall_take, Forall_drop.
Qed.

Lemma plan_chunk_ok (L end_letter : string) (o n : Z) (c : nat) (sd : grid) (b i : nat) :
  col_to_order col_order_info !! L = Some o →
  order_to_col col_order_info !! (o + Z.of_nat c - 1) = Some end_letter →
  0 ≤ n →
  rectangular c sd →
  (0 < b)%nat → (i * b < length sd)%nat →
  plan_chunk L n sd (Z.of_nat b) (Z.of_nat i * Z.of_nat b) = Ok (nth_chunk L end_letter n sd b i).
Proof.
  intros Hcol Hend Hn Hrect Hb Hi. unfold plan_chunk.
  rewrite <- Nat2Z.inj_mul. rewrite py_slice_batch by lia.
  rewrite (complete_data_range_cell L o _ c); [|done|lia|by apply batch_rectangular].
  rewrite Hend. by result_simpl.
Qed.

Lemma write_plan_ok (L end_letter : string) (o n : Z) (c : nat) (sd : grid) (b : nat) :
  col_to_order col_order_info !! L = Some o →
  order_to_col col_order_info !! (o + Z.of_nat c - 1) = Some end_letter →
  0 ≤ n →
  rectangular c sd →
  (0 < b)%nat →
  write_plan L n sd (Z.of_nat b) =
    Ok (nth_chunk L end_letter n sd b
          <$> seq 0 (Z.to_nat (ceil_div (Z.of_nat (length sd)) (Z.of_nat b)))).
Proof.
  intros Hcol Hend Hn Hrect Hb. unfold write_plan.
  rewrite py_range_ascending by lia. result_simpl.
  rewrite Z.sub_0_r.
  rewrite (mapM_result_ok _ (λ idx, nth_chunk L end_letter n sd b (Z.to_nat (idx / Z.of_nat b)))).
  - f_equal. rewrite <- list_fmap_compose. apply list_fmap_ext.
    intros _ i _. unfold compose. rewrite Z.add_0_l, Z.div_mul by lia. by rewrite Nat2Z.id.
  - apply Forall_fmap, Forall_forall. intros i Hi%elem_of_seq. unfold compose.
    rewrite Z.add_0_l, Z.div_mul by lia. rewrite Nat2Z.id.
    pose proof (batch_start_lt (Z.of_nat (length sd)) (Z.of_nat b) i) as Hlt.
    apply (plan_chunk_ok L end_letter o n c sd b i Hcol Hend Hn Hrect Hb). nia.
Qed.

(** ** Running computations *)

Section Runs.
Context {R : Remote}.
Implicit Types w : world R.

Lemma run_bind {A B} (m : M A) (k : A → M B) w :
  (m ≫= k) w =
  match m w with
  | (Ok a, w1, t1) => let '(r, w2, t2) := k a w1 in (r, w2, t1 ++ t2)
  | (Err e, w1, t1) => (Err e, w1, t1)
  end.
Proof. reflexivity. Qed.

Lemma run_lift_ok {A B} (a : A) (k : A → M B) w : (lift (Ok a) ≫= k) w = k a w.
Proof. rewrite run_bind. unfold lift. by destruct (k a w) as [[r w2] t2]. Qed.

Lemma run_lift_err {A B} (e : pyexc) (k : A → M B) w :
  (lift (Err e) ≫= k) w = (Err e, w, []).
Proof. reflexivity. Qed.

Lemma run_ret {A B} (a : A) (k : A → M B) w : (mret a ≫= k) w = k a w.
Proof. apply (run_lift_ok a k w). Qed.

Lemma run_bind_step {A B} (m : M A) (k : A → M B) w (a : A) w1 t1 :
  m w = (Ok a, w1, t1) →
  (m ≫= k) w = (let '(r, w2, t2) := k a w1 in (r, w2, t1 ++ t2)).
Proof. intros Hm. by rewrite run_bind, Hm. Qed.

Lemma run_bind_fail {A B} (m : M A) (k : A → M B) w (e : pyexc) w1 t1 :
  m w = (Err e, w1, t1) → (m ≫= k) w = (Err e, w1, t1).
Proof. intros Hm. by rewrite run_bind, Hm. Qed.

Lemma run_bind_inv {A B} (m : M A) (k : A → M B) w (r : result B) w' t :
  (m ≫= k) w = (r, w', t) →
  (∃ e, m w = (Err e, w', t) ∧ r = Err e) ∨
  (∃ a w1 t1 t2, m w = (Ok a, w1, t1) ∧ k a w1 = (r, w', t2) ∧ t = t1 ++ t2).
Proof.
  rewrite run_bind. destruct (m w) as [[[a|e] w1] t1].
  - destruct (k a w1) as [[r2 w2] t2] eqn:Hk. intros [= <- <- <-].
    right. by exists a, w1, t1, t2.
  - intros [= <- <- <-]. left. by exists e.
Qed.

Lemma run_wrapM {A} (fn : string) (m : M A) w :
  wrapM fn m w =
  match m w with
  | (Ok a, w1, t1) => (Ok a, w1, t1)
  | (Err e, w1, t1) => (Err (Failed fn e), w1, t1)
  end.
Proof.
  unfold wrapM, try_except, raise, lift.
  destruct (m w) as [[[a|e] w1] t1]; [done|]. by rewrite app_nil_r.
Qed.

Lemma run_http_put (url bearer range : string) (values : grid) w :
  http_put url bearer range values w =
  ((requests_put R url bearer range values w).1,
   (requests_put R url bearer range values w).2,
   [EvPut url bearer range values]).
Proof.
  unfold http_put. rewrite run_bind. unfold emit, call.
  by destruct (requests_put R url bearer range values w) as [r w1].
Qed.

Lemma run_http_get (url bearer : string) w :
  http_get url bearer w =
  ((requests_get R url bearer w).1, (requests_get R url bearer w).2, [EvGet url bearer]).
Proof.
  unfold http_get. rewrite run_bind. unfold emit, call.
  by destruct (requests_get R url bearer w) as [r w1].
Qed.

Lemma run_get_tenant_access_token w :
  get_tenant_access_token w =
  (wrap "get_tenant_access_token" (post_auth R w).1, (post_auth R w).2, [EvAuth]).
Proof.
  unfold get_tenant_access_token. rewrite run_wrapM, run_bind. unfold emit, call.
  by destruct (post_auth R w) as [[tok|e] w1].
Qed.

Lemma run_get_sheet_id (spreadsheet_token sheet_name : string) w :
  ∃ r, get_sheet_id spreadsheet_token sheet_name w =
       (r, (query_sheets R spreadsheet_token w).2, [EvQuerySheets spreadsheet_token]).
Proof.
  unfold get_sheet_id, get_name_id_dict, wrapM, try_except, raise, lift, emit, call,
    mbind, M_bind, mret, M_ret.
  destruct (query_sheets R spreadsheet_token w) as [[infos|e] w1]; eexists; reflexivity.
Qed.
End Runs.

(** ** The retry loop of a write batch *)

Section Retry.
Context {R : Remote}.
Implicit Types w : world R.
Variables (url bearer range : string) (values : grid) (batch_size : Z).

Lemma put_attempts_cons (attempt : Z) (attempts' : list Z) w :
  put_attempts url bearer range values batch_size (attempt :: attempts') w =
  match requests_put R url bearer range values w with
  | (Ok response_dict, w1) =>
      if code response_dict =? 0 then (Ok (), w1, [EvPut url bearer range values])
      else if code response_dict =? 90227
      then (Err (PayloadTooLarge (Some batch_size)), w1, [EvPut url bearer range values])
      else if attempt <? max_attempts - 1
      then let '(r, w2, t2) :=
             put_attempts url bearer range values batch_size attempts' w1 in
           (r, w2, EvPut url bearer range values :: EvSleep (10 * (attempt + 1)) :: t2)
      else (Err (RequestFailed (code response_dict) (msg response_dict)), w1,
            [EvPut url bearer range values])
  | (Err e, w1) => (Err e, w1, [EvPut url bearer range values])
  end.
Proof.
  cbn [put_attempts]. rewrite run_bind, run_http_put.
  destruct (requests_put R url bearer range values w) as [[response_dict|e] w1]; [|done].
  cbn [fst snd].
  destruct (code response_dict =? 0); [done|].
  destruct (code response_dict =? 90227); [done|].
  destruct (attempt <? max_attempts - 1); [|done].
  rewrite run_bind. unfold time_sleep, emit.
  by destruct (put_attempts url bearer range values batch_size attempts' w1) as [[r w2] t2].
Qed.

Lemma retry_trace_S (j k : nat) :
  retry_trace url bearer range values j (S k) =
  EvPut url bearer range values :: EvSleep (10 * (Z.of_nat j + 1))
    :: retry_trace url bearer range values (S j) k.
Proof. reflexivity. Qed.

(** The loop on a remote that answers [pre ++ [r]], the answers of [pre]
    being transient and [r] being one the loop does not retry. *)
Lemma put_attempts_run (pre : list put_response) (r : put_response) (j : nat) w w' :
  answers url bearer range values (pre ++ [r]) w w' →
  Forall transient pre →
  (j + length pre ≤ 4)%nat →
  code r = 0 ∨ code r = 90227 ∨ (j + length pre = 4)%nat →
  put_attempts url bearer range values batch_size (Z.of_nat <$> seq j (5 - j)) w =
    (final_outcome batch_size r, w', retry_trace url bearer range values j (length pre)).
Proof.
  revert j w. induction pre as [|r0 pre IH]; intros j w Hans Htr Hj Hfinal.
  - destruct Hans as (w1 & Hput & ->). simpl in Hj, Hfinal.
    replace (5 - j)%nat with (S (4 - j)) by lia. cbn [seq fmap list_fmap].
    rewrite put_attempts_cons, Hput. unfold final_outcome.
    destruct (code r =? 0) eqn:E0; [done|].
    destruct (code r =? 90227) eqn:E1; [done|].
    apply Z.eqb_neq in E0, E1.
    destruct Hfinal as [?|[?|Hlast]]; [done..|].
    destruct (Z.ltb_spec (Z.of_nat j) (max_attempts - 1)) as [Hlt|_]; [|done].
    unfold max_attempts in Hlt. lia.
  - destruct Hans as (w1 & Hput & Hans). apply Forall_cons in Htr as [[H0 H1] Htr].
    cbn [length] in Hj, Hfinal.
    replace (5 - j)%nat with (S (5 - S j)) by lia. cbn [seq fmap list_fmap].
    rewrite put_attempts_cons, Hput.
    destruct (Z.eqb_spec (code r0) 0); [done|].
    destruct (Z.eqb_spec (code r0) 90227); [done|].
    destruct (Z.ltb_spec (Z.of_nat j) (max_attempts - 1)) as [_|Hge].
    2: { unfold max_attempts in Hge. lia. }
    rewrite (IH (S j) w1 Hans Htr) by lia. cbn [length]. by rewrite retry_trace_S.
Qed.

(** Whatever the remote does, the loop sends the same request between once
    and [len(attempts)] times and nothing else. *)
Lemma put_attempts_puts (attempts : list Z) w (r : result unit) w' t :
  put_attempts url bearer range values batch_size attempts w = (r, w', t) →
  ∃ k, (k ≤ length attempts)%nat ∧ (attempts ≠ [] → 1 ≤ k)%nat ∧
       puts_of t = replicate k (url, bearer, range, values).
Proof.
  revert w t. induction attempts as [|attempt attempts IH]; intros w t.
  - intros [= <- <- <-]. exists 0%nat. by repeat split.
  - rewrite put_attempts_cons.
    destruct (requests_put R url bearer range values w) as [[response_dict|e] w1].
    2: { intros [= <- <- <-]. exists 1%nat. repeat split; simpl; lia. }
    destruct (code response_dict =? 0).
    { intros [= <- <- <-]. exists 1%nat. repeat split; simpl; lia. }
    destruct (code response_dict =? 90227).
    { intros [= <- <- <-]. exists 1%nat. repeat split; simpl; lia. }
    destruct (attempt <? max_attempts - 1).
    2: { intros [= <- <- <-]. exists 1%nat. repeat split; simpl; lia. }
    destruct (put_attempts url bearer range values batch_size attempts w1)
      as [[r2 w2] t2] eqn:Hrec.
    intros [= <- <- <-]. destruct (IH _ _ Hrec) as (k & Hk & _ & Hputs).
    exists (S k). repeat split; [simpl; lia|lia|].
    cbn. by rewrite <- Hputs.
Qed.
End Retry.

Lemma puts_of_retry_trace (url bearer range : string) (values : grid) (j k : nat) :
  puts_of (retry_trace url bearer range values j k) =
  replicate (S k) (url, bearer, range, values).
Proof.
  revert j. induction k as [|k IH]; intros j; [done|].
  change (puts_of (retry_trace url bearer range values j (S k)))
    with ((url, bearer, range, values) :: puts_of (retry_trace url bearer range values (S j) k)).
  by rewrite IH.
Qed.

Lemma sleeps_of_retry_trace (url bearer range : string) (values : grid) (j k : nat) :
  sleeps_of (retry_trace url bearer range values j k) =
  (λ attempt : nat, 10 * (Z.of_nat attempt + 1)) <$> seq j k.
Proof.
  revert j. induction k as [|k IH]; intros j; [done|].
  change (sleeps_of (retry_trace url bearer range values j (S k)))
    with (10 * (Z.of_nat j + 1) :: sleeps_of (retry_trace url bearer range values (S j) k)).
  by rewrite IH.
Qed.

(** C2. The retry loop of one write batch, on a remote that answers the
    request with the transient responses [pre] and then with [r].
    - If [r] has code 0 the loop succeeds at once: no attempt follows.
    - If [r] has code 90227 the loop raises at once, without sleeping and
      without another attempt; when it is the first answer, after exactly
      one request.
    - A transient answer is followed by a sleep of [10 * (attempt + 1)] and
      a new attempt, up to 5 attempts; a fifth transient answer raises with
      its code and message.
    - Two transient answers and a success make exactly 3 requests. *)
Theorem retry_policy {R : Remote} (url bearer range : string) (values : grid)
    (batch_size : Z) (pre : list put_response) (r : put_response) (w w' : world R) :
  answers url bearer range values (pre ++ [r]) w w' →
  Forall transient pre →
  (length pre < 5)%nat →
  let run := put_attempts url bearer range values batch_size (range1 max_attempts) w in
  let trace := retry_trace url bearer range values 0 (length pre) in
  (code r = 0 → run = (Ok (), w', trace)) ∧
  (code r = 90227 → run = (Err (PayloadTooLarge (Some batch_size)), w', trace)) ∧
  (transient r → length pre = 4%nat →
     run = (Err (RequestFailed (code r) (msg r)), w', trace)) ∧
  puts_of trace = replicate (S (length pre)) (url, bearer, range, values) ∧
  sleeps_of trace = (λ attempt : nat, 10 * (Z.of_nat attempt + 1)) <$> seq 0 (length pre) ∧
  (pre = [] → code r = 90227 →
     run = (Err (PayloadTooLarge (Some batch_size)), w', [EvPut url bearer range values])) ∧
  (length pre = 2%nat → code r = 0 →
     run = (Ok (), w', [EvPut url bearer range values; EvSleep 10;
                        EvPut url bearer range values; EvSleep 20;
                        EvPut url bearer range values])).
Proof.
  intros Hans Htr Hlen run trace.
  assert (∀ out, (code r = 0 ∨ code r = 90227 ∨ length pre = 4%nat) →
                 final_outcome batch_size r = out → run = (out, w', trace)) as Hrun.
  { intros out Hfinal <-. subst run trace.
    apply (put_attempts_run url bearer range values batch_size pre r 0 w w' Hans Htr);
      [lia|exact Hfinal]. }
  assert (code r = 90227 → final_outcome batch_size r = Err (PayloadTooLarge (Some batch_size)))
    as H90227.
  { intros E. unfold final_outcome. by rewrite E. }
  assert (code r = 0 → final_outcome batch_size r = Ok ()) as H0.
  { intros E. unfold final_outcome. by rewrite E. }
  split; [|split; [|split; [|split; [|split; [|split]]]]].
  - intros E. apply Hrun; auto.
  - intros E. apply Hrun; auto.
  - intros [E0 E1] E4. apply Hrun; [auto|]. unfold final_outcome.
    destruct (Z.eqb_spec (code r) 0); [done|]. by destruct (Z.eqb_spec (code r) 90227).
  - apply puts_of_retry_trace.
  - apply sleeps_of_retry_trace.
  - intros Hpre E. specialize (Hrun _ (or_intror (or_introl E)) (H90227 E)).
    subst trace. by rewrite Hpre in Hrun.
  - intros Hpre E. specialize (Hrun _ (or_introl E) (H0 E)).
    subst trace. rewrite Hpre in Hrun. exact Hrun.
Qed.

Lemma retry_policy_witness :
  put_attempts (R := scripted "t" [("Sheet1", "sid")]) "u" "t" "sid!A1:A1" [[CStr "x"]] 100
               (range1 max_attempts)
               {| gets := [];
                  puts := [Ok {| code := 90217; msg := "too many request" |};
                           Ok {| code := 90217; msg := "too many request" |};
                           Ok {| code := 0; msg := "success" |}] |}
  = (Ok (), {| gets := []; puts := [] |},
     [EvPut "u" "t" "sid!A1:A1" [[CStr "x"]]; EvSleep 10;
      EvPut "u" "t" "sid!A1:A1" [[CStr "x"]]; EvSleep 20;
      EvPut "u" "t" "sid!A1:A1" [[CStr "x"]]]).
Proof.
  pose (busy := {| code := 90217; msg := "too many request" |}).
  destruct (retry_policy (R := scripted "t" [("Sheet1", "sid")]) "u" "t" "sid!A1:A1"
              [[CStr "x"]] 100 [busy; busy] {| code := 0; msg := "success" |}
              {| gets := []; puts := [Ok busy; Ok busy; Ok {| code := 0; msg := "success" |}] |}
              {| gets := []; puts := [] |})
    as (_ & _ & _ & _ & _ & _ & Hscenario).
  - eexists. split; [reflexivity|]. eexists. split; [reflexivity|].
    eexists. split; [reflexivity|]. reflexivity.
  - repeat constructor; simpl; lia.
  - simpl. lia.
  - apply Hscenario; reflexivity.
Defined.

(** ** The two halves of the writers *)

Section Writers.
Context {R : Remote}.
Implicit Types w : world R.

Lemma write_multi_data_factor (spreadsheet_token sheet_name start_loc : string)
    (input_data : input) w :
  write_multi_data spreadsheet_token sheet_name start_loc input_data w =
  wrapM "write_multi_data"
    (lift (normalize input_data) ≫= send_standard spreadsheet_token sheet_name start_loc) w.
Proof.
  unfold write_multi_data, normalize. rewrite !run_wrapM.
  destruct (format_input input_data) as [formatted_data|e].
  2: { by rewrite result_bind_err, !run_lift_err. }
  rewrite result_bind_ok, run_lift_ok.
  destruct (check_2d_list formatted_data) as [[]|e].
  2: { by rewrite result_bind_err, !run_lift_err. }
  by rewrite result_bind_ok, !run_lift_ok.
Qed.

Lemma batch_write_multi_data_factor (spreadsheet_token sheet_name start_loc : string)
    (input_data : input) (batch_size : Z) w :
  batch_write_multi_data spreadsheet_token sheet_name start_loc input_data batch_size w =
  wrapM "batch_write_multi_data"
    (lift (normalize input_data)
       ≫= send_batches spreadsheet_token sheet_name start_loc batch_size) w.
Proof.
  unfold batch_write_multi_data, normalize. rewrite !run_wrapM.
  destruct (format_input input_data) as [formatted_data|e].
  2: { by rewrite result_bind_err, !run_lift_err. }
  rewrite result_bind_ok, run_lift_ok.
  destruct (check_2d_list formatted_data) as [[]|e].
  2: { by rewrite result_bind_err, !run_lift_err. }
  by rewrite result_bind_ok, !run_lift_ok.
Qed.

(** A rejected input stops a writer before any request. *)
Lemma write_multi_data_rejected (spreadsheet_token sheet_name start_loc : string)
    (input_data : input) (e : pyexc) w :
  normalize input_data = Err e →
  write_multi_data spreadsheet_token sheet_name start_loc input_data w =
    (Err (Failed "write_multi_data" e), w, []).
Proof.
  intros Hn. by rewrite write_multi_data_factor, run_wrapM, Hn, run_lift_err.
Qed.

Lemma batch_write_multi_data_rejected (spreadsheet_token sheet_name start_loc : string)
    (input_data : input) (batch_size : Z) (e : pyexc) w :
  normalize input_data = Err e →
  batch_write_multi_data spreadsheet_token sheet_name start_loc input_data batch_size w =
    (Err (Failed "batch_write_multi_data" e), w, []).
Proof.
  intros Hn. by rewrite batch_write_multi_data_factor, run_wrapM, Hn, run_lift_err.
Qed.
End Writers.

Lemma normalize_list_ok (c : nat) (g : grid) :
  rectangular c g → normalize (InList g) = Ok (standardize g).
Proof.
  intros Hrect. unfold normalize, format_input. rewrite result_bind_ok.
  assert (check_2d_list g = Ok ()) as -> by (apply check_2d_list_ok; eauto).
  by rewrite result_bind_ok.
Qed.

Lemma normalize_ok_inv (input_data : input) (sd : grid) :
  normalize input_data = Ok sd →
  ∃ formatted_data c,
    format_input input_data = Ok formatted_data ∧ rectangular c formatted_data ∧
    sd = standardize formatted_data.
Proof.
  unfold normalize. intros (formatted_data & Hf & H)%result_bind_ok_inv.
  apply result_bind_ok_inv in H as ([] & Hchk & [= <-]).
  apply check_2d_list_ok in Hchk as [c Hc]. by exists formatted_data, c.
Qed.

(** ** Validation *)

Lemma to_2d_list_dict_unequal (d : list (cell * list cell)) (v1 v2 : list cell) :
  v1 ∈ d.*2 → v2 ∈ d.*2 → length v1 ≠ length v2 →
  to_2d_list (InDict d) = Err (Failed "to_2d_list" (ValueError DictValueLengths)).
Proof.
  intros H1 H2 Hne. unfold to_2d_list. case_decide as Hsz; [done|].
  exfalso. apply size_list_to_set_1 in Hsz as (n & _ & Hall).
  rewrite Forall_fmap, Forall_forall in Hall.
  apply Hne. by rewrite (Hall v1 H1), (Hall v2 H2).
Qed.

Lemma normalize_rectangular (input_data : input) (sd : grid) :
  normalize input_data = Ok sd → ∃ c, rectangular c sd.
Proof.
  intros (formatted_data & c & _ & Hrect & ->)%normalize_ok_inv.
  exists c. by apply standardize_rectangular.
Qed.

Lemma normalize_list_invalid (g : grid) :
  [] ∈ g ∨ (∃ row1 row2, row1 ∈ g ∧ row2 ∈ g ∧ length row1 ≠ length row2) →
  ∃ m, normalize (InList g) = Err (ValueError m).
Proof.
  intros Hbad. unfold normalize, format_input. rewrite result_bind_ok.
  destruct Hbad as [Hempty|(row1 & row2 & H1 & H2 & Hne)].
  - exists EmptyRow. by rewrite check_2d_list_empty_row.
  - destruct (check_2d_list_unequal g row1 row2 H1 H2 Hne) as [m ->]. by exists m.
Qed.

(** C7. A labelled-column input whose value sequences differ in length is
    rejected by [to_2d_list] with a [ValueError], and a list of rows holding
    an empty row or two rows of different lengths is rejected by the shape
    check with a [ValueError]; in both cases [write_multi_data] and
    [batch_write_multi_data] fail with that error without having issued any
    request.  An input that passes yields a rectangular grid. *)
Theorem grid_validation {R : Remote} (spreadsheet_token sheet_name start_loc : string)
    (batch_size : Z) (w : world R) (d : list (cell * list cell)) (g : grid)
    (input_data : input) (sd : grid) :
  ((∃ v1 v2, v1 ∈ d.*2 ∧ v2 ∈ d.*2 ∧ length v1 ≠ length v2) →
     ∃ e, is_validation_error e ∧
          to_2d_list (InDict d) = Err e ∧
          write_multi_data spreadsheet_token sheet_name start_loc (InDict d) w =
            (Err (Failed "write_multi_data" e), w, []) ∧
          batch_write_multi_data spreadsheet_token sheet_name start_loc (InDict d) batch_size w =
            (Err (Failed "batch_write_multi_data" e), w, [])) ∧
  ([] ∈ g ∨ (∃ row1 row2, row1 ∈ g ∧ row2 ∈ g ∧ length row1 ≠ length row2) →
     ∃ e, is_validation_error e ∧
          write_multi_data spreadsheet_token sheet_name start_loc (InList g) w =
            (Err (Failed "write_multi_data" e), w, []) ∧
          batch_write_multi_data spreadsheet_token sheet_name start_loc (InList g) batch_size w =
            (Err (Failed "batch_write_multi_data" e), w, [])) ∧
  (normalize input_data = Ok sd → ∃ c, rectangular c sd).
Proof.
  split; [|split].
  - intros (v1 & v2 & H1 & H2 & Hne).
    pose proof (to_2d_list_dict_unequal d v1 v2 H1 H2 Hne) as Hto.
    exists (Failed "to_2d_list" (ValueError DictValueLengths)).
    assert (normalize (InDict d) = Err (Failed "to_2d_list" (ValueError DictValueLengths)))
      as Hn.
    { unfold normalize, format_input. by rewrite Hto. }
    split; [by exists DictValueLengths|]. split; [exact Hto|].
    split; [by apply write_multi_data_rejected|by apply batch_write_multi_data_rejected].
  - intros Hbad. destruct (normalize_list_invalid g Hbad) as [m Hn].
    exists (ValueError m). split; [by exists m|].
    split; [by apply write_multi_data_rejected|by apply batch_write_multi_data_rejected].
  - apply normalize_rectangular.
Qed.

Lemma grid_validation_witness :
  (∃ e, is_validation_error e ∧
        to_2d_list (InDict [(CStr "a", [CInt 1; CInt 2]); (CStr "b", [CInt 3])]) = Err e ∧
        write_multi_data (R := scripted "t" [("Sheet1", "sid")]) "tok" "Sheet1" "A1"
          (InDict [(CStr "a", [CInt 1; CInt 2]); (CStr "b", [CInt 3])])
          {| gets := []; puts := [] |} =
          (Err (Failed "write_multi_data" e), {| gets := []; puts := [] |}, []) ∧
        batch_write_multi_data (R := scripted "t" [("Sheet1", "sid")]) "tok" "Sheet1" "A1"
          (InDict [(CStr "a", [CInt 1; CInt 2]); (CStr "b", [CInt 3])]) 100
          {| gets := []; puts := [] |} =
          (Err (Failed "batch_write_multi_data" e), {| gets := []; puts := [] |}, [])) ∧
  (∃ e, is_validation_error e ∧
        write_multi_data (R := scripted "t" [("Sheet1", "sid")]) "tok" "Sheet1" "A1"
          (InList [[CInt 1; CInt 2]; [CInt 3]]) {| gets := []; puts := [] |} =
          (Err (Failed "write_multi_data" e), {| gets := []; puts := [] |}, []) ∧
        batch_write_multi_data (R := scripted "t" [("Sheet1", "sid")]) "tok" "Sheet1" "A1"
          (InList [[CInt 1; CInt 2]; [CInt 3]]) 100 {| gets := []; puts := [] |} =
          (Err (Failed "batch_write_multi_data" e), {| gets := []; puts := [] |}, [])) ∧
  (∃ c, rectangular c [[CStr "a"; CStr "b"]; [CInt 1; CStr ""]]).
Proof.
  destruct (grid_validation (R := scripted "t" [("Sheet1", "sid")]) "tok" "Sheet1" "A1" 100
              {| gets := []; puts := [] |}
              [(CStr "a", [CInt 1; CInt 2]); (CStr "b", [CInt 3])]
              [[CInt 1; CInt 2]; [CInt 3]]
              (InDict [(CStr "a", [CInt 1]); (CStr "b", [CNone])])
              [[CStr "a"; CStr "b"]; [CInt 1; CStr ""]])
    as (Hdict & Hlist & Hok).
  split; [|split].
  - apply Hdict. exists [CInt 1; CInt 2], [CInt 3].
    split; [left|]. split; [right; left|]. simpl. lia.
  - apply Hlist. right. exists [CInt 1; CInt 2], [CInt 3].
    split; [left|]. split; [right; left|]. simpl. lia.
  - apply Hok. reflexivity.
Defined.

(** C10. On the empty grid the shape check fails, because the collection of
    row lengths is empty: [complete_data_range] raises the "equal length"
    [ValueError] (for any start location on which its pattern matches), and
    [write_multi_data] and [batch_write_multi_data] raise it before any
    request, although no row of the empty grid is empty or of a different
    length. *)
Theorem empty_grid_rejected {R : Remote} (spreadsheet_token sheet_name start_loc : string)
    (letters digits : string) (batch_size : Z) (w : world R) :
  (re_search_cell start_loc = Some (letters, digits) →
     complete_data_range start_loc [] =
       Err (Failed "complete_data_range" (ValueError UnequalLengths))) ∧
  write_multi_data spreadsheet_token sheet_name start_loc (InList []) w =
    (Err (Failed "write_multi_data" (ValueError UnequalLengths)), w, []) ∧
  batch_write_multi_data spreadsheet_token sheet_name start_loc (InList []) batch_size w =
    (Err (Failed "batch_write_multi_data" (ValueError UnequalLengths)), w, []) ∧
  is_validation_error (Failed "complete_data_range" (ValueError UnequalLengths)) ∧
  Forall (λ row : list cell, row ≠ []) [] ∧
  Forall (λ row : list cell, length row = 0%nat) [].
Proof.
  split; [|split; [|split; [|split]]].
  - intros Hre. destruct (re_search_cell_digits _ _ _ Hre) as [n Hn].
    unfold complete_data_range. rewrite Hre. result_simpl. rewrite Hn. by result_simpl.
  - by apply write_multi_data_rejected.
  - by apply batch_write_multi_data_rejected.
  - by exists UnequalLengths.
  - split; constructor.
Qed.

Lemma empty_grid_rejected_witness :
  complete_data_range "A1" [] = Err (Failed "complete_data_range" (ValueError UnequalLengths)).
Proof.
  apply (proj1 (empty_grid_rejected (R := scripted "t" []) "tok" "Sheet1" "A1" "A" "1" 100
                  {| gets := []; puts := [] |})).
  reflexivity.
Defined.

(** ** The loop over the batches *)

Lemma puts_of_app (t1 t2 : list event) : puts_of (t1 ++ t2) = puts_of t1 ++ puts_of t2.
Proof. apply omap_app. Qed.

Lemma range1_max_attempts : range1 max_attempts = [0; 1; 2; 3; 4].
Proof. reflexivity. Qed.

Section WriteLoop.
Context {R : Remote}.
Implicit Types w : world R.
Variables (url bearer sheet_id start_letter : string) (start_number : Z).
Variables (sd : grid) (batch_size : Z).

Let body := write_batch (R := R) url bearer sheet_id start_letter start_number sd batch_size.
Let request (c : chunk) := (url, bearer, sheet_id +:+ "!" +:+ chunk_range c, chunk_data c).

Lemma run_write_batch (idx : Z) w :
  body idx w =
  match plan_chunk start_letter start_number sd batch_size idx with
  | Ok c => put_attempts url bearer (sheet_id +:+ "!" +:+ chunk_range c) (chunk_data c)
                         batch_size (range1 max_attempts) w
  | Err e => (Err e, w, [])
  end.
Proof.
  unfold body, write_batch.
  destruct (plan_chunk start_letter start_number sd batch_size idx) as [c|e].
  - by rewrite run_lift_ok.
  - by rewrite run_lift_err.
Qed.

(** Whatever happens, every request sent carries a planned chunk. *)
Lemma write_loop_puts (idxs : list Z) w (r : result unit) w' t :
  for_each idxs body w = (r, w', t) →
  Forall (λ p, ∃ idx c, idx ∈ idxs ∧
                        plan_chunk start_letter start_number sd batch_size idx = Ok c ∧
                        p = request c) (puts_of t).
Proof.
  revert w t. induction idxs as [|idx idxs IH]; intros w t.
  - intros [= <- <- <-]. constructor.
  - cbn [for_each]. intros Hrun.
    assert (∀ w1 t1 r1, body idx w = (r1, w1, t1) →
              Forall (λ p, ∃ idx' c, idx' ∈ idx :: idxs ∧
                 plan_chunk start_letter start_number sd batch_size idx' = Ok c ∧
                 p = request c) (puts_of t1)) as Hone.
    { intros w1 t1 r1. rewrite run_write_batch.
      destruct (plan_chunk start_letter start_number sd batch_size idx) as [c|e] eqn:Hplan.
      - intros (k & _ & _ & ->)%put_attempts_puts.
        apply Forall_replicate. exists idx, c. split; [left|done].
      - intros [= <- <- <-]. constructor. }
    apply run_bind_inv in Hrun as [(e & Hm & ->)|(a & w1 & t1 & t2 & Hm & Hk & ->)].
    + by apply Hone in Hm.
    + rewrite puts_of_app. apply Forall_app. split; [by apply Hone in Hm|].
      eapply Forall_impl; [by apply (IH _ _ Hk)|].
      intros p (idx' & c & Hin & Hplan & ->). exists idx', c. split; [by right|done].
Qed.

(** When the loop ends normally, it has sent the chunks in plan order,
    each between one and five times. *)
Lemma write_loop_ok (f : Z → chunk) (idxs : list Z) w w' t :
  Forall (λ idx, plan_chunk start_letter start_number sd batch_size idx = Ok (f idx)) idxs →
  for_each idxs body w = (Ok (), w', t) →
  ∃ counts : list nat,
    length counts = length idxs ∧
    Forall (λ k, 1 ≤ k ≤ 5)%nat counts ∧
    puts_of t = concat (zip_with (λ k idx, replicate k (request (f idx))) counts idxs).
Proof.
  intros Hplan. revert w t. induction Hplan as [|idx idxs Hidx _ IH]; intros w t.
  - intros [= <- <-]. by exists [].
  - cbn [for_each]. intros Hrun.
    apply run_bind_inv in Hrun as [(e & _ & [=])|(a & w1 & t1 & t2 & Hm & Hk & ->)].
    rewrite run_write_batch, Hidx in Hm.
    apply put_attempts_puts in Hm as (k & Hk5 & Hk1 & Hputs).
    destruct (IH _ _ Hk) as (counts & Hlen & Hall & Hrest).
    exists (k :: counts). split; [simpl; lia|]. split.
    + constructor; [|done]. rewrite range1_max_attempts in Hk5, Hk1.
      split; [by apply Hk1|exact Hk5].
    + rewrite puts_of_app, Hputs, Hrest. done.
Qed.
End WriteLoop.

Section Sending.
Context {R : Remote}.
Implicit Types w : world R.

(** A run of the second half of [batch_write_multi_data]: either it stops
    before the loop, having sent no PUT, or it is the run of the loop
    after the two preliminary requests. *)
Lemma send_batches_inv (spreadsheet_token sheet_name start_loc : string)
    (batch_size : Z) (sd : grid) w (r : result unit) w' t :
  send_batches spreadsheet_token sheet_name start_loc batch_size sd w = (r, w', t) →
  (∃ e, r = Err e ∧ puts_of t = []) ∨
  (∃ bearer sheet_id letters digits n starts w2 t_loop,
     re_search_cell start_loc = Some (letters, digits) ∧
     py_int digits = Some n ∧
     batch_size ≠ 0 ∧
     py_range 0 (Z.of_nat (length sd)) batch_size = Ok starts ∧
     for_each starts (write_batch (values_url spreadsheet_token) bearer sheet_id
                                  (upper letters) n sd batch_size) w2 = (r, w', t_loop) ∧
     t = EvAuth :: EvQuerySheets spreadsheet_token :: t_loop).
Proof.
  unfold send_batches. intros Hrun.
  apply run_bind_inv in Hrun as [(e & Hm & ->)|(bearer & w1 & t1 & t2 & Hm & Hrun & ->)].
  { rewrite run_get_tenant_access_token in Hm. injection Hm as _ _ <-. left. by exists e. }
  rewrite run_get_tenant_access_token in Hm. injection Hm as _ _ <-.
  apply run_bind_inv in Hrun as [(e & Hm & ->)|(sheet_id & w2 & t1 & t3 & Hm & Hrun & ->)].
  { destruct (run_get_sheet_id spreadsheet_token sheet_name w1) as [r' Hr'].
    rewrite Hr' in Hm. injection Hm as _ _ <-. left. by exists e. }
  destruct (run_get_sheet_id spreadsheet_token sheet_name w1) as [r' Hr'].
  rewrite Hr' in Hm. injection Hm as _ _ <-.
  destruct (re_search_cell start_loc) as [[letters digits]|] eqn:Hre.
  2: { cbn [subscript] in Hrun. rewrite run_lift_err in Hrun. injection Hrun as <- <- <-. left. by eexists. }
  cbn [subscript] in Hrun. rewrite run_lift_ok in Hrun. cbn [fst snd] in Hrun.
  destruct (py_int digits) as [n|] eqn:Hint.
  2: { cbn [subscript] in Hrun. rewrite run_lift_err in Hrun. injection Hrun as <- <- <-. left. by eexists. }
  cbn [subscript] in Hrun. rewrite run_lift_ok in Hrun.
  unfold batch_num in Hrun. destruct (Z.eqb_spec batch_size 0) as [Hz|Hz].
  { rewrite run_lift_err in Hrun. injection Hrun as <- <- <-. left. by eexists. }
  rewrite run_lift_ok in Hrun.
  destruct (py_range 0 (Z.of_nat (length sd)) batch_size) as [starts|e] eqn:Hrange.
  2: { rewrite run_lift_err in Hrun. injection Hrun as <- <- <-. left. by eexists. }
  rewrite run_lift_ok in Hrun.
  right. exists bearer, sheet_id, letters, digits, n, starts, w2, t3. done.
Qed.

(** A run of the second half of [write_multi_data]: at most one PUT, of
    the whole grid, at the range computed from it. *)
Lemma send_standard_inv (spreadsheet_token sheet_name start_loc : string)
    (sd : grid) w (r : result unit) w' t :
  send_standard spreadsheet_token sheet_name start_loc sd w = (r, w', t) →
  puts_of t = [] ∨
  (∃ bearer sheet_id data_range,
     complete_data_range start_loc sd = Ok data_range ∧
     t = [EvAuth; EvQuerySheets spreadsheet_token;
          EvPut (values_url spreadsheet_token) bearer (sheet_id +:+ "!" +:+ data_range) sd]).
Proof.
  unfold send_standard. intros Hrun.
  apply run_bind_inv in Hrun as [(e & Hm & ->)|(bearer & w1 & t1 & t2 & Hm & Hrun & ->)].
  { rewrite run_get_tenant_access_token in Hm. injection Hm as _ _ <-. by left. }
  rewrite run_get_tenant_access_token in Hm. injection Hm as _ _ <-.
  apply run_bind_inv in Hrun as [(e & Hm & ->)|(sheet_id & w2 & t1 & t3 & Hm & Hrun & ->)].
  { destruct (run_get_sheet_id spreadsheet_token sheet_name w1) as [r' Hr'].
    rewrite Hr' in Hm. injection Hm as _ _ <-. by left. }
  destruct (run_get_sheet_id spreadsheet_token sheet_name w1) as [r' Hr'].
  rewrite Hr' in Hm. injection Hm as _ _ <-.
  destruct (complete_data_range start_loc sd) as [data_range|e] eqn:Hcr.
  2: { rewrite run_lift_err in Hrun. injection Hrun as <- <- <-. by left. }
  rewrite run_lift_ok in Hrun.
  right. exists bearer, sheet_id, data_range. split; [done|].
  apply run_bind_inv in Hrun as [(e & Hm & ->)|(resp & w3 & t1 & t4 & Hm & Hrun & ->)].
  { rewrite run_http_put in Hm. by injection Hm as _ _ <-. }
  rewrite run_http_put in Hm. injection Hm as _ _ <-.
  destruct (code resp =? 0); [by injection Hrun as <- <- <-|].
  destruct (code resp =? 90227); by injection Hrun as <- <- <-.
Qed.
End Sending.

(** ** Properties of the write plan *)

Lemma batch_num_ceil (total bs : Z) :
  1 ≤ bs → 0 ≤ total → batch_num total bs = Ok (ceil_div total bs).
Proof.
  intros Hbs Htot. unfold batch_num. destruct (Z.eqb_spec bs 0); [lia|]. f_equal.
  symmetry. apply ceil_div_spec; [lia|].
  pose proof (Z.div_mod total bs ltac:(lia)) as Hdm.
  pose proof (Z.mod_pos_bound total bs ltac:(lia)) as Hm.
  destruct (Z.eqb_spec (total mod bs) 0); nia.
Qed.

Section PlanProperties.
Variables (L end_letter : string) (n : Z) (sd : grid) (b : nat).
Hypothesis Hb : (0 < b)%nat.

Let count := Z.to_nat (ceil_div (Z.of_nat (length sd)) (Z.of_nat b)).
Let chunks := nth_chunk L end_letter n sd b <$> seq 0 count.

Lemma plan_count : Z.of_nat (length chunks) = ceil_div (Z.of_nat (length sd)) (Z.of_nat b).
Proof.
  unfold chunks, count. rewrite length_fmap, length_seq.
  apply Z2Nat.id, ceil_div_nonneg; lia.
Qed.

Lemma plan_covers : (length sd ≤ count * b)%nat.
Proof.
  unfold count.
  pose proof (ceil_div_nonneg (Z.of_nat (length sd)) (Z.of_nat b) ltac:(lia) ltac:(lia)).
  destruct (proj1 (ceil_div_spec (Z.of_nat (length sd)) (Z.of_nat b) _ ltac:(lia)) eq_refl)
    as [_ Hhi].
  nia.
Qed.

Lemma plan_start_lt (i : nat) : (i < count)%nat → (i * b < length sd)%nat.
Proof.
  intros Hi.
  pose proof (batch_start_lt (Z.of_nat (length sd)) (Z.of_nat b) i ltac:(lia) ltac:(lia) Hi).
  nia.
Qed.

Lemma plan_data (k : nat) :
  chunk_data <$> (nth_chunk L end_letter n sd b <$> seq 0 k)
  = (λ i, take b (drop (i * b) sd)) <$> seq 0 k.
Proof. rewrite <- list_fmap_compose. by apply list_fmap_ext. Qed.

Lemma plan_concat : concat (chunk_data <$> chunks) = sd.
Proof.
  unfold chunks. rewrite plan_data, concat_batches.
  apply take_ge. apply plan_covers.
Qed.

Lemma plan_lookup (i : nat) (ch : chunk) :
  chunks !! i = Some ch → (i < count)%nat ∧ ch = nth_chunk L end_letter n sd b i.
Proof.
  unfold chunks. rewrite list_lookup_fmap.
  destruct (seq 0 count !! i) as [j|] eqn:Hj; [|done].
  apply lookup_seq in Hj as [-> Hi]. by intros [= <-].
Qed.

Lemma plan_before (i : nat) :
  (i < count)%nat → length (concat (chunk_data <$> take i chunks)) = (i * b)%nat.
Proof.
  intros Hi. unfold chunks. rewrite <- fmap_take, take_seq.
  rewrite Nat.min_l by lia. rewrite plan_data, concat_batches.
  rewrite length_take. pose proof (plan_start_lt i Hi). lia.
Qed.

Lemma plan_chunk_length_eq (i : nat) :
  length (chunk_data (nth_chunk L end_letter n sd b i)) = Nat.min b (length sd - i * b).
Proof. cbn [nth_chunk chunk_data]. by rewrite length_take, length_drop. Qed.

Lemma plan_chunk_length (i : nat) :
  (i < count)%nat →
  length (chunk_data (nth_chunk L end_letter n sd b i)) = Nat.min b (length sd - i * b).
Proof. intros _. apply plan_chunk_length_eq. Qed.
End PlanProperties.

Lemma write_plan_starts (L end_letter : string) (o n : Z) (c : nat) (sd : grid) (b : nat) :
  col_to_order col_order_info !! L = Some o →
  order_to_col col_order_info !! (o + Z.of_nat c - 1) = Some end_letter →
  0 ≤ n →
  rectangular c sd →
  (0 < b)%nat →
  let f := λ idx, nth_chunk L end_letter n sd b (Z.to_nat (idx / Z.of_nat b)) in
  ∃ starts,
    py_range 0 (Z.of_nat (length sd)) (Z.of_nat b) = Ok starts ∧
    Forall (λ idx, plan_chunk L n sd (Z.of_nat b) idx = Ok (f idx)) starts ∧
    f <$> starts =
      nth_chunk L end_letter n sd b
        <$> seq 0 (Z.to_nat (ceil_div (Z.of_nat (length sd)) (Z.of_nat b))).
Proof.
  intros Hcol Hend Hn Hrect Hb f.
  eexists. split; [apply py_range_ascending; lia|]. rewrite Z.sub_0_r. split.
  - apply Forall_fmap, Forall_forall. intros i Hi%elem_of_seq. unfold compose, f.
    rewrite Z.add_0_l, Z.div_mul by lia. rewrite Nat2Z.id.
    pose proof (batch_start_lt (Z.of_nat (length sd)) (Z.of_nat b) i) as Hlt.
    apply (plan_chunk_ok L end_letter o n c sd b i Hcol Hend Hn Hrect Hb). nia.
  - rewrite <- list_fmap_compose. apply list_fmap_ext.
    intros _ i _. unfold compose, f. rewrite Z.add_0_l, Z.div_mul by lia. by rewrite Nat2Z.id.
Qed.

Lemma zip_with_fmap_right {A B B' C} (h : A → B' → C) (f : B → B') (l : list A) (k : list B) :
  zip_with h l (f <$> k) = zip_with (λ x y, h x (f y)) l k.
Proof.
  revert k. induction l as [|x l IH]; intros [|y k]; [done..|].
  simpl. by rewrite IH.
Qed.

(** A successful batched write has sent the planned chunks, in plan order,
    each between one and five times. *)
Lemma batch_write_issue_order {R : Remote} (spreadsheet_token sheet_name : string)
    (input_data : input) (L end_letter : string) (o n : Z) (c : nat) (sd : grid) (b : nat)
    (w w' : world R) (t : list event) :
  normalize input_data = Ok sd →
  col_to_order col_order_info !! L = Some o →
  order_to_col col_order_info !! (o + Z.of_nat c - 1) = Some end_letter →
  0 ≤ n →
  rectangular c sd →
  (0 < b)%nat →
  batch_write_multi_data spreadsheet_token sheet_name (L +:+ py_str n) input_data
                         (Z.of_nat b) w = (Ok (), w', t) →
  ∃ (bearer sheet_id : string) (counts : list nat),
    let chunks := nth_chunk L end_letter n sd b
                    <$> seq 0 (Z.to_nat (ceil_div (Z.of_nat (length sd)) (Z.of_nat b))) in
    length counts = length chunks ∧
    Forall (λ k, 1 ≤ k ≤ 5)%nat counts ∧
    puts_of t =
      concat (zip_with (λ k ch, replicate k (values_url spreadsheet_token, bearer,
                                               sheet_id +:+ "!" +:+ chunk_range ch,
                                               chunk_data ch))
                       counts chunks).
Proof.
  intros Hnorm Hcol Hend Hn Hrect Hb Hrun.
  rewrite batch_write_multi_data_factor, run_wrapM, Hnorm, run_lift_ok in Hrun.
  destruct (send_batches spreadsheet_token sheet_name (L +:+ py_str n) (Z.of_nat b) sd w)
    as [[r w2] t2] eqn:Hsend.
  destruct r as [[]|e]; [|done]. injection Hrun as <- <-.
  apply send_batches_inv in Hsend
    as [(e & [=] & _)|(bearer & sheet_id & letters & digits & n' & starts & w3 & t_loop
                        & Hre & Hint & _ & Hrange & Hloop & ->)].
  destruct (col_to_order_valid L o Hcol) as (_ & Hne & Halpha & Hup).
  destruct (py_str_nonneg_digits n Hn) as [Hdne Hdig].
  rewrite (re_search_cell_canonical L (py_str n) Hne Halpha Hdne Hdig) in Hre.
  injection Hre as <- <-. rewrite py_int_str in Hint by done. injection Hint as <-.
  rewrite Hup in Hloop.
  destruct (write_plan_starts L end_letter o n c sd b Hcol Hend Hn Hrect Hb)
    as (starts' & Hrange' & Hplan & Hchunks).
  rewrite Hrange in Hrange'. injection Hrange' as <-.
  destruct (write_loop_ok (values_url spreadsheet_token) bearer sheet_id L n sd (Z.of_nat b)
              _ starts w3 w2 t_loop Hplan Hloop) as (counts & Hlen & Hall & Hputs).
  exists bearer, sheet_id, counts. cbn zeta. rewrite <- Hchunks.
  split; [by rewrite length_fmap|]. split; [done|].
  change (puts_of (EvAuth :: EvQuerySheets spreadsheet_token :: t_loop))
    with (puts_of t_loop).
  rewrite Hputs. by rewrite zip_with_fmap_right.
Qed.

(** C1. Writing a rectangular non-empty grid [g] of [c] columns from the cell
    at column [L], row [n], in batches of [batch_size >= 1] rows, the last
    column staying within the enumeration.  The loop of
    [batch_write_multi_data] works through [ceil(rowCount / batch_size)]
    chunks (the number it also announces as [batch_num]); their rows,
    concatenated in order, are the rows of the sanitised grid, hence of [g]
    itself when [g] holds no missing value; chunk [i] has between 1 and
    [batch_size] rows, starts [i * batch_size] rows into the grid, which is
    the number of rows of the chunks before it, and its range runs from
    column [L], row [n] plus that number, to the last column; a call that
    returns normally has sent exactly these chunks in this order (each
    between one and five times, retries included).  250 rows written from
    "C10" in batches of 100 give the origins C10, C110, C210 and 100, 100 and
    50 rows. *)
Theorem write_batch_planning {R : Remote} (spreadsheet_token sheet_name : string)
    (L : string) (o n : Z) (c : nat) (g : grid) (batch_size : Z)
    (w w' : world R) (t : list event) :
  col_to_order col_order_info !! L = Some o →
  0 ≤ n →
  rectangular c g →
  o + Z.of_nat c - 1 ≤ 701 →
  1 ≤ batch_size →
  ∃ (chunks : list chunk) (end_letter : string),
    write_plan L n (standardize g) batch_size = Ok chunks ∧
    col_to_order col_order_info !! end_letter = Some (o + Z.of_nat c - 1) ∧
    Z.of_nat (length chunks) = ceil_div (Z.of_nat (length g)) batch_size ∧
    batch_num (Z.of_nat (length g)) batch_size = Ok (Z.of_nat (length chunks)) ∧
    concat (chunk_data <$> chunks) = standardize g ∧
    (Forall (Forall (λ item, pd_isna item = false)) g → concat (chunk_data <$> chunks) = g) ∧
    (∀ (i : nat) (ch : chunk),
       chunks !! i = Some ch →
       let before := Z.of_nat (length (concat (chunk_data <$> take i chunks))) in
       (0 < length (chunk_data ch))%nat ∧
       Z.of_nat (length (chunk_data ch)) ≤ batch_size ∧
       before = Z.of_nat i * batch_size ∧
       chunk_data ch = take (Z.to_nat batch_size) (drop (Z.to_nat before) (standardize g)) ∧
       chunk_origin ch = L +:+ py_str (n + before) ∧
       chunk_range ch = L +:+ py_str (n + before) +:+ ":" +:+ end_letter
                        +:+ py_str (n + before + Z.of_nat (length (chunk_data ch)) - 1)) ∧
    (batch_write_multi_data spreadsheet_token sheet_name (L +:+ py_str n) (InList g)
                            batch_size w = (Ok (), w', t) →
       ∃ (bearer sheet_id : string) (counts : list nat),
         length counts = length chunks ∧
         Forall (λ k, 1 ≤ k ≤ 5)%nat counts ∧
         puts_of t =
           concat (zip_with (λ k ch, replicate k (values_url spreadsheet_token, bearer,
                                                    sheet_id +:+ "!" +:+ chunk_range ch,
                                                    chunk_data ch))
                            counts chunks)) ∧
    (length g = 250%nat → batch_size = 100 → L = "C" → n = 10 →
       chunk_origin <$> chunks = ["C10"; "C110"; "C210"] ∧
       (λ ch, length (chunk_data ch)) <$> chunks = [100; 100; 50]%nat).
Proof.
  intros Hcol Hn Hrect He Hbs.
  pose proof (col_to_order_valid L o Hcol) as [Ho _].
  assert (0 < c)%nat as Hc by apply Hrect.
  destruct (order_to_col_total (o + Z.of_nat c - 1)) as (end_letter & Hend & Hback); [lia|].
  set (sd := standardize g).
  assert (rectangular c sd) as Hsd by by apply standardize_rectangular.
  assert (length sd = length g) as Hlen by apply standardize_length.
  set (b := Z.to_nat batch_size).
  assert (batch_size = Z.of_nat b) as Hbb by (unfold b; lia).
  assert (0 < b)%nat as Hb by (unfold b; lia).
  rewrite Hbb. rewrite <- Hlen.
  set (count := Z.to_nat (ceil_div (Z.of_nat (length sd)) (Z.of_nat b))).
  exists (nth_chunk L end_letter n sd b <$> seq 0 count), end_letter.
  split; [by apply (write_plan_ok L end_letter o n c)|].
  split; [exact Hback|].
  split; [by apply plan_count|].
  split; [rewrite plan_count by done; apply batch_num_ceil; lia|].
  split; [by apply plan_concat|].
  split; [intros Hclean; rewrite plan_concat by done; by apply standardize_id|].
  split; [|split].
  - intros i ch Hi before.
    apply plan_lookup in Hi as [Hi ->].
    pose proof (plan_start_lt sd b Hb i Hi) as Hstart.
    assert (before = Z.of_nat (i * b)) as Hbefore.
    { unfold before, count. by rewrite (plan_before L end_letter n sd b Hb i Hi). }
    rewrite (plan_chunk_length L end_letter n sd b i Hi).
    rewrite Hbefore, !Nat2Z.id.
    split; [lia|]. split; [lia|]. split; [lia|]. split; [done|].
    split; [done|]. cbn [nth_chunk chunk_range chunk_data].
    by rewrite length_take, length_drop.
  - intros Hrun.
    apply (batch_write_issue_order spreadsheet_token sheet_name (InList g) L end_letter o n c
             sd b w w' t); try assumption.
    by apply (normalize_list_ok c).
  - intros Hg Hb100 HL Hn10.
    assert (b = 100%nat) as Hb' by lia.
    assert (count = 3%nat) as Hcount.
    { unfold count. rewrite Hg, Hb'. reflexivity. }
    rewrite Hcount, Hb', HL, Hn10.
    split; [reflexivity|].
    cbn [seq fmap list_fmap]. rewrite !plan_chunk_length_eq, Hg. reflexivity.
Qed.

Lemma write_batch_planning_witness :
  ∃ chunks : list chunk,
    write_plan "C" 10 (standardize rows_250) 100 = Ok chunks ∧
    concat (chunk_data <$> chunks) = standardize rows_250 ∧
    chunk_origin <$> chunks = ["C10"; "C110"; "C210"] ∧
    (λ ch, length (chunk_data ch)) <$> chunks = [100; 100; 50]%nat.
Proof.
  destruct (write_batch_planning (R := scripted "t" [("Sheet1", "sid")]) "tok" "Sheet1"
              "C" 2 10 3 rows_250 100 {| gets := []; puts := [] |} {| gets := []; puts := [] |} [])
    as (chunks & end_letter & Hplan & _ & _ & _ & Hconcat & _ & _ & _ & Hscenario).
  - apply col_to_order_spec. split; [lia|reflexivity].
  - lia.
  - split; [done|]. split; [lia|]. by apply Forall_replicate.
  - lia.
  - lia.
  - exists chunks. split; [exact Hplan|]. split; [exact Hconcat|].
    apply Hscenario; reflexivity.
Defined.

(** ** Labelled inputs *)

Lemma mapM_result_length {A B} (f : A → result B) (l : list A) (k : list B) :
  mapM f l = Ok k → length k = length l.
Proof.
  revert k. induction l as [|x l IH]; intros k; cbn [mapM].
  - by intros [= <-].
  - intros (y & _ & (k' & Hk' & [= <-])%result_bind_ok_inv)%result_bind_ok_inv.
    simpl. by rewrite (IH k').
Qed.

Lemma format_input_labelled (input_data : input) (labels : list cell) (formatted : grid) :
  labels_of input_data = Some labels →
  format_input input_data = Ok formatted →
  ∃ rows, formatted = labels :: rows.
Proof.
  destruct input_data as [g|df|d]; [done| |]; intros [= <-]; unfold format_input, to_2d_list.
  - intros [= <-]. eauto.
  - case_decide as Hsz; [done|]. intros Hto%wrap_ok_inv.
    apply result_bind_ok_inv in Hto as (sample_num & _ & Hto).
    apply result_bind_ok_inv in Hto as (rows & _ & [= <-]). eauto.
Qed.

Lemma C9_counterexample :
  ¬ header_not_sliced (InDict [(CStr "a", [CInt 1])]) "A" 1 1.
Proof.
  intros (sd & chunks & Hn & Hp & Hc).
  vm_compute in Hn. injection Hn as <-.
  vm_compute in Hp. injection Hp as <-.
  vm_compute in Hc. discriminate Hc.
Qed.

(** The same input on a remote that accepts every request: the first PUT
    carries the row of labels alone, at the start cell. *)
Lemma header_sent_as_batch :
  batch_write_multi_data (R := scripted "t" [("Sheet1", "sid")]) "tok" "Sheet1" "A1"
    (InDict [(CStr "a", [CInt 1])]) 1
    {| gets := [];
       puts := [Ok {| code := 0; msg := "success" |}; Ok {| code := 0; msg := "success" |}] |}
  = (Ok (), {| gets := []; puts := [] |},
     [EvAuth; EvQuerySheets "tok";
      EvPut (values_url "tok") "t" "sid!A1:A1" [[CStr "a"]];
      EvPut (values_url "tok") "t" "sid!A2:A2" [[CInt 1]]]).
Proof. vm_compute. reflexivity. Qed.

(** C9, amended.  For a labelled input (DataFrame or dict), row 0 of the
    normalised grid is the row of labels and [batch_write_multi_data] slices
    it like any other row: the whole grid, labels included, is partitioned
    into [ceil((1 + dataRows) / batch_size)] chunks of at most [batch_size]
    rows; the labels are the first row of the first chunk, whose origin is
    the start cell, and a call that returns normally has sent that chunk
    first. *)
Theorem labelled_header_is_sliced {R : Remote} (spreadsheet_token sheet_name : string)
    (input_data : input) (labels : list cell) (L : string) (o n : Z) (sd : grid)
    (batch_size : Z) (w w' : world R) (t : list event) :
  labels_of input_data = Some labels →
  normalize input_data = Ok sd →
  col_to_order col_order_info !! L = Some o →
  0 ≤ n →
  o + Z.of_nat (length labels) - 1 ≤ 701 →
  1 ≤ batch_size →
  ∃ (rows : grid) (first : chunk) (rest : list chunk),
    sd = (sanitize <$> labels) :: rows ∧
    write_plan L n sd batch_size = Ok (first :: rest) ∧
    concat (chunk_data <$> first :: rest) = (sanitize <$> labels) :: rows ∧
    Z.of_nat (length (first :: rest)) = ceil_div (1 + Z.of_nat (length rows)) batch_size ∧
    chunk_origin first = L +:+ py_str n ∧
    chunk_data first = (sanitize <$> labels) :: take (Z.to_nat batch_size - 1) rows ∧
    (batch_write_multi_data spreadsheet_token sheet_name (L +:+ py_str n) input_data
                            batch_size w = (Ok (), w', t) →
       ∃ (bearer sheet_id : string) (k : nat) (later : list (string * string * string * grid)),
         (1 ≤ k)%nat ∧
         puts_of t = replicate k (values_url spreadsheet_token, bearer,
                                  sheet_id +:+ "!" +:+ chunk_range first, chunk_data first)
                     ++ later).
Proof.
  intros Hlabels Hnorm Hcol Hn He Hbs.
  pose proof (col_to_order_valid L o Hcol) as [Ho _].
  destruct (normalize_ok_inv _ _ Hnorm) as (formatted & c & Hfmt & Hrect & Hsd).
  destruct (format_input_labelled _ _ _ Hlabels Hfmt) as [rows0 ->].
  apply standardize_rectangular in Hrect. rewrite <- Hsd in Hrect.
  assert (sd = (sanitize <$> labels) :: standardize rows0) as Hshape by by rewrite Hsd.
  assert (c = length labels) as ->.
  { destruct Hrect as (_ & _ & Hall). rewrite Hshape in Hall.
    apply Forall_cons in Hall as [Hhead _]. by rewrite length_fmap in Hhead. }
  assert (0 < length labels)%nat as Hc by apply Hrect.
  destruct (order_to_col_total (o + Z.of_nat (length labels) - 1))
    as (end_letter & Hend & _); [lia|].
  set (b := Z.to_nat batch_size).
  assert (batch_size = Z.of_nat b) as Hbb by (unfold b; lia).
  assert (0 < b)%nat as Hb by (unfold b; lia).
  pose proof (write_plan_ok L end_letter o n _ sd b Hcol Hend Hn Hrect Hb) as Hplan.
  pose proof (plan_count L end_letter n sd b Hb) as Hcount.
  pose proof (plan_concat L end_letter n sd b Hb) as Hconcat.
  assert (length sd = S (length rows0)) as Hlen.
  { rewrite Hshape. simpl. by rewrite standardize_length. }
  destruct (Z.to_nat (ceil_div (Z.of_nat (length sd)) (Z.of_nat b))) as [|k] eqn:Hk.
  { pose proof (plan_covers sd b Hb) as Hcov. rewrite Hk in Hcov. lia. }
  cbn [seq fmap list_fmap] in Hplan, Hcount, Hconcat.
  exists (standardize rows0), (nth_chunk L end_letter n sd b 0),
         (nth_chunk L end_letter n sd b <$> seq 1 k).
  rewrite Hbb.
  split; [exact Hshape|]. split; [exact Hplan|].
  split; [rewrite <- Hshape; exact Hconcat|].
  split.
  { etrans; [exact Hcount|]. rewrite Hlen, standardize_length. f_equal. lia. }
  split.
  { cbn [nth_chunk chunk_origin]. by rewrite Z.add_0_r. }
  split.
  { cbn [nth_chunk chunk_data]. rewrite Hshape. cbn [Nat.mul drop].
    clearbody b. destruct b as [|b']; [lia|]. cbn [take]. f_equal. f_equal. lia. }
  intros Hrun.
  destruct (batch_write_issue_order spreadsheet_token sheet_name input_data L end_letter o n _
              sd b w w' t Hnorm Hcol Hend Hn Hrect Hb Hrun)
    as (bearer & sheet_id & counts & Hlenc & Hall & Hputs).
  rewrite Hk in Hlenc, Hputs. cbn [seq fmap list_fmap length] in Hlenc, Hputs.
  destruct counts as [|k1 counts]; [done|].
  apply Forall_cons in Hall as [Hk1 _].
  exists bearer, sheet_id, k1. eexists. split; [lia|]. exact Hputs.
Qed.

Lemma labelled_header_is_sliced_witness :
  ∃ (first : chunk) (rest : list chunk),
    write_plan "A" 1 [[CStr "a"; CStr ""]; [CInt 1; CInt 2]; [CInt 3; CStr ""]] 2
      = Ok (first :: rest) ∧
    chunk_origin first = "A1" ∧
    chunk_data first = [[CStr "a"; CStr ""]; [CInt 1; CInt 2]].
Proof.
  destruct (labelled_header_is_sliced (R := scripted "t" [("Sheet1", "sid")]) "tok" "Sheet1"
              (InDict [(CStr "a", [CInt 1; CInt 3]); (CNone, [CInt 2; CNaN])])
              [CStr "a"; CNone] "A" 0 1
              [[CStr "a"; CStr ""]; [CInt 1; CInt 2]; [CInt 3; CStr ""]] 2
              {| gets := []; puts := [] |} {| gets := []; puts := [] |} [])
    as (rows & first & rest & Hsd & Hplan & _ & _ & Horigin & Hdata & _).
  - reflexivity.
  - reflexivity.
  - apply col_to_order_spec. split; [lia|reflexivity].
  - lia.
  - simpl. lia.
  - lia.
  - exists first, rest. split; [exact Hplan|]. split; [exact Horigin|].
    injection Hsd as <-. exact Hdata.
Defined.

(** ** What the writers send *)

Lemma py_slice_Forall {A} (P : A → Prop) (l : list A) (a b : Z) :
  Forall P l → Forall P (py_slice l a b).
Proof. intros Hl. unfold py_slice. by apply Forall_take, Forall_drop. Qed.

Lemma plan_chunk_inv (start_letter : string) (start_number : Z) (sd : grid)
    (batch_size idx : Z) (c : chunk) :
  plan_chunk start_letter start_number sd batch_size idx = Ok c →
  chunk_origin c = start_letter +:+ py_str (start_number + idx) ∧
  chunk_data c = py_slice sd idx (Z.min (idx + batch_size) (Z.of_nat (length sd))) ∧
  complete_data_range (chunk_origin c) (chunk_data c) = Ok (chunk_range c).
Proof.
  unfold plan_chunk. intros (data_range & Hcr & [= <-])%result_bind_ok_inv. done.
Qed.

Lemma run_wrapM_inv {R : Remote} {A} (fn : string) (m : M A) (w w' : world R)
    (r : result A) (t : list event) :
  wrapM fn m w = (r, w', t) → ∃ r0, m w = (r0, w', t).
Proof.
  rewrite run_wrapM. destruct (m w) as [[[a|e] w1] t1]; intros [= <- <- <-]; eauto.
Qed.

(** C6. Sanitisation maps each missing value ([None], NaN) to the empty
    string and leaves every other value as it is.  Both writers sanitise the
    checked grid first: everything they do afterwards (the range
    computation and every request) is a function of the sanitised grid
    alone, and a rejected input ends the call before any request.  Hence
    every PUT of [write_multi_data] carries the sanitised grid and the range
    computed from it, and every PUT of [batch_write_multi_data] carries a
    slice of the sanitised grid and the range computed from that slice; no
    value sent is missing. *)
Theorem sanitized_before_sending {R : Remote}
    (spreadsheet_token sheet_name start_loc : string) (batch_size : Z)
    (input_data : input) (w : world R) :
  (∀ item, (pd_isna item = true → sanitize item = CStr "") ∧
           (pd_isna item = false → sanitize item = item)) ∧
  write_multi_data spreadsheet_token sheet_name start_loc input_data w =
    wrapM "write_multi_data"
      (lift (normalize input_data) ≫= send_standard spreadsheet_token sheet_name start_loc) w ∧
  batch_write_multi_data spreadsheet_token sheet_name start_loc input_data batch_size w =
    wrapM "batch_write_multi_data"
      (lift (normalize input_data)
         ≫= send_batches spreadsheet_token sheet_name start_loc batch_size) w ∧
  (∀ sd, normalize input_data = Ok sd →
     ∃ formatted_data,
       format_input input_data = Ok formatted_data ∧
       sd = (λ row : list cell, sanitize <$> row) <$> formatted_data ∧
       Forall (Forall (λ item, pd_isna item = false)) sd) ∧
  (∀ e, normalize input_data = Err e →
     write_multi_data spreadsheet_token sheet_name start_loc input_data w =
       (Err (Failed "write_multi_data" e), w, []) ∧
     batch_write_multi_data spreadsheet_token sheet_name start_loc input_data batch_size w =
       (Err (Failed "batch_write_multi_data" e), w, [])) ∧
  (∀ r w' t url bearer range values,
     write_multi_data spreadsheet_token sheet_name start_loc input_data w = (r, w', t) →
     (url, bearer, range, values) ∈ puts_of t →
     ∃ sd sheet_id data_range,
       normalize input_data = Ok sd ∧ values = sd ∧
       complete_data_range start_loc sd = Ok data_range ∧
       range = sheet_id +:+ "!" +:+ data_range) ∧
  (∀ r w' t url bearer range values,
     batch_write_multi_data spreadsheet_token sheet_name start_loc input_data batch_size w
       = (r, w', t) →
     (url, bearer, range, values) ∈ puts_of t →
     ∃ sd sheet_id origin data_range a b,
       normalize input_data = Ok sd ∧ values = py_slice sd a b ∧
       complete_data_range origin values = Ok data_range ∧
       range = sheet_id +:+ "!" +:+ data_range ∧
       Forall (Forall (λ item, pd_isna item = false)) values).
Proof.
  split; [intros item; split; [apply sanitize_na|apply sanitize_id]|].
  split; [apply write_multi_data_factor|].
  split; [apply batch_write_multi_data_factor|].
  split.
  { intros sd (formatted & c & Hfmt & _ & ->)%normalize_ok_inv.
    exists formatted. split; [done|]. split; [done|]. apply standardize_clean. }
  split.
  { intros e He.
    split; [by apply write_multi_data_rejected|by apply batch_write_multi_data_rejected]. }
  split.
  - intros r w' t url bearer range values Hrun Hin.
    rewrite write_multi_data_factor in Hrun. apply run_wrapM_inv in Hrun as [r0 Hrun].
    destruct (normalize input_data) as [sd|e] eqn:Hnorm.
    2: { rewrite run_lift_err in Hrun. injection Hrun as _ _ <-. by apply elem_of_nil in Hin. }
    rewrite run_lift_ok in Hrun.
    apply send_standard_inv in Hrun as [Hnone|(bearer' & sheet_id & data_range & Hcr & ->)].
    { rewrite Hnone in Hin. by apply elem_of_nil in Hin. }
    apply list_elem_of_singleton in Hin. injection Hin as -> -> -> ->.
    by exists sd, sheet_id, data_range.
  - intros r w' t url bearer range values Hrun Hin.
    rewrite batch_write_multi_data_factor in Hrun. apply run_wrapM_inv in Hrun as [r0 Hrun].
    destruct (normalize input_data) as [sd|e] eqn:Hnorm.
    2: { rewrite run_lift_err in Hrun. injection Hrun as _ _ <-. by apply elem_of_nil in Hin. }
    rewrite run_lift_ok in Hrun.
    apply send_batches_inv in Hrun
      as [(e & _ & Hnone)|(bearer' & sheet_id & letters & digits & n & starts & w2 & t_loop
                           & _ & _ & _ & _ & Hloop & ->)].
    { rewrite Hnone in Hin. by apply elem_of_nil in Hin. }
    apply write_loop_puts in Hloop. rewrite Forall_forall in Hloop.
    destruct (Hloop _ Hin) as (idx & c & _ & Hplan & Hreq).
    injection Hreq as -> -> -> ->.
    apply plan_chunk_inv in Hplan as (_ & Hdata & Hcr).
    exists sd, sheet_id, (chunk_origin c), (chunk_range c).
    eexists _, _. split; [done|]. split; [exact Hdata|]. split; [exact Hcr|].
    split; [done|]. rewrite Hdata. apply py_slice_Forall.
    apply normalize_ok_inv in Hnorm as (formatted & ? & _ & _ & ->). apply standardize_clean.
Qed.

Lemma sanitized_before_sending_witness :
  ∃ sd sheet_id data_range,
    normalize (InList [[CNone; CInt 1]; [CStr "x"; CNaN]]) = Ok sd ∧
    [[CStr ""; CInt 1]; [CStr "x"; CStr ""]] = sd ∧
    complete_data_range "A1" sd = Ok data_range ∧
    "sid!A1:B2" = sheet_id +:+ "!" +:+ data_range.
Proof.
  destruct (sanitized_before_sending (R := scripted "t" [("Sheet1", "sid")]) "tok" "Sheet1"
              "A1" 100 (InList [[CNone; CInt 1]; [CStr "x"; CNaN]])
              {| gets := []; puts := [Ok {| code := 0; msg := "success" |}] |})
    as (_ & _ & _ & _ & _ & Hput & _).
  apply (Hput (Ok ()) {| gets := []; puts := [] |}
               [EvAuth; EvQuerySheets "tok";
                EvPut (values_url "tok") "t" "sid!A1:B2"
                      [[CStr ""; CInt 1]; [CStr "x"; CStr ""]]]
               (values_url "tok") "t").
  - vm_compute. reflexivity.
  - left.
Defined.

(** ** Reading: windows and fetches *)

Lemma gets_of_app (t1 t2 : list event) : gets_of (t1 ++ t2) = gets_of t1 ++ gets_of t2.
Proof. apply omap_app. Qed.

Lemma read_windows_ok (row_id_start row_id_end batch_size : Z) :
  row_id_start ≤ row_id_end → 1 ≤ batch_size →
  read_windows row_id_start row_id_end batch_size =
    Ok ((λ i : nat, (row_id_start + Z.of_nat i * batch_size,
                     Z.min (row_id_start + Z.of_nat i * batch_size + batch_size - 1)
                           row_id_end))
          <$> seq 0 (Z.to_nat (ceil_div (row_id_end - row_id_start + 1) batch_size))).
Proof.
  intros Hle Hbs. unfold read_windows.
  rewrite py_range_ascending by lia. rewrite result_bind_ok.
  replace (row_id_end + 1 - row_id_start) with (row_id_end - row_id_start + 1) by lia.
  by rewrite <- list_fmap_compose.
Qed.

Section ReadLoop.
Context {R : Remote}.
Implicit Types w : world R.

Lemma get_attempts_cons (url bearer : string) (data_all : grid) (attempt : Z)
    (attempts' : list Z) w :
  get_attempts url bearer data_all (attempt :: attempts') w =
  match requests_get R url bearer w with
  | (Ok data_collected, w1) => (Ok (data_all ++ data_collected), w1, [EvGet url bearer])
  | (Err e, w1) =>
      if attempt <? max_retries - 1
      then let '(r, w2, t2) := get_attempts url bearer data_all attempts' w1 in
           (r, w2, EvGet url bearer :: EvSleep (10 * (attempt + 1)) :: t2)
      else (Err e, w1, [EvGet url bearer])
  end.
Proof.
  cbn [get_attempts]. unfold try_except. rewrite run_bind, run_http_get.
  destruct (requests_get R url bearer w) as [[data_collected|e] w1]; cbn [fst snd].
  - done.
  - destruct (attempt <? max_retries - 1); [|done].
    rewrite run_bind. unfold time_sleep, emit.
    by destruct (get_attempts url bearer data_all attempts' w1) as [[r w2] t2].
Qed.

(** One url: what is read is appended to what was there, and the url is
    requested between once and [len(attempts)] times. *)
Lemma get_attempts_ok (url bearer : string) (data_all : grid) (attempts : list Z)
    w (data : grid) w' t :
  get_attempts url bearer data_all attempts w = (Ok data, w', t) →
  ∃ (rows : grid) (k : nat),
    data = data_all ++ rows ∧ (k ≤ length attempts)%nat ∧ gets_of t = replicate k url.
Proof.
  revert w t. induction attempts as [|attempt attempts IH]; intros w t.
  - intros [= <- <- <-]. exists [], 0%nat. by rewrite app_nil_r.
  - rewrite get_attempts_cons.
    destruct (requests_get R url bearer w) as [[data_collected|e] w1].
    { intros [= <- <- <-]. exists data_collected, 1%nat. repeat split; simpl; lia. }
    destruct (attempt <? max_retries - 1); [|done].
    destruct (get_attempts url bearer data_all attempts w1) as [[r2 w2] t2] eqn:Hrec.
    intros [= -> <- <-]. destruct (IH _ _ Hrec) as (rows & k & -> & Hk & Hgets).
    exists rows, (S k). repeat split; [simpl; lia|]. cbn. by rewrite <- Hgets.
Qed.

(** The windows: the rows read are appended, url after url. *)
Lemma get_windows_ok (url_list : list string) (bearer : string) (data_all : grid)
    w (data : grid) w' t :
  get_windows url_list bearer data_all w = (Ok data, w', t) →
  ∃ (batches : list grid) (counts : list nat),
    length batches = length url_list ∧
    data = data_all ++ concat batches ∧
    length counts = length url_list ∧
    Forall (λ k, k ≤ 5)%nat counts ∧
    gets_of t = concat (zip_with replicate counts url_list).
Proof.
  revert w t data_all. induction url_list as [|url url_list IH]; intros w t data_all.
  - intros [= <- <- <-]. exists [], []. by rewrite app_nil_r.
  - cbn [get_windows]. intros Hrun.
    apply run_bind_inv in Hrun as [(e & _ & [=])|(d1 & w1 & t1 & t2 & Hm & Hk & ->)].
    apply get_attempts_ok in Hm as (rows & k & -> & Hk5 & Hgets).
    destruct (IH _ _ _ Hk) as (batches & counts & Hlen & -> & Hlenc & Hall & Hrest).
    exists (rows :: batches), (k :: counts).
    split; [simpl; lia|]. split; [by rewrite <- app_assoc|].
    split; [simpl; lia|]. split; [by constructor|].
    by rewrite gets_of_app, Hgets, Hrest.
Qed.

(** The header row: one request, never retried; its rows open [data_all]. *)
Lemma fetch_all_header (spreadsheet_token sheet_id col_id_start col_id_end bearer : string)
    (row_id_start : Z) (url_list : list string) w :
  1 < row_id_start →
  fetch_all spreadsheet_token sheet_id col_id_start col_id_end bearer row_id_start url_list w =
  match requests_get R (head_section_url spreadsheet_token sheet_id col_id_start col_id_end)
                     bearer w with
  | (Ok head_collected, w1) =>
      let '(r, w2, t2) := get_windows url_list bearer head_collected w1 in
      (r, w2, EvGet (head_section_url spreadsheet_token sheet_id col_id_start col_id_end)
                    bearer :: t2)
  | (Err e, w1) =>
      (Err e, w1, [EvGet (head_section_url spreadsheet_token sheet_id col_id_start col_id_end)
                         bearer])
  end.
Proof.
  intros Hstart. unfold fetch_all.
  destruct (Z.ltb_spec 1 row_id_start); [|lia].
  rewrite !run_bind, run_http_get.
  destruct (requests_get R _ bearer w) as [[head_collected|e] w1]; cbn [fst snd]; [|done].
  unfold mret, M_ret. cbn [app].
  by destruct (get_windows url_list bearer head_collected w1) as [[r w2] t2].
Qed.

Lemma fetch_all_no_header (spreadsheet_token sheet_id col_id_start col_id_end bearer : string)
    (row_id_start : Z) (url_list : list string) w :
  row_id_start ≤ 1 →
  fetch_all spreadsheet_token sheet_id col_id_start col_id_end bearer row_id_start url_list w =
  get_windows url_list bearer [] w.
Proof.
  intros Hstart. unfold fetch_all.
  destruct (Z.ltb_spec 1 row_id_start); [lia|]. apply (run_ret []).
Qed.
End ReadLoop.

(** ** The scripted remote *)

Lemma scripted_token (token : string) (sheets : list (string * string)) (w : script) :
  get_tenant_access_token (R := scripted token sheets) w = (Ok token, w, [EvAuth]).
Proof. reflexivity. Qed.

Lemma scripted_sheet_id (token sheet_name sheet_id spreadsheet_token : string) (w : script) :
  get_sheet_id (R := scripted token [(sheet_name, sheet_id)]) spreadsheet_token sheet_name w
  = (Ok sheet_id, w, [EvQuerySheets spreadsheet_token]).
Proof.
  unfold get_sheet_id, get_name_id_dict, wrapM, try_except, raise, lift, emit, call,
    mbind, M_bind, mret, M_ret.
  cbn [scripted query_sheets foldl fst snd app]. by rewrite lookup_insert_eq.
Qed.

Lemma range1_max_retries : range1 max_retries = [0; 1; 2; 3; 4].
Proof. reflexivity. Qed.

Lemma scripted_get_windows (token : string) (sheets : list (string * string))
    (url_list : list string) (batches : list grid) (data_all : grid) :
  length batches = length url_list →
  get_windows (R := scripted token sheets) url_list token data_all
              {| gets := Ok <$> batches; puts := [] |}
  = (Ok (data_all ++ concat batches), {| gets := []; puts := [] |},
     (λ url, EvGet url token) <$> url_list).
Proof.
  revert batches data_all. induction url_list as [|url url_list IH];
    intros [|rows batches] data_all Hlen; try done.
  - simpl. by rewrite app_nil_r.
  - cbn [get_windows]. rewrite run_bind, range1_max_retries, get_attempts_cons.
    cbn [scripted requests_get gets puts fmap list_fmap].
    rewrite IH by (simpl in Hlen; lia).
    cbn [concat fmap list_fmap app]. by rewrite <- app_assoc.
Qed.

(** Reading rows 5 to 24 in batches of 10, on a remote that answers each
    request at once. *)
Lemma read_scenario (token sheet_name sheet_id spreadsheet_token col_id_start col_id_end : string)
    (h d1 d2 : grid) (target_column_names : list cell) :
  load_sheet_data_to_df (R := scripted token [(sheet_name, sheet_id)])
    spreadsheet_token sheet_name 5 24 col_id_start col_id_end 10 target_column_names
    {| gets := [Ok h; Ok d1; Ok d2]; puts := [] |}
  = (wrap "load_sheet_data_to_df" (assemble (h ++ d1 ++ d2) target_column_names),
     {| gets := []; puts := [] |},
     [EvAuth; EvQuerySheets spreadsheet_token;
      EvGet (head_section_url spreadsheet_token sheet_id col_id_start col_id_end) token;
      EvGet (window_url spreadsheet_token sheet_id col_id_start col_id_end (5, 14)) token;
      EvGet (window_url spreadsheet_token sheet_id col_id_start col_id_end (15, 24)) token]).
Proof.
  unfold load_sheet_data_to_df.
  rewrite run_bind, scripted_token, run_bind, scripted_sheet_id.
  change (read_windows 5 24 10) with (Ok [(5, 14); (15, 24)] : result (list (Z * Z))).
  rewrite run_lift_ok, run_wrapM, run_bind, fetch_all_header by lia.
  cbn [scripted requests_get gets puts].
  rewrite (scripted_get_windows token _ _ [d1; d2]) by done.
  cbn [concat app fmap list_fmap]. rewrite app_nil_r.
  unfold lift. by destruct (assemble (h ++ d1 ++ d2) target_column_names).
Qed.

(** *** The text of the requests *)

(** The request of a window names its rows: the range is the start column
    and first row, a colon, the end column and last row. *)
Lemma window_url_text (spreadsheet_token sheet_id col_id_start col_id_end : string)
    (win : Z * Z) :
  window_url spreadsheet_token sheet_id col_id_start col_id_end win =
    "https://open.feishu.cn/open-apis/sheets/v2/spreadsheets/" +:+ spreadsheet_token
    +:+ "/values/" +:+ sheet_id +:+ "!"
    +:+ col_id_start +:+ py_str win.1 +:+ ":" +:+ col_id_end +:+ py_str win.2
    +:+ "?valueRenderOption=ToString&dateTimeRenderOption=FormattedString".
Proof.
  unfold window_url, read_url, window_range.
  do 3 f_equal. rewrite !append_assoc. reflexivity.
Qed.

(** The header request is the request of the window made of row 1 alone. *)
Lemma head_section_url_row_1 (spreadsheet_token sheet_id col_id_start col_id_end : string) :
  head_section_url spreadsheet_token sheet_id col_id_start col_id_end =
  window_url spreadsheet_token sheet_id col_id_start col_id_end (1, 1).
Proof.
  unfold head_section_url, window_url, window_range, read_url. reflexivity.
Qed.

(** The first row of a window can be read off its request. *)
Lemma window_url_inj_start (spreadsheet_token sheet_id col_id_start col_id_end : string)
    (win win' : Z * Z) :
  0 ≤ win.1 → 0 ≤ win'.1 →
  window_url spreadsheet_token sheet_id col_id_start col_id_end win =
  window_url spreadsheet_token sheet_id col_id_start col_id_end win' →
  win.1 = win'.1.
Proof.
  intros Ha Ha'. rewrite !window_url_text. intros H.
  do 6 apply append_inj_l in H.
  destruct (py_str_nonneg_digits win.1 Ha) as [_ Hdig].
  destruct (py_str_nonneg_digits win'.1 Ha') as [_ Hdig'].
  apply (f_equal (span is_digit)) in H.
  rewrite !span_app in H by done. injection H as Hstr _.
  apply (f_equal py_int) in Hstr. rewrite !py_int_str in Hstr by done.
  by injection Hstr.
Qed.

(** C5. Reading rows [row_id_start .. row_id_end] in batches of
    [batch_size >= 1]: the planner emits [ceil((end - start + 1) / batch_size)]
    windows, the [i]-th from row [start + i * batch_size] to that row plus
    [batch_size - 1], capped at the last row; the first window starts at
    [row_id_start], each next one starts on the row after the previous one
    ends, and the last one ends at [row_id_end].  When the read starts after
    row 1, the header range (row 1 only) is requested first and once: if that
    request fails the read fails without a retry and without a sleep, and
    otherwise its rows open the assembled rows, followed by the rows of the
    windows in plan order.  The request of a window names its rows: its
    range is [<sheet_id>!<col_id_start><first row>:<col_id_end><last row>];
    the header request is the one of the window made of row 1 alone, with
    the range [<sheet_id>!<col_id_start>1:<col_id_end>1]; and two windows of
    a plan are never requested under the same url.  Reading rows 5 to 24 in
    batches of 10 requests the header, rows 5-14 and rows 15-24, and
    assembles 1 + 10 + 10 = 21 rows before the clean-up. *)
Theorem read_batch_planning {R : Remote}
    (spreadsheet_token sheet_id col_id_start col_id_end bearer : string)
    (row_id_start row_id_end batch_size : Z) (w : world R) :
  row_id_start ≤ row_id_end →
  1 ≤ batch_size →
  ∃ windows : list (Z * Z),
    read_windows row_id_start row_id_end batch_size = Ok windows ∧
    Z.of_nat (length windows) = ceil_div (row_id_end - row_id_start + 1) batch_size ∧
    (∀ (i : nat) (win : Z * Z),
       windows !! i = Some win →
       win.1 = row_id_start + Z.of_nat i * batch_size ∧
       win.2 = Z.min (win.1 + batch_size - 1) row_id_end ∧
       win.1 ≤ win.2 ∧
       (S i = length windows → win.2 = row_id_end) ∧
       (∀ win', windows !! S i = Some win' → win'.1 = win.2 + 1)) ∧
    let url_list := window_url spreadsheet_token sheet_id col_id_start col_id_end <$> windows in
    let head_url := head_section_url spreadsheet_token sheet_id col_id_start col_id_end in
    let fetch := fetch_all spreadsheet_token sheet_id col_id_start col_id_end bearer
                           row_id_start url_list w in
    head_url = window_url spreadsheet_token sheet_id col_id_start col_id_end (1, 1) ∧
    head_url =
      "https://open.feishu.cn/open-apis/sheets/v2/spreadsheets/" +:+ spreadsheet_token
      +:+ "/values/" +:+ sheet_id +:+ "!" +:+ col_id_start +:+ "1:" +:+ col_id_end +:+ "1"
      +:+ "?valueRenderOption=ToString&dateTimeRenderOption=FormattedString" ∧
    (∀ (i : nat) (win : Z * Z),
       windows !! i = Some win →
       url_list !! i =
         Some ("https://open.feishu.cn/open-apis/sheets/v2/spreadsheets/" +:+ spreadsheet_token
               +:+ "/values/" +:+ sheet_id +:+ "!"
               +:+ col_id_start +:+ py_str win.1 +:+ ":" +:+ col_id_end +:+ py_str win.2
               +:+ "?valueRenderOption=ToString&dateTimeRenderOption=FormattedString")) ∧
    (0 ≤ row_id_start → NoDup url_list) ∧
    (1 < row_id_start →
       ∀ e w1, requests_get R head_url bearer w = (Err e, w1) →
               fetch = (Err e, w1, [EvGet head_url bearer])) ∧
    (1 < row_id_start →
       ∀ head_collected w1 data_all w' t,
         requests_get R head_url bearer w = (Ok head_collected, w1) →
         fetch = (Ok data_all, w', t) →
         ∃ (batches : list grid) (counts : list nat),
           length batches = length windows ∧
           data_all = head_collected ++ concat batches ∧
           length counts = length windows ∧
           gets_of t = head_url :: concat (zip_with replicate counts url_list)) ∧
    (row_id_start ≤ 1 →
       ∀ data_all w' t,
         fetch = (Ok data_all, w', t) →
         ∃ (batches : list grid) (counts : list nat),
           length batches = length windows ∧
           data_all = concat batches ∧
           length counts = length windows ∧
           gets_of t = concat (zip_with replicate counts url_list)) ∧
    (row_id_start = 5 → row_id_end = 24 → batch_size = 10 →
       windows = [(5, 14); (15, 24)] ∧
       window_range col_id_start col_id_end <$> windows =
         [col_id_start +:+ "5:" +:+ col_id_end +:+ "14";
          col_id_start +:+ "15:" +:+ col_id_end +:+ "24"] ∧
       ∀ (sheet_name : string) (h d1 d2 : grid) (target_column_names : list cell),
         length h = 1%nat → length d1 = 10%nat → length d2 = 10%nat →
         length (h ++ d1 ++ d2) = 21%nat ∧
         load_sheet_data_to_df (R := scripted bearer [(sheet_name, sheet_id)])
           spreadsheet_token sheet_name 5 24 col_id_start col_id_end 10 target_column_names
           {| gets := [Ok h; Ok d1; Ok d2]; puts := [] |}
         = (wrap "load_sheet_data_to_df" (assemble (h ++ d1 ++ d2) target_column_names),
            {| gets := []; puts := [] |},
            [EvAuth; EvQuerySheets spreadsheet_token;
             EvGet head_url bearer;
             EvGet (window_url spreadsheet_token sheet_id col_id_start col_id_end (5, 14)) bearer;
             EvGet (window_url spreadsheet_token sheet_id col_id_start col_id_end (15, 24))
                   bearer])).
Proof.
  intros Hle Hbs.
  set (total := row_id_end - row_id_start + 1).
  set (count := Z.to_nat (ceil_div total batch_size)).
  set (f := λ i : nat, (row_id_start + Z.of_nat i * batch_size,
                        Z.min (row_id_start + Z.of_nat i * batch_size + batch_size - 1)
                              row_id_end)).
  assert (0 ≤ ceil_div total batch_size) as Hq by (apply ceil_div_nonneg; unfold total; lia).
  destruct (proj1 (ceil_div_spec total batch_size _ ltac:(lia)) eq_refl) as [Hlo Hhi].
  assert (∀ i win, (f <$> seq 0 count) !! i = Some win → (i < count)%nat ∧ win = f i) as Hlook.
  { intros i win. rewrite list_lookup_fmap.
    destruct (seq 0 count !! i) as [j|] eqn:Hj; [|done].
    apply lookup_seq in Hj as [-> Hi]. by intros [= <-]. }
  exists (f <$> seq 0 count).
  split; [by apply read_windows_ok|].
  split; [rewrite length_fmap, length_seq; unfold count; lia|].
  split.
  { intros i win [Hi ->]%Hlook.
    pose proof (batch_start_lt total batch_size i ltac:(lia) ltac:(unfold total; lia) Hi)
      as Hstart.
    rewrite length_fmap, length_seq. cbn [f fst snd].
    split; [done|]. split; [done|]. split; [unfold total in Hstart; lia|]. split.
    - intros Hlast.
      assert (Z.of_nat (S i) = ceil_div total batch_size) as E by (rewrite Hlast; lia).
      rewrite <- E in Hhi. unfold total in Hhi. lia.
    - intros win' [Hi' ->]%Hlook. cbn [f fst].
      pose proof (batch_start_lt total batch_size (S i) ltac:(lia) ltac:(unfold total; lia) Hi')
        as Hnext.
      unfold total in Hnext. lia. }
  cbn zeta.
  split; [apply head_section_url_row_1|].
  split.
  { rewrite head_section_url_row_1, window_url_text. reflexivity. }
  split.
  { intros i win Hi. rewrite list_lookup_fmap, Hi. cbn [fmap option_fmap option_map].
    f_equal. apply window_url_text. }
  split.
  { intros Hrs. rewrite <- list_fmap_compose.
    apply NoDup_fmap_2_strong; [|apply NoDup_seq].
    intros i j _ _ Heq. unfold compose in Heq.
    apply window_url_inj_start in Heq; unfold f in *; cbn [fst] in *; nia. }
  split.
  { intros Hstart e w1 Hget. by rewrite fetch_all_header, Hget. }
  split.
  { intros Hstart head_collected w1 data_all w' t Hget. rewrite fetch_all_header, Hget by done.
    destruct (get_windows _ bearer head_collected w1) as [[r w2] t2] eqn:Hwin.
    intros [= -> <- <-].
    apply get_windows_ok in Hwin as (batches & counts & Hlen & -> & Hlenc & _ & Hgets).
    exists batches, counts. rewrite length_fmap in Hlen, Hlenc.
    split; [done|]. split; [done|]. split; [done|].
    change (gets_of (EvGet ?u bearer :: t2)) with (u :: gets_of t2). by rewrite Hgets. }
  split.
  { intros Hstart data_all w' t. rewrite fetch_all_no_header by done.
    intros (batches & counts & Hlen & -> & Hlenc & _ & Hgets)%get_windows_ok.
    exists batches, counts. rewrite length_fmap in Hlen, Hlenc. done. }
  intros Hs He Hb.
  assert (count = 2%nat) as Hcount.
  { unfold count, total. rewrite Hs, He, Hb. reflexivity. }
  assert (f <$> seq 0 count = [(5, 14); (15, 24)]) as ->.
  { rewrite Hcount. unfold f. rewrite Hs, He, Hb. reflexivity. }
  split; [reflexivity|]. split; [reflexivity|].
  intros sheet_name h d1 d2 target_column_names Hh Hd1 Hd2.
  split; [rewrite !length_app; lia|]. apply read_scenario.
Qed.

Lemma read_batch_planning_witness :
  ∃ windows : list (Z * Z),
    read_windows 5 24 10 = Ok windows ∧
    Z.of_nat (length windows) = ceil_div (24 - 5 + 1) 10 ∧
    windows = [(5, 14); (15, 24)] ∧
    window_range "A" "C" <$> windows = ["A5:C14"; "A15:C24"] ∧
    head_section_url "tok" "sid" "A" "C" =
      "https://open.feishu.cn/open-apis/sheets/v2/spreadsheets/tok/values/sid!A1:C1?valueRenderOption=ToString&dateTimeRenderOption=FormattedString" ∧
    (window_url "tok" "sid" "A" "C" <$> windows) !! 0%nat =
      Some "https://open.feishu.cn/open-apis/sheets/v2/spreadsheets/tok/values/sid!A5:C14?valueRenderOption=ToString&dateTimeRenderOption=FormattedString" ∧
    NoDup (window_url "tok" "sid" "A" "C" <$> windows).
Proof.
  destruct (read_batch_planning (R := scripted "t" [("Sheet1", "sid")])
              "tok" "sid" "A" "C" "t" 5 24 10 {| gets := []; puts := [] |})
    as (windows & Hplan & Hcount & _ & _ & Hhead & Hurl & Hnodup & _ & _ & _ & Hscenario);
    [lia|lia|].
  destruct Hscenario as (Hwindows & Hranges & _); [reflexivity..|].
  exists windows. split; [exact Hplan|]. split; [exact Hcount|].
  split; [exact Hwindows|]. split; [exact Hranges|]. split; [exact Hhead|].
  split; [|apply Hnodup; lia].
  rewrite (Hurl 0%nat (5, 14)); [reflexivity|]. by rewrite Hwindows.
Defined.

(** ** Read assembly *)

Lemma filter_ext_elem {A} (P Q : A → Prop) `{∀ x, Decision (P x)} `{∀ x, Decision (Q x)}
    (l : list A) :
  (∀ x, x ∈ l → P x ↔ Q x) → filter P l = filter Q l.
Proof.
  induction l as [|x l IH]; intros Hext; [done|].
  rewrite !filter_cons.
  assert (filter P l = filter Q l) as -> by (apply IH; intros y Hy; apply Hext; by right).
  pose proof (Hext x ltac:(left)) as Hx.
  destruct (decide (P x)), (decide (Q x)); tauto || done.
Qed.

Lemma invalid_label_false (col : cell) : invalid_label col = false ↔ valid_label col.
Proof.
  unfold invalid_label, valid_label.
  rewrite !orb_false_iff, !bool_decide_eq_false. tauto.
Qed.

Lemma invalid_label_true (col : cell) : invalid_label col = true ↔ ¬ valid_label col.
Proof.
  rewrite <- invalid_label_false. destruct (invalid_label col); split; congruence.
Qed.

Lemma forallb_isna_false (row : list cell) :
  forallb pd_isna row = false ↔ ¬ all_missing row.
Proof.
  unfold all_missing. rewrite <- not_true_iff_false, forallb_forall, Forall_forall.
  split; intros Hn Hall; apply Hn; intros x Hx; apply Hall; by apply list_elem_of_In.
Qed.

Lemma max_list_const (n : nat) (l : list nat) :
  l ≠ [] → Forall (λ x, x = n) l → max_list l = n.
Proof.
  intros Hne Hall. induction Hall as [|x l -> Hall IH]; [done|].
  destruct l as [|y l]; simpl in *; [lia|]. rewrite IH by done. lia.
Qed.

(** Rows that already have one cell per label make the frame as they are. *)
Lemma pd_DataFrame_rectangular (rows : grid) (header : list cell) :
  Forall (λ row, length row = length header) rows →
  pd_DataFrame rows header = Ok {| df_columns := header; df_values := rows |}.
Proof.
  intros Hall. unfold pd_DataFrame. case_decide as Hbad.
  - destruct Hbad as [Hne Hmax]. exfalso. apply Hmax.
    apply max_list_const; [by destruct rows|]. by apply Forall_fmap.
  - f_equal. f_equal. rewrite <- (list_fmap_id rows) at 2.
    apply Forall_fmap_ext_1. eapply Forall_impl; [done|].
    intros row Hrow. simpl. rewrite Hrow, Nat.sub_diag. apply app_nil_r.
Qed.

Lemma to_drop_spec (header : list cell) (col : cell) :
  col ∈ header →
  bool_decide (col ∉ filter (λ c, invalid_label c = true) header) = true ↔ valid_label col.
Proof.
  intros Hin. rewrite bool_decide_eq_true, list_elem_of_filter, <- invalid_label_false.
  destruct (invalid_label col); split; try done.
  - intros Hn. exfalso. by apply Hn.
  - intros _ [? _]. done.
Qed.

(** Dropping the rows that are entirely missing, then the columns whose
    label is invalid. *)
Lemma clean_up_eq (header : list cell) (rows : grid) :
  df_drop_columns (dropna_all {| df_columns := header; df_values := rows |})
                  (filter (λ col, invalid_label col = true) header)
  = cleaned_frame header rows.
Proof.
  unfold df_drop_columns, dropna_all, cleaned_frame, cells_where. cbn [df_columns df_values].
  f_equal.
  - apply filter_ext_elem. intros col Hcol. by apply to_drop_spec.
  - rewrite (filter_ext_elem (λ row, forallb pd_isna row = false) (λ row, ¬ all_missing row))
      by (intros row _; apply forallb_isna_false).
    apply list_fmap_ext. intros _ row _. f_equal.
    apply filter_ext_elem. intros [col v] Hin. apply to_drop_spec.
    by apply elem_of_zip_l in Hin.
Qed.

Lemma assemble_unfold (header : list cell) (rows : grid) (target_column_names : list cell) :
  Forall (λ row, length row = length header) rows →
  assemble (header :: rows) target_column_names =
    match target_column_names with
    | [] => Ok (cleaned_frame header rows)
    | _ => df_getitem (cleaned_frame header rows) target_column_names
    end.
Proof.
  intros Hall. unfold assemble. cbn [lookup list_lookup subscript drop].
  rewrite result_bind_ok, pd_DataFrame_rectangular by done. rewrite result_bind_ok.
  cbn zeta. change (df_columns (dropna_all {| df_columns := header; df_values := rows |}))
    with header.
  by rewrite clean_up_eq.
Qed.

Lemma filter_none {A} (P : A → Prop) `{∀ x, Decision (P x)} (l : list A) :
  Forall (λ x, ¬ P x) l → filter P l = [].
Proof.
  induction 1 as [|x l Hx _ IH]; [done|]. by rewrite filter_cons_False.
Qed.

Lemma filter_fst {A B} (P : A → Prop) `{∀ x, Decision (P x)} (l : list (A * B)) :
  (filter (λ ab : A * B, P ab.1) l).*1 = filter P l.*1.
Proof.
  induction l as [|[a b] l IH]; [done|].
  rewrite fmap_cons, !filter_cons. cbn [fst]. destruct (decide (P a)); [|done].
  by rewrite fmap_cons, IH.
Qed.

Lemma filter_label_singleton (l : list (cell * cell)) (t v : cell) :
  NoDup l.*1 → (t, v) ∈ l →
  filter (λ cv : cell * cell, bool_decide (cv.1 = t) = true) l = [(t, v)].
Proof.
  induction l as [|[c x] l IH]; intros Hnd Hin; [by apply elem_of_nil in Hin|].
  rewrite fmap_cons in Hnd. apply NoDup_cons in Hnd as [Hc Hnd].
  rewrite filter_cons. cbn [fst]. apply elem_of_cons in Hin as [[= <- <-]|Hin].
  - rewrite bool_decide_eq_true_2 by done. rewrite decide_True by done. f_equal.
    apply filter_none, Forall_forall. intros [c' x'] Hin' Heq. cbn [fst] in Heq.
    apply bool_decide_eq_true in Heq as ->. apply Hc. apply list_elem_of_fmap.
    by exists (t, x').
  - assert (c ≠ t) as Hne.
    { intros ->. apply Hc. apply list_elem_of_fmap. by exists (t, v). }
    rewrite decide_False; [by apply IH|].
    rewrite bool_decide_eq_true. done.
Qed.

Lemma flat_map_singletons {A B} (P : A → B → Prop) (g : A → list B) (l : list A) :
  Forall (λ x, ∃ y, g x = [y] ∧ P x y) l → Forall2 P l (flat_map g l).
Proof.
  induction 1 as [|x l (y & Hg & Hy) _ IH]; [constructor|].
  cbn [flat_map]. rewrite Hg. by constructor.
Qed.

Lemma filter_eq_singleton (l : list cell) (t : cell) :
  NoDup l → t ∈ l → filter (λ col, col = t) l = [t].
Proof.
  induction l as [|c l IH]; intros Hnd Hin; [by apply elem_of_nil in Hin|].
  apply NoDup_cons in Hnd as [Hc Hnd]. rewrite filter_cons.
  apply elem_of_cons in Hin as [<-|Hin].
  - rewrite decide_True by done. f_equal.
    apply filter_none, Forall_forall. by intros c' Hin' ->.
  - rewrite decide_False by (by intros ->). by apply IH.
Qed.

Lemma flat_map_identity (g : cell → list cell) (l : list cell) :
  Forall (λ x, g x = [x]) l → flat_map g l = l.
Proof.
  induction 1 as [|x l Hg _ IH]; [done|]. cbn [flat_map]. by rewrite Hg, IH.
Qed.

(** The cell of a cleaned row under a valid, unique label is the cell of the
    original row under that label. *)
Lemma cleaned_cell (header row : list cell) (t : cell) :
  length row = length header →
  NoDup (filter valid_label header) →
  t ∈ filter valid_label header →
  ∃ v,
    cells_where (λ col, bool_decide (col = t)) (filter valid_label header)
      (filter (λ cv : cell * cell, valid_label cv.1) (zip header row)).*2 = [v] ∧
    ∃ p, header !! p = Some t ∧ row !! p = Some v.
Proof.
  intros Hlen Hnd Hin.
  set (pairs := filter (λ cv : cell * cell, valid_label cv.1) (zip header row)).
  assert (pairs.*1 = filter valid_label header) as Hfst.
  { unfold pairs. rewrite filter_fst. by rewrite fst_zip by lia. }
  rewrite <- Hfst in Hnd, Hin |- *.
  apply list_elem_of_fmap in Hin as ([t' v] & -> & Hpair). cbn [fst].
  exists v. split.
  - unfold cells_where. rewrite zip_fst_snd.
    by rewrite (filter_label_singleton pairs t' v Hnd Hpair).
  - apply list_elem_of_filter in Hpair as [_ Hzip].
    apply list_elem_of_lookup in Hzip as [p Hp]. exists p.
    apply lookup_zip_with_Some in Hp as (x & y & [= <- <-] & Hx & Hy). done.
Qed.




(** A row of blank strings is not a row of empty-markers: it is kept. *)
Lemma blank_row_kept :
  assemble [[CStr "a"; CStr "b"]; [CStr ""; CStr ""]; [CNone; CNaN]] []
  = Ok {| df_columns := [CStr "a"; CStr "b"]; df_values := [[CStr ""; CStr ""]] |}.
Proof. reflexivity. Qed.


(* ===================================================================== *)
(** * Part III. Further properties of the code                           *)
(* ===================================================================== *)

(** ** The column table in closed form *)

Lemma A_ZZ_list_ordinals :
  Forall (λ iL : Z * string, column_ordinal iL.2 = Some iL.1) (enumerate A_ZZ_list).
Proof. apply (bool_decide_unpack _). by vm_compute. Qed.

Lemma A_ZZ_list_single :
  Forall (λ i : nat, A_ZZ_list !! i = Some (String (chr_A i) EmptyString)) (seq 0 26).
Proof. apply (bool_decide_unpack _). by vm_compute. Qed.

Lemma A_ZZ_list_double :
  Forall (λ i : nat,
            Forall (λ j : nat, A_ZZ_list !! (26 + 26 * i + j)%nat
                               = Some (String (chr_A i) (String (chr_A j) EmptyString)))
                   (seq 0 26))
         (seq 0 26).
Proof. apply (bool_decide_unpack _). by vm_compute. Qed.

Lemma is_upper_chr_A (c : ascii) :
  is_upper c = true →
  ∃ i : nat, (i < 26)%nat ∧ c = chr_A i ∧ Z.of_N (N_of_ascii c) - 65 = Z.of_nat i.
Proof.
  unfold is_upper. intros [H1 H2]%andb_true_iff. apply N.leb_le in H1, H2.
  exists (N.to_nat (N_of_ascii c) - 65)%nat. split; [lia|]. split; [|lia].
  unfold chr_A. replace (65 + (N.to_nat (N_of_ascii c) - 65))%nat
    with (N.to_nat (N_of_ascii c)) by lia.
  unfold ascii_of_nat. rewrite N2Nat.id. by rewrite ascii_N_embedding.
Qed.

Lemma col_to_order_ordinal (letters : string) :
  col_to_order col_order_info !! letters = column_ordinal letters.
Proof.
  destruct (col_to_order col_order_info !! letters) as [o|] eqn:Hl.
  - apply col_to_order_spec in Hl as [Ho Hl].
    pose proof A_ZZ_list_ordinals as Hall. rewrite Forall_forall in Hall.
    symmetry. apply (Hall (o, letters)). by apply enumerate_elem.
  - destruct (column_ordinal letters) as [o|] eqn:Hc; [|done].
    exfalso. assert (col_to_order col_order_info !! letters = Some o) as E; [|congruence].
    apply col_to_order_spec. unfold column_ordinal in Hc.
    destruct letters as [|a [|b [|? ?]]]; try discriminate Hc.
    + destruct (is_upper a) eqn:Ha; [|done]. injection Hc as <-.
      destruct (is_upper_chr_A a Ha) as (i & Hi & -> & ->).
      split; [lia|]. rewrite Nat2Z.id.
      pose proof A_ZZ_list_single as Hall. rewrite Forall_forall in Hall.
      apply Hall, elem_of_seq. lia.
    + destruct (is_upper a) eqn:Ha; [|done]. destruct (is_upper b) eqn:Hb; [|done].
      injection Hc as <-.
      destruct (is_upper_chr_A a Ha) as (i & Hi & -> & ->).
      destruct (is_upper_chr_A b Hb) as (j & Hj & -> & ->).
      split; [lia|].
      replace (Z.to_nat (26 + 26 * Z.of_nat i + Z.of_nat j)) with (26 + 26 * i + j)%nat by lia.
      pose proof A_ZZ_list_double as Hall. rewrite Forall_forall in Hall.
      specialize (Hall i ltac:(apply elem_of_seq; lia)). rewrite Forall_forall in Hall.
      apply Hall, elem_of_seq. lia.
Qed.

(** X1. [col_to_order] is the position in spreadsheet order: a key is one or
    two capital letters, A..Z map to 0..25 and the two-letter names to
    [26 + 26 * first + second]; any other text (lower case, three letters,
    the empty string) has no entry.  [order_to_col] is its inverse. *)
Theorem col_to_order_closed_form (letters : string) (o : Z) :
  col_to_order col_order_info !! letters = column_ordinal letters ∧
  (order_to_col col_order_info !! o = Some letters ↔ column_ordinal letters = Some o).
Proof.
  split; [apply col_to_order_ordinal|].
  rewrite <- col_to_order_ordinal. split.
  - intros H%order_to_col_spec. by apply col_to_order_spec.
  - intros H%col_to_order_spec. by apply order_to_col_spec.
Qed.

(** ** The shape check, exactly *)

(** X2. The shape check that opens [complete_data_range], [write_multi_data]
    and [batch_write_multi_data] has three outcomes: it passes exactly on the
    rectangular non-empty grids; it raises the "empty row" error exactly when
    some row is empty, whatever the other rows are; and it raises the
    "equal length" error exactly when no row is empty and the grid is empty
    or has rows of different lengths. *)
Theorem check_2d_list_classification (data : grid) :
  (check_2d_list data = Ok () ↔ ∃ c, rectangular c data) ∧
  (check_2d_list data = Err (ValueError EmptyRow) ↔ [] ∈ data) ∧
  (check_2d_list data = Err (ValueError UnequalLengths) ↔
     ([] ∉ data) ∧
     (data = [] ∨ ∃ row1 row2, row1 ∈ data ∧ row2 ∈ data ∧ length row1 ≠ length row2)).
Proof.
  split; [apply check_2d_list_ok|].
  assert ([] ∈ data → ¬ ∃ c, rectangular c data) as Hexcl.
  { intros Hin (c & _ & Hc & Hall). rewrite Forall_forall in Hall.
    specialize (Hall _ Hin). simpl in Hall. lia. }
  assert (([] ∉ data) →
          (data = [] ∨ ∃ row1 row2, row1 ∈ data ∧ row2 ∈ data ∧ length row1 ≠ length row2) ↔
          ¬ ∃ c, rectangular c data) as Hneq.
  { intros Hne. split.
    - intros [->|(row1 & row2 & H1 & H2 & Hlen)] (c & Hnil & _ & Hall); [done|].
      rewrite Forall_forall in Hall. rewrite (Hall _ H1), (Hall _ H2) in Hlen. done.
    - intros Hnot. destruct data as [|row data]; [by left|]. right.
      destruct (decide (Forall (λ r, length r = length row) (row :: data))) as [Hall|Hnall].
      + exfalso. apply Hnot. exists (length row). split; [done|]. split; [|done].
        destruct row; [exfalso; apply Hne; left|simpl; lia].
      + apply not_Forall_Exists in Hnall; [|apply _].
        apply Exists_exists in Hnall as (r & Hr & Hlen).
        exists r, row. split; [done|]. split; [left|done]. }
  split.
  - split; [|apply check_2d_list_empty_row].
    intros Hchk. destruct (decide ([] ∈ data)) as [|Hne]; [done|]. exfalso.
    unfold check_2d_list in Hchk. rewrite collect_elem_len_ok in Hchk.
    2: { apply Forall_forall. intros row Hrow ->. done. }
    rewrite result_bind_ok in Hchk. by case_decide.
  - split.
    + intros Hchk. assert ([] ∉ data) as Hne.
      { intros Hin. by rewrite check_2d_list_empty_row in Hchk. }
      split; [done|]. apply Hneq; [done|]. intros Hrect%check_2d_list_ok. congruence.
    + intros [Hne Hbad]. apply Hneq in Hbad; [|done].
      destruct (check_2d_list_cases data) as [Hok|[Hempty|Hun]]; [| |done].
      * exfalso. apply Hbad. by apply check_2d_list_ok.
      * exfalso. apply Hne.
        unfold check_2d_list in Hempty. rewrite collect_elem_len_ok in Hempty.
        2: { apply Forall_forall. intros row Hrow ->. done. }
        rewrite result_bind_ok in Hempty. by case_decide.
Qed.

(** ** Sanitisation and the shape check *)

Lemma collect_elem_len_standardize (data : grid) (elem_len : list nat) :
  collect_elem_len (standardize data) elem_len = collect_elem_len data elem_len.
Proof.
  revert elem_len. induction data as [|row data IH]; intros elem_len; [done|].
  unfold standardize in *. rewrite fmap_cons. cbn [collect_elem_len].
  destruct row as [|x row]; [done|]. rewrite fmap_cons. cbn [length].
  rewrite length_fmap. apply IH.
Qed.

(** X3. Sanitising a grid changes neither its shape nor the verdict of the
    shape check, and sanitising twice is sanitising once: the grid handed to
    [complete_data_range] by the writers passes there the check it passed
    before. *)
Theorem standardize_stable (data : grid) :
  check_2d_list (standardize data) = check_2d_list data ∧
  standardize (standardize data) = standardize data ∧
  length (standardize data) = length data ∧
  length <$> standardize data = length <$> data.
Proof.
  split; [|split; [|split]].
  - unfold check_2d_list. by rewrite collect_elem_len_standardize.
  - apply standardize_id, standardize_clean.
  - apply standardize_length.
  - unfold standardize. rewrite <- list_fmap_compose. apply list_fmap_ext.
    intros _ row _. simpl. apply length_fmap.
Qed.

(** ** Labelled columns become rows *)

Lemma dict_rows_ok (value_list : list (list cell)) (n i : nat) :
  Forall (λ val, length val = n) value_list → (i < n)%nat →
  mapM (λ val : list cell, subscript (val !! i) IndexError) value_list =
    Ok ((λ val, default CNone (val !! i)) <$> value_list).
Proof.
  intros Hall Hi. apply mapM_result_ok. eapply Forall_impl; [exact Hall|].
  intros val Hlen. simpl in *.
  destruct (lookup_lt_is_Some_2 val i) as [x ->]; [lia|done].
Qed.

(** X4. [to_2d_list] on a dict with at least one key whose value sequences
    all have [n] items transposes it: the result is the list of keys
    followed by [n] rows, and cell [j] of row [i] is item [i] of the [j]-th
    value sequence.  That grid always passes the shape check of the writers.
    A dict without keys, or with two value sequences of different lengths,
    is refused with the "dict values" error. *)
Theorem to_2d_list_dict_transpose (d : list (cell * list cell)) :
  (∀ n, d ≠ [] → Forall (λ kv, length kv.2 = n) d →
     ∃ rows, to_2d_list (InDict d) = Ok (d.*1 :: rows) ∧
             length rows = n ∧
             (∀ i j, rows !! i ≫= (.!! j) = d.*2 !! j ≫= (.!! i)) ∧
             normalize (InDict d) = Ok (standardize (d.*1 :: rows))) ∧
  (d = [] ∨ (∃ kv1 kv2, kv1 ∈ d ∧ kv2 ∈ d ∧ length kv1.2 ≠ length kv2.2) →
     to_2d_list (InDict d) = Err (Failed "to_2d_list" (ValueError DictValueLengths))).
Proof.
  split.
  - intros n Hne Hall.
    assert (Forall (λ val, length val = n) d.*2) as Hall2 by by apply Forall_fmap.
    set (rows := (λ i : nat, (λ val : list cell, default CNone (val !! i)) <$> d.*2) <$> seq 0 n).
    assert (to_2d_list (InDict d) = Ok (d.*1 :: rows)) as Hto.
    { unfold to_2d_list. case_decide as Hsz.
      { exfalso. apply Hsz, size_list_to_set_1. exists n. split.
        - destruct d; [done|]. done.
        - by apply Forall_fmap, Forall_fmap. }
      destruct d as [|[k v] d]; [done|]. apply Forall_cons in Hall as [Hv Hall].
      simpl in Hv. cbn [fmap list_fmap length lookup list_lookup snd].
      rewrite Hv. cbn [subscript]. rewrite result_bind_ok.
      rewrite (mapM_result_ok _ (λ i : nat, (λ val : list cell, default CNone (val !! i))
                                             <$> (v :: d.*2))).
      - by rewrite result_bind_ok.
      - apply Forall_forall. intros i [_ Hi]%elem_of_seq.
        by apply (dict_rows_ok (v :: d.*2) n i). }
    exists rows. split; [done|]. split; [unfold rows; by rewrite length_fmap, length_seq|]. split.
    + intros i j. unfold rows. rewrite list_lookup_fmap.
      destruct (decide (i < n)%nat) as [Hi|Hi].
      * rewrite lookup_seq_lt by done. simpl. rewrite list_lookup_fmap.
        destruct (d.*2 !! j) as [val|] eqn:Hj; [|done]. simpl.
        rewrite Forall_forall in Hall2.
        destruct (lookup_lt_is_Some_2 val i) as [x ->]; [|done].
        rewrite (Hall2 val); [done|]. by eapply list_elem_of_lookup_2.
      * rewrite lookup_seq_ge by lia. simpl.
        destruct (d.*2 !! j) as [val|] eqn:Hj; [|done]. simpl.
        symmetry. apply lookup_ge_None_2. rewrite Forall_forall in Hall2.
        rewrite (Hall2 val); [lia|]. by eapply list_elem_of_lookup_2.
    + unfold normalize, format_input. rewrite Hto, result_bind_ok.
      assert (check_2d_list (d.*1 :: rows) = Ok ()) as ->; [|by rewrite result_bind_ok].
      apply check_2d_list_ok. exists (length d). split; [done|]. split.
      { destruct d; [done|simpl; lia]. }
      apply Forall_cons. split; [by rewrite length_fmap|].
      unfold rows. apply Forall_fmap, Forall_forall. intros i _. simpl.
      by rewrite !length_fmap.
  - intros [->|(kv1 & kv2 & H1 & H2 & Hlen)].
    + unfold to_2d_list. by case_decide.
    + apply (to_2d_list_dict_unequal d kv1.2 kv2.2); [| |done];
        apply list_elem_of_fmap; eauto.
Qed.

Lemma to_2d_list_dict_transpose_witness :
  ∃ rows, to_2d_list (InDict [(CStr "id", [CInt 1; CInt 2]); (CStr "name", [CStr "a"; CNone])])
            = Ok ([CStr "id"; CStr "name"] :: rows) ∧
          length rows = 2%nat ∧
          rows !! 1%nat ≫= (.!! 0%nat) = Some (CInt 2).
Proof.
  destruct (to_2d_list_dict_transpose
              [(CStr "id", [CInt 1; CInt 2]); (CStr "name", [CStr "a"; CNone])]) as [Hok _].
  destruct (Hok 2%nat) as (rows & Hto & Hlen & Hcell & _).
  - done.
  - repeat constructor.
  - exists rows. split; [exact Hto|]. split; [exact Hlen|]. by rewrite Hcell.
Defined.

(** ** What [complete_data_range] reads of the start location *)

Lemma upper_ascii_alpha (c : ascii) : is_alpha c = true → is_alpha (upper_ascii c) = true.
Proof. destruct c as [[] [] [] [] [] [] [] []]; try discriminate; reflexivity. Qed.

Lemma upper_ascii_idem (c : ascii) : upper_ascii (upper_ascii c) = upper_ascii c.
Proof. destruct c as [[] [] [] [] [] [] [] []]; reflexivity. Qed.

Lemma upper_alpha (s : string) :
  string_forall is_alpha s = true → string_forall is_alpha (upper s) = true.
Proof.
  induction s as [|c s IH]; [done|]. simpl.
  intros [Hc Hs]%andb_true_iff. by rewrite upper_ascii_alpha, IH.
Qed.

Lemma upper_idem (s : string) : upper (upper s) = upper s.
Proof. induction s as [|c s IH]; [done|]. simpl. by rewrite upper_ascii_idem, IH. Qed.

Lemma upper_nonempty (s : string) : s ≠ EmptyString → upper s ≠ EmptyString.
Proof. by destruct s. Qed.

Lemma py_int_nonneg (digits : string) (n : Z) : py_int digits = Some n → 0 ≤ n.
Proof.
  unfold py_int. destruct (NilZero.uint_of_string digits) as [u|]; [|done].
  intros [= <-]. unfold Z.of_uint. lia.
Qed.

Lemma match_cell_at_not_alpha (c : ascii) (s : string) :
  is_alpha c = false → match_cell_at (String c s) = None.
Proof.
  intros Hc. unfold match_cell_at. cbn [span]. rewrite Hc.
  by destruct (span is_digit (String c s)) as [digits rest].
Qed.

(** The search skips text without letters, and stops reading at the first
    character that is not a digit. *)
Lemma re_search_cell_embedded (pre letters digits post : string) :
  string_forall (λ c, negb (is_alpha c)) pre = true →
  letters ≠ EmptyString → string_forall is_alpha letters = true →
  digits ≠ EmptyString → string_forall is_digit digits = true →
  stops is_digit post →
  re_search_cell (pre +:+ letters +:+ digits +:+ post) = Some (letters, digits).
Proof.
  intros Hpre Hl Hla Hd Hdd Hpost.
  induction pre as [|c pre IH].
  - rewrite append_nil_l.
    assert (match_cell_at (letters +:+ digits +:+ post) = Some (letters, digits)) as Hm.
    { unfold match_cell_at. rewrite span_app; [|done|].
      - rewrite span_app by done. destruct letters; [done|]. by destruct digits.
      - destruct digits as [|d ds]; [done|]. rewrite append_cons. simpl in *.
        apply andb_true_iff in Hdd as [Hdd _]. by apply digit_not_alpha. }
    by rewrite re_search_cell_unfold, Hm.
  - simpl in Hpre. apply andb_true_iff in Hpre as [Hc Hpre].
    apply negb_true_iff in Hc.
    rewrite append_cons, re_search_cell_unfold, match_cell_at_not_alpha by done.
    by apply IH.
Qed.

(** The result depends on the start location through the upper-cased letters
    and the number of its first cell reference only. *)
Lemma complete_data_range_congr (s1 s2 l1 d1 l2 d2 : string) (g : grid) :
  re_search_cell s1 = Some (l1, d1) → re_search_cell s2 = Some (l2, d2) →
  upper l1 = upper l2 → py_int d1 = py_int d2 →
  complete_data_range s1 g = complete_data_range s2 g.
Proof.
  intros H1 H2 Hup Hint. unfold complete_data_range.
  rewrite H1, H2. result_simpl. rewrite Hup, Hint. reflexivity.
Qed.

(** X5. [complete_data_range] reads the first cell reference of the start
    location and nothing else: text without letters before it, the case of
    its letters, leading zeros of its number and whatever follows the number
    do not change the result, which is the one for the reference in
    canonical text (upper-case letters, then the number). *)
Theorem complete_data_range_first_reference (pre letters digits post : string) (n : Z)
    (g : grid) :
  string_forall (λ c, negb (is_alpha c)) pre = true →
  letters ≠ EmptyString → string_forall is_alpha letters = true →
  digits ≠ EmptyString → string_forall is_digit digits = true →
  stops is_digit post →
  py_int digits = Some n →
  complete_data_range (pre +:+ letters +:+ digits +:+ post) g =
  complete_data_range (upper letters +:+ py_str n) g.
Proof.
  intros Hpre Hl Hla Hd Hdd Hpost Hint.
  pose proof (py_int_nonneg digits n Hint) as Hn.
  destruct (py_str_nonneg_digits n Hn) as [Hsne Hsdig].
  apply (complete_data_range_congr _ _ letters digits (upper letters) (py_str n)).
  - by apply re_search_cell_embedded.
  - apply re_search_cell_canonical; [by apply upper_nonempty|by apply upper_alpha|done..].
  - by rewrite upper_idem.
  - by rewrite Hint, py_int_str.
Qed.

Lemma complete_data_range_first_reference_witness :
  complete_data_range "$ ab007:zz9" [[CInt 1; CNone]; [CInt 2; CStr "x"]] =
  complete_data_range "AB7" [[CInt 1; CNone]; [CInt 2; CStr "x"]].
Proof.
  apply (complete_data_range_first_reference "$ " "ab" "007" ":zz9" 7);
    first [reflexivity | discriminate].
Defined.

Lemma subscript_ok_inv {A} (o : option A) (e : pyexc) (a : A) :
  subscript o e = Ok a → o = Some a.
Proof. destruct o; [by intros [= ->]|done]. Qed.

(** X6. A range returned by [complete_data_range] is a fixed point: given
    back as the start location, with the same grid, it is returned again. *)
Theorem complete_data_range_idempotent (start_loc data_range : string) (g : grid) :
  complete_data_range start_loc g = Ok data_range →
  complete_data_range data_range g = Ok data_range.
Proof.
  intros Hok. pose proof Hok as Hrun.
  unfold complete_data_range in Hrun. apply wrap_ok_inv in Hrun.
  apply result_bind_ok_inv in Hrun as ([letters digits] & Hre & Hrun).
  apply result_bind_ok_inv in Hrun as (n & Hint & Hrun).
  apply result_bind_ok_inv in Hrun as ([] & Hchk & Hrun).
  apply result_bind_ok_inv in Hrun as (first_row & Hfirst & Hrun).
  apply result_bind_ok_inv in Hrun as (o & Hcol & Hrun).
  apply result_bind_ok_inv in Hrun as (end_letter & Hend & Hrun).
  cbn [fst snd] in Hint, Hcol, Hend, Hrun.
  apply subscript_ok_inv in Hre as Hm. apply subscript_ok_inv in Hint as Hd.
  apply subscript_ok_inv in Hcol. apply subscript_ok_inv in Hend.
  injection Hrun as Hrange.
  pose proof (py_int_nonneg digits n Hd) as Hn.
  destruct (py_str_nonneg_digits n Hn) as [Hsne Hsdig].
  rewrite <- Hok. symmetry.
  apply (complete_data_range_congr _ _ letters digits (upper letters) (py_str n));
    [done| |by rewrite upper_idem|by rewrite Hd, py_int_str].
  rewrite <- Hrange.
  pose proof (re_search_cell_embedded EmptyString (upper letters) (py_str n)
                (":" +:+ end_letter +:+ py_str (n + Z.of_nat (length g) - 1))) as E.
  rewrite append_nil_l in E.
  assert (letters ≠ EmptyString ∧ string_forall is_alpha letters = true) as [Hl Hla].
  { apply re_search_cell_match in Hm as [s' Hs'].
    unfold match_cell_at in Hs'. destruct (span is_alpha s') as [l rest] eqn:Hsp.
    destruct (span is_digit rest) as [d rest']. destruct l; [discriminate Hs'|].
    destruct d; [discriminate Hs'|]. injection Hs' as <- <-.
    split; [discriminate|]. exact (span_forall _ _ _ _ Hsp). }
  apply E; [reflexivity|exact (upper_nonempty _ Hl)|exact (upper_alpha _ Hla)
           |exact Hsne|exact Hsdig|reflexivity].
Qed.

Lemma complete_data_range_idempotent_witness :
  complete_data_range "A1:B3" [[CInt 1; CStr "x"]; [CInt 2; CNone]; [CInt 3; CStr "z"]]
  = Ok "A1:B3".
Proof.
  apply (complete_data_range_idempotent "a1"). vm_compute. reflexivity.
Defined.

Lemma wrap_err_inv {A} (fn : string) (m : result A) (e : pyexc) :
  wrap fn m = Err e → ∃ cause, m = Err cause ∧ e = Failed fn cause.
Proof. destruct m as [a|cause]; [done|]. intros [= <-]. eauto. Qed.

Lemma result_bind_err_inv {A B} (m : result A) (f : A → result B) (e : pyexc) :
  (m ≫= f) = Err e → m = Err e ∨ ∃ a, m = Ok a ∧ f a = Err e.
Proof. destruct m as [a|e']; [eauto|]. intros [= <-]. by left. Qed.

Lemma subscript_err_inv {A} (o : option A) (e e' : pyexc) :
  subscript o e = Err e' → e' = e.
Proof. destruct o; [done|]. by intros [= <-]. Qed.

(** X7. The order of the checks in [complete_data_range].  A start location
    without a cell reference fails on the match ([AttributeError]) whatever
    the grid, even an invalid one.  With a cell reference, an invalid grid
    fails with its shape error whatever the column.  With a cell reference
    and a valid grid, a column that is not one or two letters (once
    upper-cased) fails with a [KeyError] on those letters.  Every error is
    reported as a failure of [complete_data_range], wrapped exactly once. *)
Theorem complete_data_range_check_order (start_loc : string) (g : grid) :
  (re_search_cell start_loc = None →
     complete_data_range start_loc g = Err (Failed "complete_data_range" AttributeError)) ∧
  (∀ letters digits n m,
     re_search_cell start_loc = Some (letters, digits) → py_int digits = Some n →
     check_2d_list g = Err (ValueError m) →
     complete_data_range start_loc g = Err (Failed "complete_data_range" (ValueError m))) ∧
  (∀ letters digits n c,
     re_search_cell start_loc = Some (letters, digits) → py_int digits = Some n →
     rectangular c g → column_ordinal (upper letters) = None →
     complete_data_range start_loc g =
       Err (Failed "complete_data_range" (KeyError (KStr (upper letters))))) ∧
  (∀ e, complete_data_range start_loc g = Err e →
     ∃ cause, e = Failed "complete_data_range" cause ∧ ∀ fn e', cause ≠ Failed fn e').
Proof.
  split; [|split; [|split]].
  - intros Hre. unfold complete_data_range. by rewrite Hre.
  - intros letters digits n m Hre Hint Hchk. unfold complete_data_range.
    rewrite Hre. result_simpl. rewrite Hint. result_simpl. by rewrite Hchk.
  - intros letters digits n c Hre Hint Hrect Hcol.
    destruct (rectangular_first c g Hrect) as (row & Hrow & Hlen).
    assert (check_2d_list g = Ok ()) as Hchk by (apply check_2d_list_ok; eauto).
    unfold complete_data_range. rewrite Hre. result_simpl. rewrite Hint. result_simpl.
    rewrite Hchk. result_simpl. rewrite Hrow. result_simpl.
    rewrite col_to_order_ordinal, Hcol. reflexivity.
  - intros e H. apply wrap_err_inv in H as (cause & Hbody & ->).
    exists cause. split; [reflexivity|]. intros fn e' ->.
    apply result_bind_err_inv in Hbody as [Hb|(search_match & _ & Hbody)].
    { apply subscript_err_inv in Hb. discriminate Hb. }
    apply result_bind_err_inv in Hbody as [Hb|(start_number & _ & Hbody)].
    { apply subscript_err_inv in Hb. discriminate Hb. }
    apply result_bind_err_inv in Hbody as [Hb|([] & _ & Hbody)].
    { destruct (check_2d_list_cases g) as [Hc|[Hc|Hc]]; rewrite Hc in Hb; discriminate Hb. }
    apply result_bind_err_inv in Hbody as [Hb|(first_row & _ & Hbody)].
    { apply subscript_err_inv in Hb. discriminate Hb. }
    apply result_bind_err_inv in Hbody as [Hb|(start_order & _ & Hbody)].
    { apply subscript_err_inv in Hb. discriminate Hb. }
    apply result_bind_err_inv in Hbody as [Hb|(end_letter & _ & Hbody)].
    { apply subscript_err_inv in Hb. discriminate Hb. }
    discriminate Hbody.
Qed.

Lemma complete_data_range_check_order_witness :
  complete_data_range "cell" [[]; [CInt 1]] = Err (Failed "complete_data_range" AttributeError) ∧
  complete_data_range "AAA1" [[]; [CInt 1]]
    = Err (Failed "complete_data_range" (ValueError EmptyRow)) ∧
  complete_data_range "aaa1" [[CInt 1]]
    = Err (Failed "complete_data_range" (KeyError (KStr "AAA"))).
Proof.
  split; [|split].
  - destruct (complete_data_range_check_order "cell" [[]; [CInt 1]]) as (Hmatch & _).
    apply Hmatch. reflexivity.
  - destruct (complete_data_range_check_order "AAA1" [[]; [CInt 1]]) as (_ & Hgrid & _).
    apply (Hgrid "AAA" "1" 1); reflexivity.
  - destruct (complete_data_range_check_order "aaa1" [[CInt 1]]) as (_ & _ & Hcol & _).
    apply (Hcol "aaa" "1" 1 1%nat); [reflexivity|reflexivity| |reflexivity].
    split; [discriminate|]. split; [lia|]. repeat constructor.
Defined.

(** ** Looking a sheet up by its title *)

Lemma foldl_insert_last (sheet_infos : list (string * string)) (d : gmap string string)
    (sheet_name : string) :
  foldl (λ name_id_dict sheet_info, <[sheet_info.1 := sheet_info.2]> name_id_dict)
        d sheet_infos !! sheet_name =
  match last_titled sheet_name sheet_infos with
  | Some sheet_id => Some sheet_id
  | None => d !! sheet_name
  end.
Proof.
  revert d. induction sheet_infos as [|[title sheet_id] sheet_infos IH]; intros d; [done|].
  cbn [foldl]. rewrite IH. unfold last_titled. rewrite filter_cons. cbn [fst snd].
  destruct (decide (title = sheet_name)) as [->|Hne].
  - rewrite last_cons.
    destruct (last (filter (λ sheet_info, sheet_info.1 = sheet_name) sheet_infos)); [done|].
    simpl. by rewrite lookup_insert_eq.
  - destruct (last (filter (λ sheet_info, sheet_info.1 = sheet_name) sheet_infos)); [done|].
    simpl. by rewrite lookup_insert_ne.
Qed.

Section SheetLookup.
Context {R : Remote}.
Implicit Types w : world R.

Lemma run_get_sheet_id_ok (spreadsheet_token sheet_name : string)
    (sheet_infos : list (string * string)) w w1 :
  query_sheets R spreadsheet_token w = (Ok sheet_infos, w1) →
  get_sheet_id spreadsheet_token sheet_name w =
    (subscript (last_titled sheet_name sheet_infos) (KeyError (KStr sheet_name)), w1,
     [EvQuerySheets spreadsheet_token]).
Proof.
  intros Hq.
  unfold get_sheet_id, get_name_id_dict, wrapM, try_except, raise, lift, emit, call,
    mbind, M_bind, mret, M_ret.
  rewrite Hq. cbn [app]. rewrite foldl_insert_last, lookup_empty.
  by destruct (last_titled sheet_name sheet_infos).
Qed.

Lemma run_get_sheet_id_err (spreadsheet_token sheet_name : string) (e : pyexc) w w1 :
  query_sheets R spreadsheet_token w = (Err e, w1) →
  get_sheet_id spreadsheet_token sheet_name w =
    (Err (Failed "get_name_id_dict" e), w1, [EvQuerySheets spreadsheet_token]).
Proof.
  intros Hq.
  unfold get_sheet_id, get_name_id_dict, wrapM, try_except, raise, lift, emit, call,
    mbind, M_bind, mret, M_ret.
  by rewrite Hq.
Qed.
End SheetLookup.

(** X8. The sheet lookup [get_name_id_dict(spreadsheet_token)[sheet_name]]
    makes one request.  When the service lists the sheets, the result is the
    sheet_id listed last under that title (a later sheet with the same title
    replaces an earlier one), and a title that is not listed raises a bare
    [KeyError] on it, outside the wrapper of [get_name_id_dict]; a failed
    request is reported as a failure of [get_name_id_dict]. *)
Theorem sheet_lookup_last_title_wins {R : Remote} (spreadsheet_token sheet_name : string)
    (w w1 : world R) :
  (∀ sheet_infos,
     query_sheets R spreadsheet_token w = (Ok sheet_infos, w1) →
     get_name_id_dict spreadsheet_token w =
       (Ok (foldl (λ name_id_dict sheet_info, <[sheet_info.1 := sheet_info.2]> name_id_dict)
                  ∅ sheet_infos), w1, [EvQuerySheets spreadsheet_token]) ∧
     (∀ sheet_id, last_titled sheet_name sheet_infos = Some sheet_id →
        get_sheet_id spreadsheet_token sheet_name w =
          (Ok sheet_id, w1, [EvQuerySheets spreadsheet_token])) ∧
     ((∀ sheet_id, (sheet_name, sheet_id) ∉ sheet_infos) →
        get_sheet_id spreadsheet_token sheet_name w =
          (Err (KeyError (KStr sheet_name)), w1, [EvQuerySheets spreadsheet_token]))) ∧
  (∀ e, query_sheets R spreadsheet_token w = (Err e, w1) →
     get_sheet_id spreadsheet_token sheet_name w =
       (Err (Failed "get_name_id_dict" e), w1, [EvQuerySheets spreadsheet_token])).
Proof.
  split.
  - intros sheet_infos Hq. split; [|split].
    + unfold get_name_id_dict, wrapM, try_except, raise, lift, emit, call,
        mbind, M_bind, mret, M_ret.
      by rewrite Hq.
    + intros sheet_id Hlast. by rewrite (run_get_sheet_id_ok _ _ _ _ _ Hq), Hlast.
    + intros Hnone. rewrite (run_get_sheet_id_ok _ _ _ _ _ Hq).
      assert (last_titled sheet_name sheet_infos = None) as ->; [|done].
      unfold last_titled.
      destruct (last (filter (λ sheet_info, sheet_info.1 = sheet_name) sheet_infos))
        as [[title sheet_id]|] eqn:Hl; [|done].
      exfalso. apply last_Some_elem_of, list_elem_of_filter in Hl as [Ht Hin].
      simpl in Ht. subst title. by apply (Hnone sheet_id).
  - intros e Hq. by apply run_get_sheet_id_err.
Qed.

Lemma sheet_lookup_last_title_wins_witness :
  get_sheet_id (R := scripted "t" [("Sheet1", "aaa"); ("Other", "bbb"); ("Sheet1", "ccc")])
               "tok" "Sheet1" {| gets := []; puts := [] |}
    = (Ok "ccc", {| gets := []; puts := [] |}, [EvQuerySheets "tok"]) ∧
  get_sheet_id (R := scripted "t" [("Sheet1", "aaa"); ("Other", "bbb"); ("Sheet1", "ccc")])
               "tok" "sheet1" {| gets := []; puts := [] |}
    = (Err (KeyError (KStr "sheet1")), {| gets := []; puts := [] |}, [EvQuerySheets "tok"]).
Proof.
  destruct (sheet_lookup_last_title_wins
              (R := scripted "t" [("Sheet1", "aaa"); ("Other", "bbb"); ("Sheet1", "ccc")])
              "tok" "Sheet1" {| gets := []; puts := [] |} {| gets := []; puts := [] |})
    as [Hok _].
  destruct (Hok _ eq_refl) as (_ & Hfound & _).
  destruct (sheet_lookup_last_title_wins
              (R := scripted "t" [("Sheet1", "aaa"); ("Other", "bbb"); ("Sheet1", "ccc")])
              "tok" "sheet1" {| gets := []; puts := [] |} {| gets := []; puts := [] |})
    as [Hok' _].
  destruct (Hok' _ eq_refl) as (_ & _ & Hmissing).
  split.
  - apply Hfound. reflexivity.
  - apply Hmissing. intros sheet_id Hin.
    repeat (apply elem_of_cons in Hin as [[=]|Hin]). by apply elem_of_nil in Hin.
Defined.

(** ** The write retry loop on any remote *)

Section RetryAnyRemote.
Context {R : Remote}.
Implicit Types w : world R.
Variables (url bearer range : string) (values : grid) (batch_size : Z).

(** Any run of the attempts [j .. 4] is some failed attempts with their
    sleeps and one last attempt. *)
Lemma put_attempts_trace (m j : nat) w (r : result unit) w' t :
  (j + m = 5)%nat → (0 < m)%nat →
  put_attempts url bearer range values batch_size (Z.of_nat <$> seq j m) w = (r, w', t) →
  ∃ k, (k < m)%nat ∧ t = retry_trace url bearer range values j k ∧
       (r = Ok () →
          ∃ w0 response_dict,
            requests_put R url bearer range values w0 = (Ok response_dict, w') ∧
            code response_dict = 0).
Proof.
  revert j w t. induction m as [|m IH]; intros j w t Hjm Hm; [lia|].
  cbn [seq fmap list_fmap]. rewrite put_attempts_cons.
  destruct (requests_put R url bearer range values w) as [[response_dict|e] w1] eqn:Hput.
  2: { intros [= <- <- <-]. exists 0%nat. split; [lia|]. split; [done|]. intros [=]. }
  destruct (Z.eqb_spec (code response_dict) 0) as [Hc|Hc].
  { intros [= <- <- <-]. exists 0%nat. split; [lia|]. split; [done|]. intros _. eauto. }
  destruct (code response_dict =? 90227).
  { intros [= <- <- <-]. exists 0%nat. split; [lia|]. split; [done|]. intros [=]. }
  destruct (Z.ltb_spec (Z.of_nat j) (max_attempts - 1)) as [Hlt|Hge].
  2: { intros [= <- <- <-]. exists 0%nat. split; [lia|]. split; [done|]. intros [=]. }
  unfold max_attempts in Hlt.
  destruct (put_attempts url bearer range values batch_size (Z.of_nat <$> seq (S j) m) w1)
    as [[r2 w2] t2] eqn:Hrec.
  intros [= <- <- <-].
  destruct (IH (S j) w1 t2) as (k & Hk & -> & Hok); [lia|lia|exact Hrec|].
  exists (S k). split; [lia|]. split; [by rewrite retry_trace_S|exact Hok].
Qed.
End RetryAnyRemote.



(** ** [write_multi_data] sends once *)

Lemma sleeps_of_app (t1 t2 : list event) : sleeps_of (t1 ++ t2) = sleeps_of t1 ++ sleeps_of t2.
Proof. apply omap_app. Qed.

(** X10. Whatever the input and the service, [write_multi_data] requests the
    token, then the sheet list, then sends at most one PUT, in this order,
    and never sleeps or retries: its trace is a prefix of these three
    events.  The PUT carries the sanitised grid and the range computed from
    it.  The call returns normally only if the service answered that PUT
    with code 0, and every error it raises is reported as a failure of
    [write_multi_data]. *)
Theorem write_multi_data_single_attempt {R : Remote}
    (spreadsheet_token sheet_name start_loc : string) (input_data : input)
    (w w' : world R) (r : result unit) (t : list event) :
  write_multi_data spreadsheet_token sheet_name start_loc input_data w = (r, w', t) →
  ((t = [] ∨ t = [EvAuth] ∨ t = [EvAuth; EvQuerySheets spreadsheet_token]) ∧ r ≠ Ok () ∨
   ∃ bearer sheet_id data_range sd w2 response,
     normalize input_data = Ok sd ∧
     complete_data_range start_loc sd = Ok data_range ∧
     t = [EvAuth; EvQuerySheets spreadsheet_token;
          EvPut (values_url spreadsheet_token) bearer (sheet_id +:+ "!" +:+ data_range) sd] ∧
     requests_put R (values_url spreadsheet_token) bearer (sheet_id +:+ "!" +:+ data_range)
                  sd w2 = (response, w') ∧
     (r = Ok () ↔ ∃ response_dict, response = Ok response_dict ∧ code response_dict = 0)) ∧
  (∀ e, r = Err e → ∃ cause, e = Failed "write_multi_data" cause).
Proof.
  intros Hrun. rewrite write_multi_data_factor, run_wrapM in Hrun.
  split.
  2: { intros e ->. destruct ((lift (normalize input_data)
         ≫= send_standard spreadsheet_token sheet_name start_loc) w) as [[[a|e'] w1] t1];
         [discriminate Hrun|]. injection Hrun as <- _ _. eauto. }
  destruct (normalize input_data) as [sd|e] eqn:Hn.
  2: { rewrite run_lift_err in Hrun. injection Hrun as <- <- <-. left. split; [by left|done]. }
  rewrite run_lift_ok in Hrun. unfold send_standard in Hrun.
  rewrite run_bind, run_get_tenant_access_token in Hrun.
  destruct (post_auth R w) as [[bearer|e] w1]; cbn [wrap fst snd] in Hrun.
  2: { injection Hrun as <- <- <-. left. split; [right; by left|done]. }
  destruct (run_get_sheet_id spreadsheet_token sheet_name w1) as [rs Hrs].
  rewrite run_bind, Hrs in Hrun.
  destruct rs as [sheet_id|e].
  2: { injection Hrun as <- <- <-. left. split; [right; by right|done]. }
  destruct (complete_data_range start_loc sd) as [data_range|e] eqn:Hcr.
  2: { rewrite run_lift_err in Hrun. injection Hrun as <- <- <-.
       left. split; [right; by right|done]. }
  rewrite run_lift_ok, run_bind, run_http_put in Hrun.
  destruct (requests_put R (values_url spreadsheet_token) bearer
              (sheet_id +:+ "!" +:+ data_range) sd (query_sheets R spreadsheet_token w1).2)
    as [response w3] eqn:Hput.
  cbn [fst snd] in Hrun. right.
  exists bearer, sheet_id, data_range, sd, (query_sheets R spreadsheet_token w1).2, response.
  destruct response as [response_dict|e].
  2: { injection Hrun as <- <- <-. repeat split; try done. by intros (? & [=] & _). }
  destruct (Z.eqb_spec (code response_dict) 0) as [Hc|Hc].
  { injection Hrun as <- <- <-. repeat split; eauto. }
  assert (r ≠ Ok () ∧ w' = w3 ∧
          t = [EvAuth; EvQuerySheets spreadsheet_token;
               EvPut (values_url spreadsheet_token) bearer
                     (sheet_id +:+ "!" +:+ data_range) sd]) as (Hr & -> & ->).
  { destruct (code response_dict =? 90227); by injection Hrun as <- <- <-. }
  repeat split; try done. intros (rd & [= <-] & Hcode). done.
Qed.

Lemma write_multi_data_single_attempt_witness :
  ∃ cause, Failed "write_multi_data" (RequestFailed 1 "busy") = Failed "write_multi_data" cause.
Proof.
  destruct (write_multi_data_single_attempt (R := scripted "t" [("Sheet1", "sid")])
              "tok" "Sheet1" "A1" (InList [[CInt 1]])
              {| gets := []; puts := [Ok {| code := 1; msg := "busy" |};
                                      Ok {| code := 0; msg := "" |}] |}
              {| gets := []; puts := [Ok {| code := 0; msg := "" |}] |}
              (Err (Failed "write_multi_data" (RequestFailed 1 "busy")))
              [EvAuth; EvQuerySheets "tok";
               EvPut (values_url "tok") "t" "sid!A1:A1" [[CInt 1]]])
    as [_ Hwrapped].
  - vm_compute. reflexivity.
  - exact (Hwrapped _ eq_refl).
Defined.

(** ** [batch_write_multi_data] on any remote *)

Section BatchRuns.
Context {R : Remote}.
Implicit Types w : world R.

(** The second half of [batch_write_multi_data], step by step. *)
Lemma run_send_batches (spreadsheet_token sheet_name start_loc : string)
    (batch_size : Z) (sd : grid) w :
  send_batches spreadsheet_token sheet_name start_loc batch_size sd w =
  match post_auth R w with
  | (Err e, w1) => (Err (Failed "get_tenant_access_token" e), w1, [EvAuth])
  | (Ok bearer, w1) =>
      match get_sheet_id spreadsheet_token sheet_name w1 with
      | (Err e, w2, _) => (Err e, w2, [EvAuth; EvQuerySheets spreadsheet_token])
      | (Ok sheet_id, w2, _) =>
          match batch_prelude start_loc sd batch_size with
          | Err e => (Err e, w2, [EvAuth; EvQuerySheets spreadsheet_token])
          | Ok (start_letter, start_number, starts) =>
              let '(r, w3, t3) :=
                for_each starts (write_batch (values_url spreadsheet_token) bearer sheet_id
                                             start_letter start_number sd batch_size) w2 in
              (r, w3, EvAuth :: EvQuerySheets spreadsheet_token :: t3)
          end
      end
  end.
Proof.
  unfold send_batches. rewrite run_bind, run_get_tenant_access_token.
  destruct (post_auth R w) as [[bearer|e] w1]; cbn [wrap fst snd]; [|done].
  destruct (run_get_sheet_id spreadsheet_token sheet_name w1) as [rs Hrs].
  rewrite run_bind, Hrs. destruct rs as [sheet_id|e]; [|done].
  unfold batch_prelude.
  destruct (re_search_cell start_loc) as [[letters digits]|]; cbn [subscript].
  2: { by rewrite run_lift_err, result_bind_err. }
  rewrite run_lift_ok, result_bind_ok. cbn [fst snd].
  destruct (py_int digits) as [n|]; cbn [subscript].
  2: { by rewrite run_lift_err, result_bind_err. }
  rewrite run_lift_ok, result_bind_ok.
  destruct (batch_num (Z.of_nat (length sd)) batch_size) as [bn|e].
  2: { by rewrite run_lift_err, result_bind_err. }
  rewrite run_lift_ok, result_bind_ok.
  destruct (py_range 0 (Z.of_nat (length sd)) batch_size) as [starts|e].
  2: { by rewrite run_lift_err, result_bind_err. }
  rewrite run_lift_ok, result_bind_ok.
  by destruct (for_each starts _ _) as [[r w3] t3].
Qed.
End BatchRuns.

Lemma py_range_negative_step (total step : Z) :
  0 ≤ total → step < 0 → py_range 0 total step = Ok [].
Proof.
  intros Htot Hstep. unfold py_range, range_len.
  destruct (Z.eqb_spec step 0); [lia|].
  destruct (Z.ltb_spec 0 step); [lia|].
  destruct (Z.ltb_spec total 0); [lia|]. done.
Qed.

Lemma batch_prelude_nonpositive (start_loc : string) (sd : grid) (batch_size : Z) :
  batch_size ≤ 0 →
  match batch_prelude start_loc sd batch_size with
  | Ok (_, _, starts) => batch_size < 0 ∧ starts = []
  | Err _ => True
  end.
Proof.
  intros Hbs. unfold batch_prelude.
  destruct (re_search_cell start_loc) as [[letters digits]|]; cbn [subscript]; [|done].
  rewrite result_bind_ok. cbn [fst snd].
  destruct (py_int digits) as [n|]; cbn [subscript]; [|done].
  rewrite result_bind_ok. unfold batch_num.
  destruct (Z.eqb_spec batch_size 0) as [Hz|Hz]; [done|].
  rewrite result_bind_ok, py_range_negative_step by lia.
  rewrite result_bind_ok. split; [lia|done].
Qed.

(** X11. A batch size that is not positive.  Whatever the input and the
    service, [batch_write_multi_data] then sends no PUT and never sleeps.
    With batch size 0 it cannot return normally: on an accepted input and a
    start location that parses, it fails on the division, after the token
    and the sheet list have been requested.  With a negative batch size the
    loop has no iteration: the same call returns normally although nothing
    was written. *)
Theorem batch_write_nonpositive_batch_size {R : Remote}
    (spreadsheet_token sheet_name start_loc : string) (input_data : input) (batch_size : Z)
    (w w' : world R) (r : result unit) (t : list event) :
  batch_size ≤ 0 →
  batch_write_multi_data spreadsheet_token sheet_name start_loc input_data batch_size w
    = (r, w', t) →
  puts_of t = [] ∧ sleeps_of t = [] ∧
  (batch_size = 0 → r ≠ Ok ()) ∧
  (∀ sd bearer w1 sheet_id w2 letters digits n,
     normalize input_data = Ok sd →
     post_auth R w = (Ok bearer, w1) →
     get_sheet_id spreadsheet_token sheet_name w1
       = (Ok sheet_id, w2, [EvQuerySheets spreadsheet_token]) →
     re_search_cell start_loc = Some (letters, digits) → py_int digits = Some n →
     (r, w', t) =
       (if batch_size =? 0 then Err (Failed "batch_write_multi_data" ZeroDivisionError)
        else Ok (),
        w2, [EvAuth; EvQuerySheets spreadsheet_token])).
Proof.
  intros Hbs Hrun. rewrite batch_write_multi_data_factor, run_wrapM in Hrun.
  destruct (normalize input_data) as [sd|e] eqn:Hn.
  2: { rewrite run_lift_err in Hrun. injection Hrun as <- <- <-.
       repeat split; try done. }
  rewrite run_lift_ok, run_send_batches in Hrun.
  destruct (post_auth R w) as [[bearer|e] w1] eqn:Hauth.
  2: { injection Hrun as <- <- <-. repeat split; try done. }
  destruct (get_sheet_id spreadsheet_token sheet_name w1) as [[[sheet_id|e] w2] t2] eqn:Hsheet.
  2: { injection Hrun as <- <- <-. repeat split; try done.
       intros sd' bearer' w1' sheet_id w2' letters digits n _ [= <- <-] Hs.
       rewrite Hsheet in Hs. discriminate Hs. }
  pose proof (batch_prelude_nonpositive start_loc sd batch_size Hbs) as Hpre.
  destruct (batch_prelude start_loc sd batch_size) as [[[L n0] starts]|e] eqn:Hbp.
  - destruct Hpre as [Hneg ->]. cbn [for_each] in Hrun. injection Hrun as <- <- <-.
    repeat split; try done; [lia|].
    intros sd' bearer' w1' sheet_id' w2' letters digits n _ [= <- <-] Hs _ _.
    rewrite Hsheet in Hs. injection Hs as <- <- _.
    destruct (Z.eqb_spec batch_size 0); [lia|done].
  - injection Hrun as <- <- <-. repeat split; try done.
    intros sd' bearer' w1' sheet_id' w2' letters digits n [= <-] [= <- <-] Hs Hre Hint.
    rewrite Hsheet in Hs. injection Hs as <- <- _.
    unfold batch_prelude in Hbp. rewrite Hre in Hbp. cbn [subscript] in Hbp.
    rewrite result_bind_ok in Hbp. cbn [fst snd] in Hbp. rewrite Hint in Hbp.
    cbn [subscript] in Hbp. rewrite result_bind_ok in Hbp. unfold batch_num in Hbp.
    destruct (Z.eqb_spec batch_size 0) as [Hz|Hz].
    + rewrite result_bind_err in Hbp. by injection Hbp as <-.
    + rewrite result_bind_ok, py_range_negative_step in Hbp by lia. discriminate Hbp.
Qed.

Lemma batch_write_nonpositive_batch_size_witness :
  batch_write_multi_data (R := scripted "t" [("Sheet1", "sid")])
    "tok" "Sheet1" "A1" (InList [[CInt 1]; [CInt 2]]) (-5) {| gets := []; puts := [] |}
  = (Ok (), {| gets := []; puts := [] |}, [EvAuth; EvQuerySheets "tok"]).
Proof.
  pose (w := {| gets := []; puts := ([] : list (result put_response)) |}).
  destruct (batch_write_multi_data (R := scripted "t" [("Sheet1", "sid")])
              "tok" "Sheet1" "A1" (InList [[CInt 1]; [CInt 2]]) (-5) w) as [[r w'] t] eqn:Hrun.
  destruct (batch_write_nonpositive_batch_size (R := scripted "t" [("Sheet1", "sid")])
              "tok" "Sheet1" "A1" (InList [[CInt 1]; [CInt 2]]) (-5) w w' r t)
    as (_ & _ & _ & Hexact); [lia|exact Hrun|].
  unfold w in Hrun. rewrite Hrun.
  apply (Hexact [[CInt 1]; [CInt 2]] "t" w "sid" w "A" "1" 1); reflexivity.
Defined.

(** ** A batched write that fails has written a prefix *)

Section WriteLoopAnyOutcome.
Context {R : Remote}.
Implicit Types w : world R.
Variables (url bearer sheet_id start_letter : string) (start_number : Z).
Variables (sd : grid) (batch_size : Z).

(** However the loop ends, it has sent the first chunks of the plan, in
    plan order, each between one and five times, and nothing after the
    chunk on which it failed. *)
Lemma write_loop_any (f : Z → chunk) (idxs : list Z) w (r : result unit) w' t :
  Forall (λ idx, plan_chunk start_letter start_number sd batch_size idx = Ok (f idx)) idxs →
  for_each idxs (write_batch url bearer sheet_id start_letter start_number sd batch_size) w
    = (r, w', t) →
  ∃ counts : list nat,
    (length counts ≤ length idxs)%nat ∧
    Forall (λ k, 1 ≤ k ≤ 5)%nat counts ∧
    puts_of t = concat (zip_with (λ k idx, replicate k (url, bearer,
                                                       sheet_id +:+ "!" +:+ chunk_range (f idx),
                                                       chunk_data (f idx)))
                                 counts idxs) ∧
    (r = Ok () → length counts = length idxs) ∧
    (r ≠ Ok () → counts ≠ []).
Proof.
  intros Hplan. revert w t. induction Hplan as [|idx idxs Hidx _ IH]; intros w t.
  - intros [= <- <- <-]. exists []. by repeat split.
  - cbn [for_each]. intros Hrun.
    apply run_bind_inv in Hrun as [(e & Hm & ->)|(a & w1 & t1 & t2 & Hm & Hk & ->)].
    + rewrite run_write_batch, Hidx in Hm.
      apply put_attempts_puts in Hm as (k & Hk5 & Hk1 & Hputs).
      rewrite range1_max_attempts in Hk5, Hk1.
      exists [k]. split; [simpl; lia|]. split.
      { constructor; [|constructor]. split; [by apply Hk1|exact Hk5]. }
      split; [|split; [intros [=]|done]].
      rewrite Hputs. destruct idxs; simpl; by rewrite app_nil_r.
    + rewrite run_write_batch, Hidx in Hm.
      apply put_attempts_puts in Hm as (k & Hk5 & Hk1 & Hputs).
      rewrite range1_max_attempts in Hk5, Hk1.
      destruct (IH _ _ Hk) as (counts & Hlen & Hall & Hrest & Hok & _).
      exists (k :: counts). split; [simpl; lia|]. split.
      { constructor; [|done]. split; [by apply Hk1|exact Hk5]. }
      split; [by rewrite puts_of_app, Hputs, Hrest|].
      split; [|done]. intros Hr. simpl. by rewrite Hok.
Qed.
End WriteLoopAnyOutcome.

Lemma ceil_div_pos (a b : Z) : 0 < b → 0 < a → 0 < ceil_div a b.
Proof.
  intros Hb Ha.
  destruct (proj1 (ceil_div_spec a b (ceil_div a b) Hb) eq_refl) as [_ Hhi]. nia.
Qed.

(** X12. Writing a rectangular non-empty grid in batches of
    [batch_size >= 1] rows from a valid origin, on any service and whatever
    the outcome: either the call stopped before the loop and sent no PUT, or
    it sent the first [m >= 1] chunks of the plan, in plan order, each
    between one and five times, and nothing else.  The rows written are then
    the first [m * batch_size] rows of the sanitised grid.  A failure thus
    leaves a prefix written, and a normal return means all chunks were
    sent. *)
Theorem batch_write_sends_a_prefix {R : Remote} (spreadsheet_token sheet_name : string)
    (L : string) (o n : Z) (c : nat) (g : grid) (batch_size : Z)
    (w w' : world R) (r : result unit) (t : list event) :
  col_to_order col_order_info !! L = Some o →
  0 ≤ n →
  rectangular c g →
  o + Z.of_nat c - 1 ≤ 701 →
  1 ≤ batch_size →
  batch_write_multi_data spreadsheet_token sheet_name (L +:+ py_str n) (InList g)
                         batch_size w = (r, w', t) →
  ∃ chunks : list chunk,
    write_plan L n (standardize g) batch_size = Ok chunks ∧
    ((puts_of t = [] ∧ r ≠ Ok ()) ∨
     ∃ (bearer sheet_id : string) (counts : list nat),
       (1 ≤ length counts ≤ length chunks)%nat ∧
       Forall (λ k, 1 ≤ k ≤ 5)%nat counts ∧
       puts_of t =
         concat (zip_with (λ k ch, replicate k (values_url spreadsheet_token, bearer,
                                                  sheet_id +:+ "!" +:+ chunk_range ch,
                                                  chunk_data ch))
                          counts chunks) ∧
       concat (chunk_data <$> take (length counts) chunks) =
         take (length counts * Z.to_nat batch_size) (standardize g) ∧
       (r = Ok () → length counts = length chunks)).
Proof.
  intros Hcol Hn Hrect He Hbs Hrun.
  pose proof (col_to_order_valid L o Hcol) as (Ho & Hne & Halpha & Hup).
  assert (0 < c)%nat as Hc by apply Hrect.
  destruct (order_to_col_total (o + Z.of_nat c - 1)) as (end_letter & Hend & _); [lia|].
  set (sd := standardize g) in *.
  assert (rectangular c sd) as Hsd by by apply standardize_rectangular.
  set (b := Z.to_nat batch_size).
  assert (batch_size = Z.of_nat b) as Hbb by (unfold b; lia).
  assert (0 < b)%nat as Hb by (unfold b; lia).
  rewrite Hbb in Hrun |- *. clear Hbb.
  set (count := Z.to_nat (ceil_div (Z.of_nat (length sd)) (Z.of_nat b))).
  exists (nth_chunk L end_letter n sd b <$> seq 0 count).
  split; [by apply (write_plan_ok L end_letter o n c)|].
  rewrite batch_write_multi_data_factor, run_wrapM in Hrun.
  rewrite (normalize_list_ok c g Hrect), run_lift_ok, run_send_batches in Hrun.
  fold sd in Hrun.
  destruct (post_auth R w) as [[bearer|e] w1].
  2: { injection Hrun as <- <- <-. left. split; [reflexivity|discriminate]. }
  destruct (get_sheet_id spreadsheet_token sheet_name w1) as [[[sheet_id|e] w2] t2].
  2: { injection Hrun as <- <- <-. left. split; [reflexivity|discriminate]. }
  destruct (py_str_nonneg_digits n Hn) as [Hdne Hdig].
  destruct (write_plan_starts L end_letter o n c sd b Hcol Hend Hn Hsd Hb)
    as (starts & Hrange & Hplan & Hchunks).
  assert (batch_prelude (L +:+ py_str n) sd (Z.of_nat b) = Ok (L, n, starts)) as Hpre.
  { unfold batch_prelude.
    rewrite (re_search_cell_canonical L (py_str n) Hne Halpha Hdne Hdig).
    cbn [subscript]. rewrite result_bind_ok. cbn [fst snd].
    rewrite py_int_str by done. cbn [subscript]. rewrite result_bind_ok, Hup.
    rewrite batch_num_ceil by lia. rewrite result_bind_ok, Hrange. by rewrite result_bind_ok. }
  rewrite Hpre in Hrun.
  destruct (for_each starts _ w2) as [[r3 w3] t3] eqn:Hloop.
  destruct (write_loop_any (values_url spreadsheet_token) bearer sheet_id L n sd (Z.of_nat b)
              _ starts w2 r3 w3 t3 Hplan Hloop) as (counts & Hlen & Hall & Hputs & Hok & Hfail).
  assert (length starts = count) as Hstarts.
  { apply (f_equal length) in Hchunks. by rewrite !length_fmap, length_seq in Hchunks. }
  assert (0 < count)%nat as Hcount.
  { unfold count. destruct Hsd as (Hnil & _).
    assert (length sd ≠ 0%nat) as Hlen0.
    { intros H0. apply Hnil. exact (nil_length_inv _ H0). }
    pose proof (ceil_div_pos (Z.of_nat (length sd)) (Z.of_nat b)). lia. }
  assert (r = Ok () → r3 = Ok ()) as Hr.
  { intros ->. destruct r3 as [[]|e]; [done|discriminate Hrun]. }
  assert (t = EvAuth :: EvQuerySheets spreadsheet_token :: t3) as ->.
  { destruct r3; by injection Hrun as _ _ <-. }
  right. exists bearer, sheet_id, counts.
  rewrite length_fmap, length_seq. subst count.
  assert (1 ≤ length counts)%nat as Hone.
  { clear Hrun Hr Hloop. destruct r3 as [[]|e].
    - rewrite (Hok eq_refl). lia.
    - assert (counts ≠ []) as Hnil by (apply Hfail; discriminate).
      destruct counts; [by destruct Hnil|simpl; lia]. }
  split; [lia|]. split; [done|]. split; [|split].
  - change (puts_of (EvAuth :: EvQuerySheets spreadsheet_token :: t3)) with (puts_of t3).
    rewrite Hputs, <- Hchunks. by rewrite zip_with_fmap_right.
  - rewrite <- fmap_take, take_seq, Nat.min_l by lia.
    rewrite plan_data, concat_batches. reflexivity.
  - intros E. rewrite (Hok (Hr E)). lia.
Qed.

Lemma batch_write_sends_a_prefix_witness :
  ∃ chunks : list chunk,
    write_plan "A" 1 (standardize [[CInt 1]; [CInt 2]; [CInt 3]]) 1 = Ok chunks ∧
    ((puts_of [EvAuth; EvQuerySheets "tok";
               EvPut (values_url "tok") "t" "sid!A1:A1" [[CInt 1]];
               EvPut (values_url "tok") "t" "sid!A2:A2" [[CInt 2]]] = [] ∧
      Err (Failed "batch_write_multi_data" (PayloadTooLarge (Some 1))) ≠ Ok ()) ∨
     ∃ (bearer sheet_id : string) (counts : list nat),
       (1 ≤ length counts ≤ length chunks)%nat ∧
       Forall (λ k, 1 ≤ k ≤ 5)%nat counts ∧
       puts_of [EvAuth; EvQuerySheets "tok";
                EvPut (values_url "tok") "t" "sid!A1:A1" [[CInt 1]];
                EvPut (values_url "tok") "t" "sid!A2:A2" [[CInt 2]]] =
         concat (zip_with (λ k ch, replicate k (values_url "tok", bearer,
                                                  sheet_id +:+ "!" +:+ chunk_range ch,
                                                  chunk_data ch))
                          counts chunks) ∧
       concat (chunk_data <$> take (length counts) chunks) =
         take (length counts * Z.to_nat 1) (standardize [[CInt 1]; [CInt 2]; [CInt 3]]) ∧
       ((Err (Failed "batch_write_multi_data" (PayloadTooLarge (Some 1))) : result unit) = Ok ()
        → length counts = length chunks)).
Proof.
  apply (batch_write_sends_a_prefix (R := scripted "t" [("Sheet1", "sid")]) "tok" "Sheet1"
           "A" 0 1 1 [[CInt 1]; [CInt 2]; [CInt 3]] 1
           {| gets := []; puts := [Ok {| code := 0; msg := "" |};
                                   Ok {| code := 90227; msg := "too large" |}] |}
           {| gets := []; puts := [] |}).
  - apply col_to_order_spec. split; [lia|reflexivity].
  - lia.
  - split; [done|]. split; [lia|]. repeat constructor.
  - lia.
  - lia.
  - vm_compute. reflexivity.
Defined.

(** ** The read retry loop on any remote *)

Section ReadRetryAnyRemote.
Context {R : Remote}.
Implicit Types w : world R.
Variables (url bearer : string) (data_all : grid).

Lemma read_retry_trace_S (j k : nat) :
  read_retry_trace url bearer j (S k) =
  EvGet url bearer :: EvSleep (10 * (Z.of_nat j + 1)) :: read_retry_trace url bearer (S j) k.
Proof. reflexivity. Qed.

Lemma get_attempts_trace (m j : nat) w (r : result grid) w' t :
  (j + m = 5)%nat → (0 < m)%nat →
  get_attempts url bearer data_all (Z.of_nat <$> seq j m) w = (r, w', t) →
  ∃ k w0, (k < m)%nat ∧ t = read_retry_trace url bearer j k ∧
          match r with
          | Ok data => ∃ rows, requests_get R url bearer w0 = (Ok rows, w') ∧
                               data = data_all ++ rows
          | Err e => requests_get R url bearer w0 = (Err e, w') ∧ (j + k = 4)%nat
          end.
Proof.
  revert j w t. induction m as [|m IH]; intros j w t Hjm Hm; [lia|].
  cbn [seq fmap list_fmap]. rewrite get_attempts_cons.
  destruct (requests_get R url bearer w) as [[data_collected|e] w1] eqn:Hget.
  { intros [= <- <- <-]. exists 0%nat, w. split; [lia|]. split; [done|]. eauto. }
  destruct (Z.ltb_spec (Z.of_nat j) (max_retries - 1)) as [Hlt|Hge].
  2: { intros [= <- <- <-]. exists 0%nat, w. split; [lia|]. split; [done|].
       split; [done|]. unfold max_retries in Hge. lia. }
  unfold max_retries in Hlt.
  destruct (get_attempts url bearer data_all (Z.of_nat <$> seq (S j) m) w1)
    as [[r2 w2] t2] eqn:Hrec.
  intros [= <- <- <-].
  destruct (IH (S j) w1 t2) as (k & w0 & Hk & -> & Hout); [lia|lia|exact Hrec|].
  exists (S k), w0. split; [lia|]. split; [by rewrite read_retry_trace_S|].
  destruct r2 as [data|e']; [exact Hout|]. destruct Hout as [Hlast Hjk]. split; [done|lia].
Qed.
End ReadRetryAnyRemote.

Lemma gets_of_read_retry_trace (url bearer : string) (j k : nat) :
  gets_of (read_retry_trace url bearer j k) = replicate (S k) url.
Proof.
  revert j. induction k as [|k IH]; intros j; [done|].
  change (gets_of (read_retry_trace url bearer j (S k)))
    with (url :: gets_of (read_retry_trace url bearer (S j) k)).
  by rewrite IH.
Qed.

Lemma sleeps_of_read_retry_trace (url bearer : string) (j k : nat) :
  sleeps_of (read_retry_trace url bearer j k) =
  (λ attempt : nat, 10 * (Z.of_nat attempt + 1)) <$> seq j k.
Proof.
  revert j. induction k as [|k IH]; intros j; [done|].
  change (sleeps_of (read_retry_trace url bearer j (S k)))
    with (10 * (Z.of_nat j + 1) :: sleeps_of (read_retry_trace url bearer (S j) k)).
  by rewrite IH.
Qed.



(** ** Reads that plan no window *)

Lemma read_windows_step_zero (row_id_start row_id_end : Z) :
  read_windows row_id_start row_id_end 0 = Err (ValueError RangeStepZero).
Proof. reflexivity. Qed.

Lemma read_windows_empty (row_id_start row_id_end batch_size : Z) :
  (1 ≤ batch_size ∧ row_id_end < row_id_start) ∨ (batch_size < 0 ∧ row_id_start ≤ row_id_end) →
  read_windows row_id_start row_id_end batch_size = Ok [].
Proof.
  intros Hcase. unfold read_windows, py_range, range_len.
  destruct (Z.eqb_spec batch_size 0); [lia|].
  destruct (Z.ltb_spec 0 batch_size).
  - destruct (Z.ltb_spec row_id_start (row_id_end + 1)); [lia|]. done.
  - destruct (Z.ltb_spec (row_id_end + 1) row_id_start); [lia|]. done.
Qed.

(** X14. [load_sheet_data_to_df] when the token and the sheet are obtained
    but no window is planned.  A batch size of 0 fails on [range], outside
    the wrapper of the method: a bare [ValueError], before any GET.  A last
    row before the first row (or a negative batch size with the rows in
    order) plans no window: read from row 1 or above it, nothing is
    requested and the assembly fails on the missing header row
    ([IndexError], wrapped); read from a later row, the header range alone
    is requested, once, and the frame is assembled from its answer, a
    one-row answer giving the frame of its valid labels with no rows. *)
Theorem load_sheet_data_to_df_no_window {R : Remote} (spreadsheet_token sheet_name : string)
    (row_id_start row_id_end : Z) (col_id_start col_id_end : string) (batch_size : Z)
    (target_column_names : list cell) (bearer sheet_id : string) (w w1 w2 : world R) :
  post_auth R w = (Ok bearer, w1) →
  get_sheet_id spreadsheet_token sheet_name w1
    = (Ok sheet_id, w2, [EvQuerySheets spreadsheet_token]) →
  let run := load_sheet_data_to_df spreadsheet_token sheet_name row_id_start row_id_end
                                   col_id_start col_id_end batch_size target_column_names w in
  let head_url := head_section_url spreadsheet_token sheet_id col_id_start col_id_end in
  (batch_size = 0 →
     run = (Err (ValueError RangeStepZero), w2, [EvAuth; EvQuerySheets spreadsheet_token])) ∧
  ((1 ≤ batch_size ∧ row_id_end < row_id_start) ∨ (batch_size < 0 ∧ row_id_start ≤ row_id_end) →
     (row_id_start ≤ 1 →
        run = (Err (Failed "load_sheet_data_to_df" IndexError), w2,
               [EvAuth; EvQuerySheets spreadsheet_token])) ∧
     (1 < row_id_start →
        ∀ head_response w3,
          requests_get R head_url bearer w2 = (head_response, w3) →
          run = (wrap "load_sheet_data_to_df"
                      (head_collected ← head_response;
                       assemble head_collected target_column_names),
                 w3, [EvAuth; EvQuerySheets spreadsheet_token; EvGet head_url bearer]))) ∧
  (∀ header, assemble [header] [] =
             Ok {| df_columns := filter valid_label header; df_values := [] |}).
Proof.
  intros Hauth Hsheet run head_url. subst run head_url.
  assert (∀ windows_result,
            read_windows row_id_start row_id_end batch_size = windows_result →
            load_sheet_data_to_df spreadsheet_token sheet_name row_id_start row_id_end
              col_id_start col_id_end batch_size target_column_names w =
            match windows_result with
            | Err e => (Err e, w2, [EvAuth; EvQuerySheets spreadsheet_token])
            | Ok windows =>
                let '(r, w3, t3) :=
                  wrapM "load_sheet_data_to_df"
                    (data_all ← fetch_all spreadsheet_token sheet_id col_id_start col_id_end
                                          bearer row_id_start
                                          (window_url spreadsheet_token sheet_id col_id_start
                                                      col_id_end <$> windows);
                     lift (assemble data_all target_column_names)) w2 in
                (r, w3, EvAuth :: EvQuerySheets spreadsheet_token :: t3)
            end) as Hsteps.
  { intros windows_result Hw. unfold load_sheet_data_to_df.
    rewrite run_bind, run_get_tenant_access_token, Hauth. cbn [wrap fst snd].
    rewrite run_bind, Hsheet, Hw. destruct windows_result as [windows|e].
    - rewrite run_lift_ok. by destruct (wrapM _ _ w2) as [[r w3] t3].
    - by rewrite run_lift_err. }
  split; [|split].
  - intros ->. by rewrite (Hsteps _ (read_windows_step_zero _ _)).
  - intros Hcase. rewrite (Hsteps _ (read_windows_empty _ _ _ Hcase)).
    cbn [fmap list_fmap]. rewrite run_wrapM, run_bind. split.
    + intros Hstart. rewrite fetch_all_no_header by done. cbn [get_windows].
      unfold mret, M_ret. unfold assemble. cbn [lookup list_lookup subscript].
      rewrite result_bind_err. reflexivity.
    + intros Hstart head_response w3 Hget. rewrite fetch_all_header, Hget by done.
      cbn [get_windows]. unfold mret, M_ret.
      destruct head_response as [head_collected|e]; [|reflexivity].
      rewrite result_bind_ok. unfold lift.
      by destruct (assemble head_collected target_column_names).
  - intros header. rewrite assemble_unfold by constructor. reflexivity.
Qed.

Lemma load_sheet_data_to_df_no_window_witness :
  load_sheet_data_to_df (R := scripted "t" [("Sheet1", "sid")])
    "tok" "Sheet1" 5 4 "A" "C" 10 [] {| gets := [Ok [[CStr "id"; CNone; CStr "name"]]]; puts := [] |}
  = (Ok {| df_columns := [CStr "id"; CStr "name"]; df_values := [] |},
     {| gets := []; puts := [] |},
     [EvAuth; EvQuerySheets "tok"; EvGet (head_section_url "tok" "sid" "A" "C") "t"]).
Proof.
  destruct (load_sheet_data_to_df_no_window (R := scripted "t" [("Sheet1", "sid")])
              "tok" "Sheet1" 5 4 "A" "C" 10 [] "t" "sid"
              {| gets := [Ok [[CStr "id"; CNone; CStr "name"]]]; puts := [] |}
              {| gets := [Ok [[CStr "id"; CNone; CStr "name"]]]; puts := [] |}
              {| gets := [Ok [[CStr "id"; CNone; CStr "name"]]]; puts := [] |})
    as (_ & Hempty & _); [reflexivity|reflexivity|].
  destruct Hempty as [_ Hheader]; [left; lia|].
  rewrite (Hheader ltac:(lia) (Ok [[CStr "id"; CNone; CStr "name"]])
                   {| gets := []; puts := [] |} eq_refl).
  reflexivity.
Defined.

(** ** [load_data_from_sheet] *)

(** X15. Whatever the service, [load_data_from_sheet] requests the sheet
    list first, then the token, then sends one GET for the range
    [sheet_id!data_range], and nothing else: no sleep, no second attempt.
    An exception of the GET is reported as a failure of
    [load_data_from_sheet]; its rows are returned as they are.  A sheet
    title that is not listed raises a bare [KeyError] before the token is
    requested. *)
Theorem load_data_from_sheet_single_get {R : Remote}
    (spreadsheet_token sheet_name data_range : string)
    (w w' : world R) (r : result grid) (t : list event) :
  load_data_from_sheet spreadsheet_token sheet_name data_range w = (r, w', t) →
  ((t = [EvQuerySheets spreadsheet_token] ∧ ∃ e, r = Err e) ∨
   (t = [EvQuerySheets spreadsheet_token; EvAuth] ∧
    ∃ e, r = Err (Failed "get_tenant_access_token" e)) ∨
   (∃ sheet_id bearer w2 response,
      t = [EvQuerySheets spreadsheet_token; EvAuth;
           EvGet (read_url spreadsheet_token (sheet_id +:+ "!" +:+ data_range)) bearer] ∧
      requests_get R (read_url spreadsheet_token (sheet_id +:+ "!" +:+ data_range)) bearer w2
        = (response, w') ∧
      r = wrap "load_data_from_sheet" response)) ∧
  (∀ sheet_infos w1,
     query_sheets R spreadsheet_token w = (Ok sheet_infos, w1) →
     last_titled sheet_name sheet_infos = None →
     (r, w', t) = (Err (KeyError (KStr sheet_name)), w1, [EvQuerySheets spreadsheet_token])).
Proof.
  intros Hrun. unfold load_data_from_sheet in Hrun. split.
  - destruct (run_get_sheet_id spreadsheet_token sheet_name w) as [rs Hrs].
    rewrite run_bind, Hrs in Hrun. destruct rs as [sheet_id|e].
    2: { injection Hrun as <- <- <-. left. eauto. }
    rewrite run_bind, run_get_tenant_access_token in Hrun.
    destruct (post_auth R (query_sheets R spreadsheet_token w).2) as [[bearer|e] w2].
    2: { cbn [wrap fst snd] in Hrun. injection Hrun as <- <- <-. right. left. eauto. }
    cbn [wrap fst snd] in Hrun. rewrite run_wrapM, run_http_get in Hrun.
    destruct (requests_get R (read_url spreadsheet_token (sheet_id +:+ "!" +:+ data_range))
                bearer w2) as [response w3] eqn:Hget.
    cbn [fst snd] in Hrun. right. right. exists sheet_id, bearer, w2, response.
    destruct response as [data_loaded|e]; injection Hrun as <- <- <-; by rewrite Hget.
  - intros sheet_infos w1 Hq Hnone.
    rewrite run_bind, (run_get_sheet_id_ok _ _ _ _ _ Hq), Hnone in Hrun. by rewrite <- Hrun.
Qed.

Lemma load_data_from_sheet_single_get_witness :
  ∃ sheet_id bearer w2 response,
    [EvQuerySheets "tok"; EvAuth; EvGet (read_url "tok" "sid!A1:B2") "t"] =
      [EvQuerySheets "tok"; EvAuth;
       EvGet (read_url "tok" (sheet_id +:+ "!" +:+ "A1:B2")) bearer] ∧
    requests_get (scripted "t" [("Sheet1", "sid")])
                 (read_url "tok" (sheet_id +:+ "!" +:+ "A1:B2")) bearer w2
      = (response, {| gets := []; puts := [] |}) ∧
    Err (Failed "load_data_from_sheet" (TransportError "503"))
      = wrap "load_data_from_sheet" response.
Proof.
  destruct (load_data_from_sheet_single_get (R := scripted "t" [("Sheet1", "sid")])
              "tok" "Sheet1" "A1:B2" {| gets := [Err (TransportError "503")]; puts := [] |}
              {| gets := []; puts := [] |}
              (Err (Failed "load_data_from_sheet" (TransportError "503")))
              [EvQuerySheets "tok"; EvAuth; EvGet (read_url "tok" "sid!A1:B2") "t"] eq_refl)
    as [[[Hcase _]|[[Hcase _]|Hcase]] _]; [discriminate Hcase|discriminate Hcase|exact Hcase].
Defined.

(** ** [write_single_data] *)

Lemma post_data_of_sanitize (input_data : cell) :
  post_data_of (sanitize input_data) = post_data_of input_data.
Proof. by destruct input_data. Qed.

(** The range of a single cell, as [complete_data_range] computes it. *)
Lemma complete_data_range_single (L : string) (o n : Z) (x : cell) :
  col_to_order col_order_info !! L = Some o → 0 ≤ n →
  complete_data_range (L +:+ py_str n) [[x]] =
    Ok ((L +:+ py_str n) +:+ ":" +:+ (L +:+ py_str n)).
Proof.
  intros Hcol Hn.
  assert (rectangular 1 [[x]]) as Hrect.
  { split; [discriminate|]. split; [lia|]. repeat constructor. }
  rewrite (complete_data_range_cell L o n 1 [[x]] Hcol Hn Hrect).
  assert (order_to_col col_order_info !! (o + Z.of_nat 1 - 1) = Some L) as ->.
  { replace (o + Z.of_nat 1 - 1) with o by lia.
    apply order_to_col_spec. by apply col_to_order_spec. }
  f_equal. cbn [length]. replace (n + Z.of_nat 1 - 1) with n by lia.
  by rewrite append_assoc.
Qed.



(** ** The interactive front ends *)

Section PromptRuns.
Context {R : Remote}.
Implicit Types w : world R.
Variable input_ : prompt → M (R := R) string.
Variable int_ : string → result Z.

Lemma run_str_or_input_given {B} (s : string) (p : prompt) (k : string → M B) w :
  s ≠ EmptyString → (str_or_input input_ (Some s) p ≫= k) w = k s w.
Proof. intros Hs. unfold str_or_input. destruct s; [done|]. apply run_ret. Qed.

Lemma run_str_or_input_upper_given {B} (s : string) (p : prompt) (k : string → M B) w :
  s ≠ EmptyString → (str_or_input_upper input_ (Some s) p ≫= k) w = k s w.
Proof. intros Hs. unfold str_or_input_upper. destruct s; [done|]. apply run_ret. Qed.

Lemma run_int_or_input_given {B} (n : Z) (p : prompt) (k : Z → M B) w :
  n ≠ 0 → (int_or_input input_ int_ (Some n) p ≫= k) w = k n w.
Proof.
  intros Hn. unfold int_or_input, missing_int.
  destruct (Z.eqb_spec n 0); [done|]. apply run_ret.
Qed.

Lemma int_or_input_zero (p : prompt) :
  int_or_input input_ int_ (Some 0) p = int_or_input input_ int_ None p.
Proof. reflexivity. Qed.

Lemma str_or_input_empty (p : prompt) :
  str_or_input input_ (Some EmptyString) p = str_or_input input_ None p.
Proof. reflexivity. Qed.
End PromptRuns.

(** X17. [select_batch_write_multi_data] does not pass its batch size on:
    the write always runs in batches of 100 rows.  With the four arguments
    given it is [batch_write_multi_data] with batch size 100 and asks
    nothing, whatever batch size was given.  Without a batch size (or with
    0) the operator is still asked for one: an answer that is not a number
    aborts the call with the error of [int], before any request, and a
    number is read and then ignored. *)
Theorem select_batch_write_ignores_batch_size {R : Remote}
    (input_ : prompt → M (R := R) string) (int_ : string → result Z)
    (input_data : input) (spreadsheet_token sheet_name start_loc : string) (w : world R) :
  spreadsheet_token ≠ EmptyString → sheet_name ≠ EmptyString → start_loc ≠ EmptyString →
  let select := select_batch_write_multi_data input_ int_ input_data
                  (Some spreadsheet_token) (Some sheet_name) (Some start_loc) in
  let write_100 := batch_write_multi_data spreadsheet_token sheet_name start_loc input_data 100 in
  (∀ batch_size, batch_size ≠ 0 → select (Some batch_size) w = write_100 w) ∧
  select (Some 0) w = select None w ∧
  (∀ answer w1 t1,
     input_ AskBatchWrite w = (Ok answer, w1, t1) →
     select None w =
       match int_ answer with
       | Ok _ => let '(r, w2, t2) := write_100 w1 in (r, w2, t1 ++ t2)
       | Err e => (Err e, w1, t1)
       end).
Proof.
  intros Htok Hname Hloc select write_100. subst select write_100.
  unfold select_batch_write_multi_data. split; [|split].
  - intros batch_size Hbs.
    rewrite !run_str_or_input_given by done. by rewrite run_int_or_input_given.
  - rewrite !run_str_or_input_given by done. reflexivity.
  - intros answer w1 t1 Hask.
    rewrite !run_str_or_input_given by done.
    unfold int_or_input. cbn [missing_int]. rewrite run_bind, run_bind, Hask.
    destruct (int_ answer) as [n|e].
    + unfold lift. cbn [app]. rewrite app_nil_r.
      by destruct (batch_write_multi_data _ _ _ _ _ w1) as [[r w2] t2].
    + unfold lift. by rewrite app_nil_r.
Qed.

Lemma select_batch_write_ignores_batch_size_witness :
  select_batch_write_multi_data (R := scripted "t" [("Sheet1", "sid")])
    (λ _, mret "7") (λ _, Ok 7) (InList [[CInt 1]; [CInt 2]; [CInt 3]])
    (Some "tok") (Some "Sheet1") (Some "A1") (Some 1)
    {| gets := []; puts := [Ok {| code := 0; msg := "" |}] |}
  = (Ok (), {| gets := []; puts := [] |},
     [EvAuth; EvQuerySheets "tok";
      EvPut (values_url "tok") "t" "sid!A1:A3" [[CInt 1]; [CInt 2]; [CInt 3]]]).
Proof.
  destruct (select_batch_write_ignores_batch_size (R := scripted "t" [("Sheet1", "sid")])
              (λ _, mret "7") (λ _, Ok 7) (InList [[CInt 1]; [CInt 2]; [CInt 3]])
              "tok" "Sheet1" "A1" {| gets := []; puts := [Ok {| code := 0; msg := "" |}] |})
    as (Hgiven & _); [discriminate..|].
  rewrite Hgiven by lia. vm_compute. reflexivity.
Defined.

(** X18. [select_from_sheet_to_df] with every argument given (texts that
    are not empty, numbers that are not 0) is [load_sheet_data_to_df] on
    these arguments, the column letters being passed as they are, and asks
    nothing.  An argument 0 counts as missing: a first row 0 makes the
    operator be asked for the first row.  A column typed by the operator is
    upper-cased before the read. *)
Theorem select_from_sheet_to_df_given {R : Remote}
    (input_ : prompt → M (R := R) string) (int_ : string → result Z)
    (spreadsheet_token sheet_name : string) (row_id_start row_id_end : Z)
    (col_id_start col_id_end : string) (batch_size : Z) (target_column_names : list cell)
    (w : world R) :
  spreadsheet_token ≠ EmptyString → sheet_name ≠ EmptyString →
  row_id_start ≠ 0 → row_id_end ≠ 0 →
  col_id_start ≠ EmptyString → col_id_end ≠ EmptyString → batch_size ≠ 0 →
  select_from_sheet_to_df input_ int_ (Some spreadsheet_token) (Some sheet_name)
      (Some row_id_start) (Some row_id_end) (Some col_id_start) (Some col_id_end)
      (Some batch_size) target_column_names w
    = load_sheet_data_to_df spreadsheet_token sheet_name row_id_start row_id_end
        col_id_start col_id_end batch_size target_column_names w ∧
  select_from_sheet_to_df input_ int_ (Some spreadsheet_token) (Some sheet_name)
      (Some 0) (Some row_id_end) (Some col_id_start) (Some col_id_end)
      (Some batch_size) target_column_names w
    = select_from_sheet_to_df input_ int_ (Some spreadsheet_token) (Some sheet_name)
        None (Some row_id_end) (Some col_id_start) (Some col_id_end)
        (Some batch_size) target_column_names w ∧
  (∀ answer w1 t1,
     input_ AskColEnd w = (Ok answer, w1, t1) →
     select_from_sheet_to_df input_ int_ (Some spreadsheet_token) (Some sheet_name)
         (Some row_id_start) (Some row_id_end) (Some col_id_start) None
         (Some batch_size) target_column_names w
       = let '(r, w2, t2) :=
           load_sheet_data_to_df spreadsheet_token sheet_name row_id_start row_id_end
             col_id_start (upper answer) batch_size target_column_names w1 in
         (r, w2, t1 ++ t2)).
Proof.
  intros Htok Hname Hrs Hre Hcs Hce Hbs. unfold select_from_sheet_to_df.
  split; [|split].
  - rewrite !run_str_or_input_given by done.
    rewrite !run_int_or_input_given by done.
    rewrite !run_str_or_input_upper_given by done.
    by rewrite run_int_or_input_given.
  - rewrite !run_str_or_input_given by done. reflexivity.
  - intros answer w1 t1 Hask.
    rewrite !run_str_or_input_given by done.
    rewrite !run_int_or_input_given by done.
    rewrite run_str_or_input_upper_given by done.
    unfold str_or_input_upper. cbn [missing_str]. rewrite run_bind, run_bind, Hask.
    unfold mret, M_ret. rewrite app_nil_r.
    rewrite run_int_or_input_given by done. reflexivity.
Qed.

Lemma select_from_sheet_to_df_given_witness :
  select_from_sheet_to_df (R := scripted "t" [("Sheet1", "sid")])
    (λ _, mret "c") (λ _, Ok 7)
    (Some "tok") (Some "Sheet1") (Some 5) (Some 4) (Some "A") None (Some 10) []
    {| gets := [Ok [[CStr "id"; CNone; CStr "name"]]]; puts := [] |}
  = (Ok {| df_columns := [CStr "id"; CStr "name"]; df_values := [] |},
     {| gets := []; puts := [] |},
     [EvAuth; EvQuerySheets "tok"; EvGet (head_section_url "tok" "sid" "A" "C") "t"]).
Proof.
  destruct (select_from_sheet_to_df_given (R := scripted "t" [("Sheet1", "sid")])
              (λ _, mret "c") (λ _, Ok 7) "tok" "Sheet1" 5 4 "A" "Z" 10 []
              {| gets := [Ok [[CStr "id"; CNone; CStr "name"]]]; puts := [] |})
    as (_ & _ & Htyped); [discriminate..|].
  rewrite (Htyped "c" _ [] eq_refl). vm_compute. reflexivity.
Defined.

(** ** What is written can be read back *)

Lemma filter_all {A} (P : A → Prop) `{∀ x, Decision (P x)} (l : list A) :
  Forall P l → filter P l = l.
Proof.
  induction 1 as [|x l Hx _ IH]; [done|]. by rewrite filter_cons_True, IH.
Qed.

Lemma valid_label_sanitize (col : cell) : valid_label col → sanitize col = col.
Proof. intros (_ & _ & Hna). by apply sanitize_id. Qed.

(** X19. The grid the writers send for a labelled input (DataFrame or
    dict) whose labels are all valid is read back unchanged by the assembly
    that ends [load_sheet_data_to_df]: its first row is the labels, and
    assembling it with no requested column gives the frame with these labels
    and the remaining rows, none dropped, no column dropped. *)
Theorem labelled_grid_reads_back (input_data : input) (labels : list cell) (sd : grid) :
  labels_of input_data = Some labels →
  normalize input_data = Ok sd →
  Forall valid_label labels →
  ∃ rows, sd = labels :: rows ∧
          assemble sd [] = Ok {| df_columns := labels; df_values := rows |}.
Proof.
  intros Hlabels Hnorm Hvalid.
  destruct (normalize_ok_inv input_data sd Hnorm) as (formatted & c & Hf & Hrect & ->).
  destruct (format_input_labelled input_data labels formatted Hlabels Hf) as [rows0 ->].
  destruct Hrect as (_ & Hc & Hall). apply Forall_cons in Hall as [Hlen Hall].
  assert (sanitize <$> labels = labels) as Hsame.
  { rewrite <- (list_fmap_id labels) at 2. apply Forall_fmap_ext_1.
    eapply Forall_impl; [exact Hvalid|]. intros col Hcol. by apply valid_label_sanitize. }
  exists (standardize rows0).
  assert (standardize (labels :: rows0) = labels :: standardize rows0) as ->.
  { unfold standardize. by rewrite fmap_cons, Hsame. }
  split; [done|].
  assert (Forall (λ row, length row = length labels) (standardize rows0)) as Hrows.
  { unfold standardize. apply Forall_fmap. eapply Forall_impl; [exact Hall|].
    intros row Hrow. simpl in *. rewrite length_fmap. lia. }
  rewrite assemble_unfold by done. f_equal. unfold cleaned_frame. f_equal.
  - by apply filter_all.
  - rewrite filter_all.
    + rewrite <- (list_fmap_id (standardize rows0)) at 2. apply Forall_fmap_ext_1.
      eapply Forall_impl; [exact Hrows|]. intros row Hrow. simpl in Hrow |- *.
      rewrite filter_all.
      * apply snd_zip. lia.
      * apply Forall_forall. intros [col v] Hin. simpl.
        rewrite Forall_forall in Hvalid. apply Hvalid. by apply elem_of_zip_l in Hin.
    + pose proof (standardize_clean rows0) as Hclean.
      rewrite Forall_forall in Hclean, Hrows |- *. intros row Hrow Hmissing.
      specialize (Hclean row Hrow). specialize (Hrows row Hrow).
      destruct row as [|x row]; [simpl in Hrows; lia|].
      apply Forall_cons in Hclean as [Hx _]. unfold all_missing in Hmissing.
      apply Forall_cons in Hmissing as [Hx' _]. congruence.
Qed.

Lemma labelled_grid_reads_back_witness :
  ∃ rows,
    [[CStr "id"; CStr "name"]; [CInt 1; CStr ""]; [CInt 2; CStr "b"]]
      = [CStr "id"; CStr "name"] :: rows ∧
    assemble [[CStr "id"; CStr "name"]; [CInt 1; CStr ""]; [CInt 2; CStr "b"]] []
      = Ok {| df_columns := [CStr "id"; CStr "name"]; df_values := rows |}.
Proof.
  apply (labelled_grid_reads_back
           (InDict [(CStr "id", [CInt 1; CInt 2]); (CStr "name", [CNone; CStr "b"])])).
  - reflexivity.
  - vm_compute. reflexivity.
  - repeat constructor; discriminate.
Defined.

(** ** [create_sheet] *)



(** ** A batched read on any remote *)

Section ReadLoopAnyOutcome.
Context {R : Remote}.
Implicit Types w : world R.

(** However the loop over the windows ends, it has requested the first
    urls of the list, in order, each between one and five times; it fails
    only on a url requested five times. *)
Lemma get_windows_any (url_list : list string) (bearer : string) (data_all : grid)
    w (r : result grid) w' t :
  get_windows url_list bearer data_all w = (r, w', t) →
  ∃ counts : list nat,
    (length counts ≤ length url_list)%nat ∧
    Forall (λ k, 1 ≤ k ≤ 5)%nat counts ∧
    gets_of t = concat (zip_with replicate counts url_list) ∧
    puts_of t = [] ∧
    match r with
    | Ok data => length counts = length url_list ∧
                 ∃ batches, length batches = length url_list ∧
                            data = data_all ++ concat batches
    | Err _ => last counts = Some 5%nat
    end.
Proof.
  revert w t data_all. induction url_list as [|url url_list IH]; intros w t data_all.
  - intros [= <- <- <-]. exists []. repeat split; try done.
    exists []. by rewrite app_nil_r.
  - cbn [get_windows]. intros Hrun.
    apply run_bind_inv in Hrun as [(e & Hm & ->)|(d1 & w1 & t1 & t2 & Hm & Hk & ->)].
    + destruct (get_attempts_trace url bearer data_all 5 0 w (Err e) w' t)
        as (k & w0 & Hk & -> & _ & Hlast); [lia|lia|exact Hm|].
      assert (k = 4%nat) as -> by lia.
      exists [5%nat]. split; [simpl; lia|]. split; [repeat constructor; lia|].
      split; [by destruct url_list|]. done.
    + destruct (get_attempts_trace url bearer data_all 5 0 w (Ok d1) w1 t1)
        as (k & w0 & Hk5 & -> & rows & _ & ->); [lia|lia|exact Hm|].
      destruct (IH _ _ _ Hk) as (counts & Hlen & Hall & Hgets & Hputs & Hout).
      exists (S k :: counts). split; [simpl; lia|]. split.
      { constructor; [lia|done]. }
      split.
      { rewrite gets_of_app, gets_of_read_retry_trace, Hgets. done. }
      split.
      { rewrite puts_of_app, Hputs, app_nil_r. clear.
        generalize 0%nat. induction k as [|k IHk]; intros j; [done|]. apply (IHk (S j)). }
      destruct r as [data|e].
      * destruct Hout as (Hfull & batches & Hb & ->). split; [simpl; lia|].
        exists (rows :: batches). split; [simpl; lia|]. by rewrite <- app_assoc.
      * rewrite last_cons, Hout. done.
Qed.
End ReadLoopAnyOutcome.



(** ** DataFrame inputs *)

(** X22. A DataFrame in which every row has one cell per column is accepted
    by the writers exactly when it has at least one column, rows or no
    rows: the grid sent is the sanitised labels followed by the sanitised
    rows, so a frame without rows is written as its header alone.  A frame
    without columns is refused as an empty row. *)
Theorem dataframe_normalized (df : DataFrame) :
  Forall (λ row, length row = length (df_columns df)) (df_values df) →
  to_2d_list (InDataFrame df) = Ok (df_columns df :: df_values df) ∧
  (df_columns df ≠ [] →
     normalize (InDataFrame df) = Ok (standardize (df_columns df :: df_values df))) ∧
  (df_columns df = [] →
     normalize (InDataFrame df) = Err (ValueError EmptyRow)).
Proof.
  intros Hall. split; [reflexivity|]. unfold normalize, format_input, to_2d_list.
  cbn [wrap app]. rewrite result_bind_ok. split.
  - intros Hne.
    assert (check_2d_list (df_columns df :: df_values df) = Ok ()) as ->;
      [|by rewrite result_bind_ok].
    apply check_2d_list_ok. exists (length (df_columns df)). split; [done|]. split.
    + destruct (df_columns df); [done|simpl; lia].
    + by constructor.
  - intros Hnil. rewrite check_2d_list_empty_row; [done|]. rewrite Hnil. left.
Qed.

Lemma dataframe_normalized_witness :
  normalize (InDataFrame {| df_columns := [CStr "id"; CNone]; df_values := [] |})
  = Ok [[CStr "id"; CStr ""]].
Proof.
  destruct (dataframe_normalized {| df_columns := [CStr "id"; CNone]; df_values := [] |})
    as (_ & Hok & _); [constructor|].
  rewrite Hok by discriminate. reflexivity.
Defined.

(** ** One batch for everything *)

(** X23. When the batch size is at least the number of rows, the plan of
    [batch_write_multi_data] is a single chunk: the whole sanitised grid, at
    the range [complete_data_range] computes for it, which is the PUT
    [write_multi_data] sends for the same input. *)
Theorem single_batch_is_whole_grid (L : string) (o n : Z) (c : nat) (g : grid)
    (batch_size : Z) :
  col_to_order col_order_info !! L = Some o →
  0 ≤ n →
  rectangular c g →
  o + Z.of_nat c - 1 ≤ 701 →
  Z.of_nat (length g) ≤ batch_size →
  ∃ data_range,
    complete_data_range (L +:+ py_str n) (standardize g) = Ok data_range ∧
    write_plan L n (standardize g) batch_size =
      Ok [{| chunk_origin := L +:+ py_str n;
             chunk_range := data_range;
             chunk_data := standardize g |}].
Proof.
  intros Hcol Hn Hrect He Hbs.
  pose proof (col_to_order_valid L o Hcol) as [Ho _].
  assert (0 < c)%nat as Hc by apply Hrect.
  destruct (order_to_col_total (o + Z.of_nat c - 1)) as (end_letter & Hend & _); [lia|].
  pose proof (standardize_rectangular c g Hrect) as Hsd.
  pose proof (standardize_length g) as Hlen.
  assert (length g ≠ 0%nat) as Hg.
  { destruct Hrect as (Hnil & _). intros H0. apply Hnil. exact (nil_length_inv _ H0). }
  assert (∃ b : nat, batch_size = Z.of_nat b ∧ (length g ≤ b)%nat) as (b & -> & Hb).
  { exists (Z.to_nat batch_size). lia. }
  eexists. split.
  - rewrite (complete_data_range_cell L o n c _ Hcol Hn Hsd), Hend. reflexivity.
  - rewrite (write_plan_ok L end_letter o n c _ b Hcol Hend Hn Hsd) by lia.
    assert (ceil_div (Z.of_nat (length (standardize g))) (Z.of_nat b) = 1) as ->.
    { apply ceil_div_spec; lia. }
    change (Z.to_nat 1) with 1%nat. cbn [seq fmap list_fmap].
    unfold nth_chunk. change (0 * b)%nat with 0%nat. rewrite drop_0, take_ge by lia.
    change (Z.of_nat 0) with 0. rewrite Z.add_0_r. reflexivity.
Qed.

Lemma single_batch_is_whole_grid_witness :
  write_plan "B" 2 (standardize [[CInt 1; CNone]; [CInt 2; CStr "x"]]) 100 =
    Ok [{| chunk_origin := "B2"; chunk_range := "B2:C3";
           chunk_data := [[CInt 1; CStr ""]; [CInt 2; CStr "x"]] |}].
Proof.
  destruct (single_batch_is_whole_grid "B" 1 2 2 [[CInt 1; CNone]; [CInt 2; CStr "x"]] 100)
    as (data_range & Hrange & Hplan).
  - apply col_to_order_spec. split; [lia|reflexivity].
  - lia.
  - split; [discriminate|]. split; [lia|]. repeat constructor.
  - lia.
  - simpl. lia.
  - rewrite Hplan. f_equal. f_equal. f_equal.
    assert (Ok data_range = (Ok "B2:C3" : result string)) as E; [|by injection E].
    rewrite <- Hrange. vm_compute. reflexivity.
Defined.

(** ** Range errors come after the first two requests *)

(** On grids of the same width a start location fails in the same way. *)
Lemma complete_data_range_err_width (start_loc : string) (c : nat) (g1 g2 : grid) (e : pyexc) :
  rectangular c g1 → rectangular c g2 →
  complete_data_range start_loc g1 = Err e → complete_data_range start_loc g2 = Err e.
Proof.
  intros H1 H2.
  destruct (rectangular_first c g1 H1) as (row1 & Hrow1 & Hlen1).
  destruct (rectangular_first c g2 H2) as (row2 & Hrow2 & Hlen2).
  assert (check_2d_list g1 = Ok ()) as Hchk1 by (apply check_2d_list_ok; eauto).
  assert (check_2d_list g2 = Ok ()) as Hchk2 by (apply check_2d_list_ok; eauto).
  unfold complete_data_range.
  destruct (re_search_cell start_loc) as [[letters digits]|]; [|exact (λ H, H)].
  cbn [subscript]. rewrite !result_bind_ok. cbn [fst snd].
  destruct (py_int digits) as [n|]; [|exact (λ H, H)].
  cbn [subscript]. rewrite !result_bind_ok, Hchk1, Hchk2, !result_bind_ok, Hrow1, Hrow2.
  cbn [subscript]. rewrite !result_bind_ok, Hlen1, Hlen2.
  generalize (col_to_order col_order_info !! upper letters). intros [o|]; [|exact (λ H, H)].
  cbn [subscript]. rewrite !result_bind_ok.
  generalize (order_to_col col_order_info !! (o + Z.of_nat c - 1)).
  intros [end_letter|]; [|exact (λ H, H)].
  cbn [subscript wrap]. rewrite !result_bind_ok. cbn [wrap]. intros H. discriminate H.
Qed.

Lemma re_search_cell_letters (s letters digits : string) :
  re_search_cell s = Some (letters, digits) →
  letters ≠ EmptyString ∧ string_forall is_alpha letters = true.
Proof.
  intros [s' Hs']%re_search_cell_match.
  unfold match_cell_at in Hs'. destruct (span is_alpha s') as [l rest] eqn:Hsp.
  destruct (span is_digit rest) as [d rest']. destruct l; [discriminate Hs'|].
  destruct d; [discriminate Hs'|]. injection Hs' as <- <-.
  split; [discriminate|]. exact (span_forall _ _ _ _ Hsp).
Qed.

(** X24. On an accepted input, once the token and the sheet are obtained,
    a start location that cannot be used fails both writers after these two
    requests and before any PUT.  Without a cell reference,
    [write_multi_data] reports the [AttributeError] of
    [complete_data_range], and [batch_write_multi_data], which parses the
    start location itself, reports it bare.  With a cell reference whose
    column is unknown or too far right for the grid, both report the error
    of [complete_data_range]: the batched writer meets it on its first
    chunk, whatever the batch size. *)
Theorem range_errors_precede_puts {R : Remote}
    (spreadsheet_token sheet_name start_loc : string) (input_data : input) (sd : grid)
    (batch_size : Z) (bearer sheet_id : string) (w w1 w2 : world R) :
  normalize input_data = Ok sd →
  post_auth R w = (Ok bearer, w1) →
  get_sheet_id spreadsheet_token sheet_name w1
    = (Ok sheet_id, w2, [EvQuerySheets spreadsheet_token]) →
  (re_search_cell start_loc = None →
     write_multi_data spreadsheet_token sheet_name start_loc input_data w =
       (Err (Failed "write_multi_data" (Failed "complete_data_range" AttributeError)), w2,
        [EvAuth; EvQuerySheets spreadsheet_token]) ∧
     batch_write_multi_data spreadsheet_token sheet_name start_loc input_data batch_size w =
       (Err (Failed "batch_write_multi_data" AttributeError), w2,
        [EvAuth; EvQuerySheets spreadsheet_token])) ∧
  (∀ letters digits n e,
     re_search_cell start_loc = Some (letters, digits) → py_int digits = Some n →
     complete_data_range start_loc sd = Err e →
     1 ≤ batch_size →
     write_multi_data spreadsheet_token sheet_name start_loc input_data w =
       (Err (Failed "write_multi_data" e), w2, [EvAuth; EvQuerySheets spreadsheet_token]) ∧
     batch_write_multi_data spreadsheet_token sheet_name start_loc input_data batch_size w =
       (Err (Failed "batch_write_multi_data" e), w2,
        [EvAuth; EvQuerySheets spreadsheet_token])).
Proof.
  intros Hnorm Hauth Hsheet.
  assert (∀ e, complete_data_range start_loc sd = Err e →
            write_multi_data spreadsheet_token sheet_name start_loc input_data w =
              (Err (Failed "write_multi_data" e), w2, [EvAuth; EvQuerySheets spreadsheet_token]))
    as Hsingle.
  { intros e Hcr. rewrite write_multi_data_factor, run_wrapM, Hnorm, run_lift_ok.
    unfold send_standard. rewrite run_bind, run_get_tenant_access_token, Hauth.
    cbn [wrap fst snd]. rewrite run_bind, Hsheet, Hcr, run_lift_err. reflexivity. }
  assert (∀ pre,
            batch_prelude start_loc sd batch_size = pre →
            batch_write_multi_data spreadsheet_token sheet_name start_loc input_data
                                   batch_size w =
            match pre with
            | Err e => (Err (Failed "batch_write_multi_data" e), w2,
                        [EvAuth; EvQuerySheets spreadsheet_token])
            | Ok (start_letter, start_number, starts) =>
                let '(r, w3, t3) :=
                  for_each starts (write_batch (values_url spreadsheet_token) bearer sheet_id
                                               start_letter start_number sd batch_size) w2 in
                (wrap "batch_write_multi_data" r, w3,
                 EvAuth :: EvQuerySheets spreadsheet_token :: t3)
            end) as Hbatch.
  { intros pre <-.
    rewrite batch_write_multi_data_factor, run_wrapM, Hnorm, run_lift_ok, run_send_batches.
    rewrite Hauth, Hsheet.
    destruct (batch_prelude start_loc sd batch_size) as [[[L n] starts]|e]; [|reflexivity].
    destruct (for_each starts _ w2) as [[[[]|e] w3] t3]; reflexivity. }
  split.
  - intros Hre. split.
    + apply Hsingle. unfold complete_data_range. by rewrite Hre.
    + rewrite (Hbatch (Err AttributeError)); [reflexivity|].
      unfold batch_prelude. by rewrite Hre.
  - intros letters digits n e Hre Hint Hcr Hbs. split; [by apply Hsingle|].
    destruct (normalize_rectangular input_data sd Hnorm) as [c Hrect].
    pose proof (py_int_nonneg digits n Hint) as Hn.
    destruct (py_str_nonneg_digits n Hn) as [Hdne Hdig].
    destruct (re_search_cell_letters _ _ _ Hre) as [Hl Hla].
    assert (length sd ≠ 0%nat) as Hlen.
    { destruct Hrect as (Hnil & _). intros H0. apply Hnil. exact (nil_length_inv _ H0). }
    assert (∃ b : nat, batch_size = Z.of_nat b ∧ (0 < b)%nat) as (b & -> & Hb).
    { exists (Z.to_nat batch_size). lia. }
    pose proof (ceil_div_pos (Z.of_nat (length sd)) (Z.of_nat b) ltac:(lia) ltac:(lia)) as Hpos.
    destruct (Z.to_nat (ceil_div (Z.of_nat (length sd)) (Z.of_nat b))) as [|k] eqn:Hk; [lia|].
    rewrite (Hbatch (Ok (upper letters, n,
               (λ i : nat, 0 + Z.of_nat i * Z.of_nat b) <$> seq 0 (S k)))).
    2: { unfold batch_prelude. rewrite Hre. cbn [subscript]. rewrite result_bind_ok.
         cbn [fst snd]. rewrite Hint. cbn [subscript]. rewrite result_bind_ok.
         rewrite batch_num_ceil by lia. rewrite result_bind_ok.
         rewrite py_range_ascending by lia. rewrite Z.sub_0_r, Hk. by rewrite result_bind_ok. }
    cbn [seq fmap list_fmap for_each]. rewrite run_bind, run_write_batch.
    assert (plan_chunk (upper letters) n sd (Z.of_nat b) (0 + Z.of_nat 0 * Z.of_nat b) = Err e)
      as ->; [|reflexivity].
    unfold plan_chunk. change (0 + Z.of_nat 0 * Z.of_nat b) with (Z.of_nat (0 * b)).
    rewrite py_slice_batch by lia. change (Z.of_nat (0 * b)) with 0. rewrite Z.add_0_r.
    assert (complete_data_range (upper letters +:+ py_str n) (take b (drop (0 * b) sd)) = Err e)
      as ->; [|reflexivity].
    rewrite (complete_data_range_congr _ start_loc (upper letters) (py_str n) letters digits).
    + apply (complete_data_range_err_width start_loc c sd); [done| |done].
      apply batch_rectangular; [done|lia|lia].
    + apply re_search_cell_canonical; [by apply upper_nonempty|by apply upper_alpha|done..].
    + exact Hre.
    + apply upper_idem.
    + by rewrite Hint, py_int_str.
Qed.

Lemma range_errors_precede_puts_witness :
  write_multi_data (R := scripted "t" [("Sheet1", "sid")]) "tok" "Sheet1" "ZZ1"
    (InList [[CInt 1; CInt 2]]) {| gets := []; puts := [] |}
  = (Err (Failed "write_multi_data" (Failed "complete_data_range" (KeyError (KInt 702)))),
     {| gets := []; puts := [] |}, [EvAuth; EvQuerySheets "tok"]) ∧
  batch_write_multi_data (R := scripted "t" [("Sheet1", "sid")]) "tok" "Sheet1" "ZZ1"
    (InList [[CInt 1; CInt 2]]) 100 {| gets := []; puts := [] |}
  = (Err (Failed "batch_write_multi_data"
            (Failed "complete_data_range" (KeyError (KInt 702)))),
     {| gets := []; puts := [] |}, [EvAuth; EvQuerySheets "tok"]).
Proof.
  destruct (range_errors_precede_puts (R := scripted "t" [("Sheet1", "sid")])
              "tok" "Sheet1" "ZZ1" (InList [[CInt 1; CInt 2]]) [[CInt 1; CInt 2]] 100 "t" "sid"
              {| gets := []; puts := [] |} {| gets := []; puts := [] |}
              {| gets := []; puts := [] |}) as [_ Hcol]; [reflexivity..|].
  apply (Hcol "ZZ" "1" 1); [reflexivity|reflexivity| |lia].
  vm_compute. reflexivity.
Defined.
